(** * A shallow embedding of the mahjong hand evaluators

    The repository holds four variants of one calculator (jjjj.py,
    smalljj.py, lebron.py, jonjonjon.py).  Each variant has a class
    [JapaneseMahjong] with the same method names, so every variant is
    embedded in a module of its own, named after its file.

    Conventions of the embedding:
    - a Python [int] is a [Z]; [len] and [list.count] return [Z];
    - the hand [tiles] is the dict [{'m': [], 'p': [], 's': [], 'z': []}];
      its four keys are fixed, so it is a record of four rank lists and
      iterating over the dict visits m, p, s, z in this order;
    - other dicts are association lists in insertion order;
    - a [raise] is a value of [result]; recursion that Python bounds only
      by the shrinking argument takes a fuel argument, and running out of
      fuel is the separate outcome [OutOfFuel];
    - the names of the scoring patterns are the strings of the source. *)

From Stdlib Require Import String Ascii.
From Stdlib Require Import ZArith List Bool Lia Permutation Arith Sorted.
Import ListNotations.

Local Open Scope string_scope.
Local Open Scope list_scope.
Local Open Scope Z_scope.

(** ** Python values and exceptions *)

Module Py.

(** Every exception raised in the engine is a [ValueError] (list.remove
    raises it too); [KeyError] is what indexing a dict raises.  The
    constructors keep what the message of the source interpolates. *)
Inductive exn : Type :=
| EmptyInput                      (* "輸入為空！" *)
| RankOutOfRange (num : Z)        (* "牌的數字必須在1-9之間，但輸入了：{num}" *)
| MissingSuitMark                 (* "數字後面必須跟花色標記(m/p/s/z)" *)
| WrongTileCount (total : Z)      (* "手牌張數錯誤 ({total}張)，必須為14張" *)
| NotInList                       (* list.remove(x): x not in list *)
| KeyError
| StopIteration
| BadReference.                   (* a reference to no object; Python has none *)

Inductive result (A : Type) : Type :=
| Ok (a : A)
| Raise (e : exn)
| OutOfFuel.

Arguments Ok {A} a.
Arguments Raise {A} e.
Arguments OutOfFuel {A}.

Definition bind {A B : Type} (r : result A) (k : A -> result B) : result B :=
  match r with
  | Ok a => k a
  | Raise e => Raise e
  | OutOfFuel => OutOfFuel
  end.

Definition len {A : Type} (l : list A) : Z := Z.of_nat (length l).

(** Dicts, in insertion order. *)
Definition dict (K V : Type) : Type := list (K * V).

Section Eq.
Context {A : Type} (eqb : A -> A -> bool).

  (** [x in l] *)
Definition mem (x : A) (l : list A) : bool := existsb (fun y => eqb y x) l.

  (** [l.count(x)] *)
Definition count (x : A) (l : list A) : Z :=
    len (filter (fun y => eqb y x) l).

  (** [l.remove(x)]: drops the first element equal to [x], raises when
      there is none. *)
Fixpoint remove (x : A) (l : list A) : result (list A) :=
    match l with
    | [] => Raise NotInList
    | y :: l' =>
        if eqb y x then Ok l'
        else bind (remove x l') (fun r => Ok (y :: r))
    end.

  (** Whether [l'] holds the elements of [l], each as often: they are
      removed from [l'] one by one. *)
Fixpoint is_perm (l l' : list A) : bool :=
    match l with
    | [] => negb (existsb (fun _ => true) l')
    | x :: l0 =>
        match remove x l' with
        | Ok r => is_perm l0 r
        | _ => false
        end
    end.

  (** The elements of [set(l)].  Python leaves the iteration order of a
      set open; the embedding visits the elements in the order of their
      first occurrence in [l]. *)
Fixpoint set_of (l : list A) : list A :=
    match l with
    | [] => []
    | x :: l' => x :: filter (fun y => negb (eqb y x)) (set_of l')
    end.

Fixpoint dict_find {V : Type} (d : dict A V) (k : A) : option V :=
    match d with
    | [] => None
    | (k', v) :: d' => if eqb k' k then Some v else dict_find d' k
    end.

  (** [d.get(k, dflt)] *)
Definition dict_get {V : Type} (d : dict A V) (k : A) (dflt : V) : V :=
    match dict_find d k with Some v => v | None => dflt end.

  (** [k in d] *)
Definition dict_mem {V : Type} (d : dict A V) (k : A) : bool :=
    match dict_find d k with Some _ => true | None => false end.

  (** [d[k]] *)
Definition dict_index {V : Type} (d : dict A V) (k : A) : result V :=
    match dict_find d k with Some v => Ok v | None => Raise KeyError end.

  (** [d[k] = v] *)
Fixpoint dict_set {V : Type} (d : dict A V) (k : A) (v : V) : dict A V :=
    match d with
    | [] => [(k, v)]
    | (k', v') :: d' =>
        if eqb k' k then (k', v) :: d' else (k', v') :: dict_set d' k v
    end.

Definition dict_keys {V : Type} (d : dict A V) : list A := map fst d.
Definition dict_values {V : Type} (d : dict A V) : list V := map snd d.
End Eq.

(** [l1 == l2] on lists of integers. *)
Fixpoint list_eqb (l1 l2 : list Z) : bool :=
  match l1, l2 with
  | [], [] => true
  | x :: l1', y :: l2' => (x =? y) && list_eqb l1' l2'
  | _, _ => false
  end.

(** [sum(...)] over integers *)
Definition sum (l : list Z) : Z := fold_left Z.add l 0.

(** Insertion into a sorted list, and [sorted(l)] / [l.sort()]. *)
Fixpoint insert_sorted (x : Z) (l : list Z) : list Z :=
  match l with
  | [] => [x]
  | y :: l' => if x <? y then x :: y :: l' else y :: insert_sorted x l'
  end.

Definition sorted (l : list Z) : list Z := fold_left (fun acc x => insert_sorted x acc) l [].

End Py.

Import Py.

Declare Scope result_scope.
Delimit Scope result_scope with result.
Notation "x <- e ;; k" := (bind e (fun x => k))
  (at level 61, e at next level, right associativity) : result_scope.
Notation "' pat <- e ;; k" := (bind e (fun x => match x with pat => k end))
  (at level 61, pat pattern, e at next level, right associativity) : result_scope.
Local Open Scope result_scope.

(** ** Tiles and hands *)

Inductive suit : Type := Sm | Sp | Ss | Sz.   (* 'm', 'p', 's', 'z' *)

Definition suit_eqb (a b : suit) : bool :=
  match a, b with
  | Sm, Sm | Sp, Sp | Ss, Ss | Sz, Sz => true
  | _, _ => false
  end.

(** A tile as the tuple [(suit, num)]. *)
Definition tile : Type := (suit * Z)%type.

Definition tile_eqb (a b : tile) : bool :=
  suit_eqb (fst a) (fst b) && (snd a =? snd b).

(** The dict [tiles]. *)
Record hand : Type := mkHand {
  tiles_m : list Z;
  tiles_p : list Z;
  tiles_s : list Z;
  tiles_z : list Z
}.

(** [tiles[suit]] *)
Definition get (tiles : hand) (st : suit) : list Z :=
  match st with
  | Sm => tiles_m tiles
  | Sp => tiles_p tiles
  | Ss => tiles_s tiles
  | Sz => tiles_z tiles
  end.

(** The dict with the list under one key replaced. *)
Definition with_suit (tiles : hand) (st : suit) (l : list Z) : hand :=
  match st with
  | Sm => mkHand l (tiles_p tiles) (tiles_s tiles) (tiles_z tiles)
  | Sp => mkHand (tiles_m tiles) l (tiles_s tiles) (tiles_z tiles)
  | Ss => mkHand (tiles_m tiles) (tiles_p tiles) l (tiles_z tiles)
  | Sz => mkHand (tiles_m tiles) (tiles_p tiles) (tiles_s tiles) l
  end.

(** The keys of [tiles] in dict order, and the numeric suits. *)
Definition suits : list suit := [Sm; Sp; Ss; Sz].
Definition numeric_suits : list suit := [Sm; Sp; Ss].

(** [sum(len(tiles[s]) for s in tiles)] *)
Definition total_tiles (tiles : hand) : Z :=
  sum (map (fun st => len (get tiles st)) suits).

(** Truth value of a list: non-empty. *)
Definition truthy {A : Type} (l : list A) : bool :=
  match l with [] => false | _ :: _ => true end.

(** A scoring pattern with its value, the tuple [(name, fan)]. *)
Definition yaku : Type := (string * Z)%type.

(** [sum(fan for _, fan in yaku_list)] *)
Definition total_fan (yaku_list : list yaku) : Z := sum (map snd yaku_list).

(** An entry of [BASE_POINTS]. *)
Record points : Type := mkPoints { tsumo : Z; ron : Z }.

(** ** The meld search shared by jjjj.py and smalljj.py

    [_check_melds_valid] and [_try_form_melds] are the same text in both
    files. *)

Module Melds.

(** The three [remaining.remove((suit, num))] of the triplet branch. *)
Definition remove_triplet (t : tile) (tile_list : list tile) : result (list tile) :=
  r1 <- remove tile_eqb t tile_list ;;
  r2 <- remove tile_eqb t r1 ;;
  remove tile_eqb t r2.

(** The three removals of the sequence branch. *)
Definition remove_sequence (st : suit) (num : Z) (tile_list : list tile)
  : result (list tile) :=
  r1 <- remove tile_eqb (st, num) tile_list ;;
  r2 <- remove tile_eqb (st, num + 1) r1 ;;
  remove tile_eqb (st, num + 2) r2.

Fixpoint try_form_melds_fuel (fuel : nat) (tile_list : list tile) : result bool :=
  match fuel with
  | O => OutOfFuel
  | S fuel' =>
      match tile_list with
      | [] => Ok true
      | (st, num) :: _ =>
          if negb (len tile_list mod 3 =? 0) then Ok false
          else
            let triplet_count := count tile_eqb (st, num) tile_list in
            by_triplet <-
              (if 3 <=? triplet_count then
                 remaining <- remove_triplet (st, num) tile_list ;;
                 try_form_melds_fuel fuel' remaining
               else Ok false) ;;
            if by_triplet then Ok true
            else if mem suit_eqb st numeric_suits && (num <=? 7) then
              if mem tile_eqb (st, num + 1) tile_list
                 && mem tile_eqb (st, num + 2) tile_list then
                remaining <- remove_sequence st num tile_list ;;
                by_sequence <- try_form_melds_fuel fuel' remaining ;;
                if by_sequence then Ok true else Ok false
              else Ok false
            else Ok false
      end
  end.

(** One unit of fuel per tile is more than any run uses: every recursive
    call is on a list three tiles shorter. *)
Definition _try_form_melds (tile_list : list tile) : result bool :=
  try_form_melds_fuel (S (length tile_list)) tile_list.

(** The list of tuples built by the two nested loops. *)
Definition tile_list_of (f : list Z -> list Z) (tiles : hand) : list tile :=
  flat_map (fun st => map (fun num => (st, num)) (f (get tiles st))) suits.

Definition _check_melds_valid (tiles : hand) : result bool :=
  _try_form_melds (tile_list_of sorted tiles).

(** The body of the loop over the candidate pairs: copy, remove the pair
    twice, check the twelve tiles left. *)
Definition try_pair (tiles : hand) (candidate : tile) : result bool :=
  let '(pair_suit, pair_num) := candidate in
  l1 <- remove Z.eqb pair_num (get tiles pair_suit) ;;
  l2 <- remove Z.eqb pair_num l1 ;;
  _check_melds_valid (with_suit tiles pair_suit l2).

(** [for ... in candidates: if ...: return True] then [return False]. *)
Fixpoint try_pairs (tiles : hand) (candidates : list tile) : result bool :=
  match candidates with
  | [] => Ok false
  | candidate :: rest =>
      valid <- try_pair tiles candidate ;;
      if valid then Ok true else try_pairs tiles rest
  end.

End Melds.

(** ** Text input shared by jjjj.py and smalljj.py

    [parse_hand] is the same text in both files.  The embedding reads the
    input as a list of ASCII characters. *)

Module Parse.

(** [c.isdigit()] and [int(c)] on ASCII. *)
Definition isdigit (c : ascii) : bool :=
  let n := nat_of_ascii c in (48 <=? n)%nat && (n <=? 57)%nat.

Definition int_of (c : ascii) : Z := Z.of_nat (nat_of_ascii c) - 48.

(** Characters that [str.strip()] drops: ASCII whitespace. *)
Definition isspace (c : ascii) : bool :=
  let n := nat_of_ascii c in
  ((9 <=? n)%nat && (n <=? 13)%nat) || ((28 <=? n)%nat && (n <=? 32)%nat).

Fixpoint lstrip (l : list ascii) : list ascii :=
  match l with
  | c :: l' => if isspace c then lstrip l' else l
  | [] => []
  end.

Definition strip (l : list ascii) : list ascii := rev (lstrip (rev (lstrip l))).

(** [input_str.replace(' ', '').strip()] *)
Definition normalize (input_str : list ascii) : list ascii :=
  strip (filter (fun c => negb (Ascii.eqb c " "%char)) input_str).

(** [c in 'mpsz'], with the key the letter stands for. *)
Definition suit_of (c : ascii) : option suit :=
  if Ascii.eqb c "m"%char then Some Sm
  else if Ascii.eqb c "p"%char then Some Sp
  else if Ascii.eqb c "s"%char then Some Ss
  else if Ascii.eqb c "z"%char then Some Sz
  else None.

(** The inner [while]: the digits in front of the input, as integers, and
    what follows them. *)
Fixpoint collect_numbers (l : list ascii) : list Z * list ascii :=
  match l with
  | c :: l' =>
      if isdigit c then
        let '(numbers, rest) := collect_numbers l' in (int_of c :: numbers, rest)
      else ([], l)
  | [] => ([], [])
  end.

(** [for num in numbers: ... tiles[suit].append(num)], with the range
    check of jjjj.py and smalljj.py. *)
Fixpoint append_checked (tiles : hand) (st : suit) (numbers : list Z) : result hand :=
  match numbers with
  | [] => Ok tiles
  | num :: rest =>
      if negb ((1 <=? num) && (num <=? 9)) then Raise (RankOutOfRange num)
      else append_checked (with_suit tiles st (get tiles st ++ [num])) st rest
  end.

(** The outer [while i < len(input_str)], on the input from position [i]
    on.  When the next character is neither a digit nor a suit letter and
    no digit was read, the source changes nothing and tests the same
    position again: the loop does not end, and the fuel runs out. *)
Fixpoint parse_loop (fuel : nat) (tiles : hand) (input : list ascii) : result hand :=
  match fuel with
  | O => OutOfFuel
  | S fuel' =>
      match input with
      | [] => Ok tiles
      | _ :: _ =>
          let '(numbers, rest) := collect_numbers input in
          match rest with
          | c :: rest' =>
              match suit_of c with
              | Some st =>
                  tiles' <- append_checked tiles st numbers ;;
                  parse_loop fuel' tiles' rest'
              | None =>
                  if truthy numbers then Raise MissingSuitMark
                  else parse_loop fuel' tiles rest
              end
          | [] =>
              if truthy numbers then Raise MissingSuitMark
              else Ok tiles
          end
      end
  end.

(** [for suit in tiles: tiles[suit].sort()] *)
Definition sort_all (tiles : hand) : hand :=
  mkHand (sorted (tiles_m tiles)) (sorted (tiles_p tiles))
         (sorted (tiles_s tiles)) (sorted (tiles_z tiles)).

Definition empty_hand : hand := mkHand [] [] [] [].

Definition parse_hand_fuel (fuel : nat) (input_str : string) : result hand :=
  let input := normalize (list_ascii_of_string input_str) in
  if negb (truthy input) then Raise EmptyInput
  else
    tiles <- parse_loop fuel empty_hand input ;;
    Ok (sort_all tiles).

(** Every turn of a loop that ends consumes a character. *)
Definition parse_hand (input_str : string) : result hand :=
  parse_hand_fuel (S (String.length input_str)) input_str.

End Parse.

(** ** jjjj.py *)

Module Jjjj.

Import Melds.

Definition DRAGONS : dict Z string := [(5, "白"); (6, "發"); (7, "中")].

Definition BASE_POINTS : dict Z points :=
  [ (1, mkPoints 1000 1000);
    (2, mkPoints 2000 2000);
    (3, mkPoints 3900 5800);
    (4, mkPoints 7700 7700);
    (5, mkPoints 8000 8000);
    (6, mkPoints 12000 12000);
    (7, mkPoints 16000 16000);
    (8, mkPoints 16000 16000);
    (10, mkPoints 16000 16000);
    (13, mkPoints 16000 16000) ].

Definition parse_hand : string -> result hand := Parse.parse_hand.

(** The key of [counts] is the rank alone: [counts[num]]. *)
Definition _count_tiles (tiles : hand) : dict Z Z :=
  fold_left
    (fun counts st =>
       fold_left
         (fun counts num => dict_set Z.eqb counts num (dict_get Z.eqb counts num 0 + 1))
         (get tiles st) counts)
    suits [].

Definition _is_triplet (count : Z) : bool := 3 <=? count.

Definition _check_big_three_dragons (counts : dict Z Z) : bool :=
  let dragon_triplets :=
    len (filter (fun d => 3 <=? dict_get Z.eqb counts d 0) [5; 6; 7]) in
  dragon_triplets =? 3.

Definition _check_seven_pairs (counts : dict Z Z) : bool :=
  let pairs := len (filter (fun count => count =? 2) (dict_values counts)) in
  pairs =? 7.

Definition _check_all_triplets (counts : dict Z Z) : bool :=
  if forallb (fun count => mem Z.eqb count [2; 3; 4]) (dict_values counts) then
    let triplets :=
      len (filter (fun count => mem Z.eqb count [3; 4]) (dict_values counts)) in
    3 <=? triplets
  else false.

Definition _has_terminal_or_honor (tiles : hand) : bool :=
  if existsb (fun st => mem Z.eqb 1 (get tiles st) || mem Z.eqb 9 (get tiles st))
             numeric_suits
  then true
  else truthy (tiles_z tiles).

(** The dict [pair_candidates]: a key for every rank of a suit held at
    least twice. *)
Definition pair_candidates (tiles : hand) : dict tile Z :=
  fold_left
    (fun cands st =>
       fold_left
         (fun cands num =>
            let count := count Z.eqb num (get tiles st) in
            if 2 <=? count then
              let cands :=
                if negb (dict_mem tile_eqb cands (st, num))
                then dict_set tile_eqb cands (st, num) 0 else cands in
              dict_set tile_eqb cands (st, num)
                       (dict_get tile_eqb cands (st, num) 0 + count / 2)
            else cands)
         (set_of Z.eqb (get tiles st)) cands)
    suits [].

Definition _is_valid_winning_pattern (tiles : hand) : result bool :=
  let all_tiles := tile_list_of (fun l => l) tiles in
  if negb (len all_tiles =? 14) then Ok false
  else try_pairs tiles (dict_keys (pair_candidates tiles)).

Definition check_yaku (tiles : hand) : result (list yaku) :=
  let non_empty_suits := filter (fun st => truthy (get tiles st)) numeric_suits in
  if (len non_empty_suits =? 1) && negb (truthy (tiles_z tiles)) then
    Ok [("清一色", 6)]
  else if (len non_empty_suits =? 1) && truthy (tiles_z tiles) then
    Ok [("混一色", 3)]
  else
    let counts := _count_tiles tiles in
    if _check_big_three_dragons counts then Ok [("大三元", 13)]
    else
      let yaku_list :=
        fold_left
          (fun yaku_list '(dragon_num, dragon_name) =>
             if _is_triplet (dict_get Z.eqb counts dragon_num 0)
             then yaku_list ++ [(dragon_name, 1)] else yaku_list)
          DRAGONS [] in
      if _check_seven_pairs counts then Ok (yaku_list ++ [("七對子", 2)])
      else
        let yaku_list :=
          if _check_all_triplets counts then yaku_list ++ [("対々和", 2)]
          else yaku_list in
        let yaku_list :=
          if negb (_has_terminal_or_honor tiles) then yaku_list ++ [("斷幺九", 1)]
          else yaku_list in
        valid <- _is_valid_winning_pattern tiles ;;
        let yaku_list :=
          if valid then
            if negb (truthy yaku_list)
               || match yaku_list with
                  | [(name, _)] => String.eqb name "無役"
                  | _ => false
                  end
            then [("基本和", 1)] else yaku_list
          else yaku_list in
        Ok (if truthy yaku_list then yaku_list else [("無役", 0)]).

Definition calculate_fan (tiles : hand) : result (list yaku * Z) :=
  yaku_list <- check_yaku tiles ;;
  Ok (yaku_list, total_fan yaku_list).

Definition get_points (fan : Z) (is_tsumo : bool) : result Z :=
  if fan =? 0 then Ok 0
  else
    pts <- (if dict_mem Z.eqb BASE_POINTS fan then dict_index Z.eqb BASE_POINTS fan
            else dict_index Z.eqb BASE_POINTS 13) ;;
    Ok (if is_tsumo then tsumo pts else ron pts).

(** What [MahjongGUI.calculate] does with the text of the entry: which of
    its branches runs and the values it hands to the display. *)
Inductive outcome : Type :=
| EmptyWarning                                       (* showwarning, return *)
| TileCountError (tiles : hand) (total : Z)           (* _show_tile_error *)
| Displayed (tiles : hand) (yaku_list : list yaku) (fan : Z)
            (tsumo_points ron_points : Z) (is_tsumo : bool)
| InputError (e : exn)                                (* except ValueError *)
| Uncaught (e : exn)
| Hangs.

Definition of_result (r : result outcome) : outcome :=
  match r with
  | Ok o => o
  | Raise KeyError => Uncaught KeyError
  | Raise e => InputError e
  | OutOfFuel => Hangs
  end.

(** [self.input_entry.get().strip()] *)
Definition stripped (entry : string) : string :=
  string_of_list_ascii (Parse.strip (list_ascii_of_string entry)).

Definition calculate (entry : string) (is_tsumo : bool) : outcome :=
  let input_hand := stripped entry in
  if (String.length input_hand =? 0)%nat then EmptyWarning
  else
    of_result
      (tiles <- parse_hand input_hand ;;
       let total := total_tiles tiles in
       if negb (total =? 14) then Ok (TileCountError tiles total)
       else
         '(yaku_list, fan) <- calculate_fan tiles ;;
         tsumo_points <- get_points fan true ;;
         ron_points <- get_points fan false ;;
         Ok (Displayed tiles yaku_list fan tsumo_points ron_points is_tsumo)).

End Jjjj.

(** ** lebron.py *)

(** [if b: yaku_list.append(y)] *)
Definition append_if (b : bool) (yaku_list : list yaku) (y : yaku) : list yaku :=
  if b then yaku_list ++ [y] else yaku_list.

Module Lebron.

Definition BASE_POINTS : dict Z points :=
  [ (1, mkPoints 1000 1000);
    (2, mkPoints 2000 2000);
    (3, mkPoints 3900 5800);
    (4, mkPoints 7700 7700);
    (5, mkPoints 8000 8000);
    (6, mkPoints 12000 12000);
    (8, mkPoints 16000 16000);
    (11, mkPoints 24000 24000);
    (13, mkPoints 32000 32000) ].

(** [parse_hand] of lebron.py: no check of the input at all.  Digits not
    followed by a suit letter are dropped at the end of the input, and
    make the loop spin in front of any other character. *)
Fixpoint parse_loop (fuel : nat) (tiles : hand) (input : list ascii) : result hand :=
  match fuel with
  | O => OutOfFuel
  | S fuel' =>
      match input with
      | [] => Ok tiles
      | _ :: _ =>
          let '(numbers, rest) := Parse.collect_numbers input in
          match rest with
          | c :: rest' =>
              match Parse.suit_of c with
              | Some st =>
                  parse_loop fuel'
                    (with_suit tiles st (get tiles st ++ numbers)) rest'
              | None => parse_loop fuel' tiles rest
              end
          | [] => Ok tiles
          end
      end
  end.

Definition parse_hand (input_str : string) : result hand :=
  tiles <- parse_loop (S (String.length input_str)) Parse.empty_hand
             (Parse.normalize (list_ascii_of_string input_str)) ;;
  Ok (Parse.sort_all tiles).

(** The key of [counts] is the tuple [(s, n)]. *)
Definition _count_all (tiles : hand) : dict tile Z :=
  fold_left
    (fun counts st =>
       fold_left
         (fun counts n =>
            dict_set tile_eqb counts (st, n) (dict_get tile_eqb counts (st, n) 0 + 1))
         (get tiles st) counts)
    suits [].

Definition yao : list tile :=
  [ (Sm, 1); (Sm, 9); (Sp, 1); (Sp, 9); (Ss, 1); (Ss, 9);
    (Sz, 1); (Sz, 2); (Sz, 3); (Sz, 4); (Sz, 5); (Sz, 6); (Sz, 7) ].

(** The loop over the numeric suits of the nine-gates check: it returns
    from [_check_yakuman] at the first suit that matches. *)
Definition nine_gates (tiles : hand) : bool :=
  existsb
    (fun st =>
       (len (get tiles st) =? 14)
       && list_eqb (sorted (get tiles st)) [1; 1; 1; 2; 3; 4; 5; 6; 7; 8; 9; 9; 9])
    numeric_suits.

Definition is_green (tiles : hand) : bool :=
  forallb
    (fun st =>
       forallb
         (fun n =>
            (suit_eqb st Ss && mem Z.eqb n [2; 3; 4; 6; 8])
            || (suit_eqb st Sz && (n =? 6)))
         (get tiles st))
    suits.

Definition _check_yakuman (tiles : hand) : list yaku :=
  let counts := _count_all tiles in
  if forallb (fun k => 1 <=? dict_get tile_eqb counts k 0) yao
     && (sum (dict_values counts) =? 14)
  then [("國士無雙", 13)]
  else if nine_gates tiles then [("九蓮寶燈", 13)]
  else if len (tiles_z tiles) =? 14 then [("字一色", 13)]
  else if is_green tiles then [("綠一色", 13)]
  else
    let '(triplets, dragons, winds) :=
      fold_left
        (fun '(triplets, dragons, winds) '(k, v) =>
           if 3 <=? v then
             let triplets := triplets + 1 in
             if suit_eqb (fst k) Sz then
               let dragons := if mem Z.eqb (snd k) [5; 6; 7] then dragons + 1 else dragons in
               let winds := if mem Z.eqb (snd k) [1; 2; 3; 4] then winds + 1 else winds in
               (triplets, dragons, winds)
             else (triplets, dragons, winds)
           else (triplets, dragons, winds))
        counts (0, 0, 0) in
    let yaku_list := append_if (dragons =? 3) [] ("大三元", 13) in
    let yaku_list := append_if (winds =? 4) yaku_list ("大四喜", 13) in
    append_if (triplets =? 4) yaku_list ("四暗刻", 13).

(** A meld [(type, suit, val)]; the type is the string 'triplet' or
    'sequence'. *)
Inductive meld_type : Type := triplet | sequence.

Definition meld_type_eqb (a b : meld_type) : bool :=
  match a, b with
  | triplet, triplet | sequence, sequence => true
  | _, _ => false
  end.

Definition meld : Type := (meld_type * suit * Z)%type.

Definition m_type (x : meld) : meld_type := fst (fst x).
Definition m_suit (x : meld) : suit := snd (fst x).
Definition m_val (x : meld) : Z := snd x.

(** [{s: tiles[s][:] for s in tiles}] and three removals from one list of
    the copy. *)
Definition remove_triplet (tiles : hand) (st : suit) (v : Z) : result hand :=
  l1 <- remove Z.eqb v (get tiles st) ;;
  l2 <- remove Z.eqb v l1 ;;
  l3 <- remove Z.eqb v l2 ;;
  Ok (with_suit tiles st l3).

Definition remove_sequence (tiles : hand) (st : suit) (v : Z) : result hand :=
  l1 <- remove Z.eqb v (get tiles st) ;;
  l2 <- remove Z.eqb (v + 1) l1 ;;
  l3 <- remove Z.eqb (v + 2) l2 ;;
  Ok (with_suit tiles st l3).

(** [next(s for s in tiles if tiles[s])] and [tiles[first_suit][0]]; with
    no tile left the source would raise StopIteration, which the test on
    the total in front excludes. *)
Definition first_tile (tiles : hand) : option tile :=
  match filter (fun st => truthy (get tiles st)) suits with
  | st :: _ =>
      match get tiles st with
      | v :: _ => Some (st, v)
      | [] => None
      end
  | [] => None
  end.

Fixpoint get_melds_recursive_fuel (fuel : nat) (tiles : hand)
  : result (list (list meld)) :=
  match fuel with
  | O => OutOfFuel
  | S fuel' =>
      if total_tiles tiles =? 0 then Ok [[]]
      else
        match first_tile tiles with
        | None => Raise StopIteration
        | Some (first_suit, first_val) =>
            with_triplet <-
              (if 3 <=? count Z.eqb first_val (get tiles first_suit) then
                 new_tiles <- remove_triplet tiles first_suit first_val ;;
                 sub_results <- get_melds_recursive_fuel fuel' new_tiles ;;
                 Ok (map (fun res => (triplet, first_suit, first_val) :: res) sub_results)
               else Ok []) ;;
            with_sequence <-
              (if negb (suit_eqb first_suit Sz) && (first_val <=? 7) then
                 if mem Z.eqb (first_val + 1) (get tiles first_suit)
                    && mem Z.eqb (first_val + 2) (get tiles first_suit) then
                   new_tiles <- remove_sequence tiles first_suit first_val ;;
                   sub_results <- get_melds_recursive_fuel fuel' new_tiles ;;
                   Ok (map (fun res => (sequence, first_suit, first_val) :: res) sub_results)
                 else Ok []
               else Ok []) ;;
            Ok (with_triplet ++ with_sequence)
        end
  end.

Definition _get_melds_recursive (tiles : hand) : result (list (list meld)) :=
  get_melds_recursive_fuel (S (Z.to_nat (total_tiles tiles))) tiles.

Definition pair_candidates (tiles : hand) : list tile :=
  flat_map
    (fun st =>
       map (fun n => (st, n))
           (filter (fun n => 2 <=? count Z.eqb n (get tiles st))
                   (set_of Z.eqb (get tiles st))))
    suits.

(** The body of the loop of [_analyze_hand] for one candidate pair. *)
Definition analyze_pair (tiles : hand) (candidate : tile)
  : result (list (list meld * tile)) :=
  let '(p_suit, p_val) := candidate in
  let rem_tiles := Parse.sort_all tiles in
  l1 <- remove Z.eqb p_val (get rem_tiles p_suit) ;;
  l2 <- remove Z.eqb p_val l1 ;;
  found_melds <- _get_melds_recursive (with_suit rem_tiles p_suit l2) ;;
  Ok (map (fun melds => (melds, (p_suit, p_val))) found_melds).

Fixpoint analyze_pairs (tiles : hand) (candidates : list tile)
  : result (list (list meld * tile)) :=
  match candidates with
  | [] => Ok []
  | candidate :: rest =>
      here <- analyze_pair tiles candidate ;;
      there <- analyze_pairs tiles rest ;;
      Ok (here ++ there)
  end.

Definition _analyze_hand (tiles : hand) : result (list (list meld * tile)) :=
  analyze_pairs tiles (pair_candidates tiles).

(** [Counter(seqs)]: how often each key occurs, in order of first
    occurrence.  The key [f"{m[1]}{m[2]}"] is the suit letter followed by
    the rank, which names the tuple of both. *)
Definition Counter (keys : list tile) : dict tile Z :=
  fold_left
    (fun c k => dict_set tile_eqb c k (dict_get tile_eqb c k 0 + 1)) keys [].

(** [set(a) & set(b) & set(c)] is non-empty. *)
Definition common (a b c : list Z) : bool :=
  existsb (fun x => mem Z.eqb x b && mem Z.eqb x c) a.

(** The body of the loop over [structures]: the patterns of one split;
    [head] is the tuple [pair] of the source. *)
Definition evaluate_structure (tiles : hand) (is_tsumo is_menzen is_riichi : bool)
           (structure : list meld * tile) : list yaku :=
  let '(melds, head) := structure in
  let current_yaku := append_if (is_riichi && is_menzen) [] ("立直", 1) in
  let current_yaku :=
    append_if (is_tsumo && is_menzen) current_yaku ("門前清自摸和", 1) in
  (* flushes *)
  let suits_held := filter (fun st => truthy (get tiles st)) numeric_suits in
  let has_honor := truthy (tiles_z tiles) in
  let current_yaku :=
    if len suits_held =? 1 then
      if negb has_honor
      then current_yaku ++ [("清一色", if is_menzen then 6 else 5)]
      else current_yaku ++ [("混一色", if is_menzen then 3 else 2)]
    else current_yaku in
  (* honor triplets *)
  let dragon_map : dict Z string := [(5, "白"); (6, "發"); (7, "中")] in
  let current_yaku :=
    fold_left
      (fun current_yaku x =>
         if meld_type_eqb (m_type x) triplet && suit_eqb (m_suit x) Sz then
           let current_yaku :=
             match dict_find Z.eqb dragon_map (m_val x) with
             | Some name => current_yaku ++ [(name, 1)]
             | None => current_yaku
             end in
           append_if (m_val x =? 1) current_yaku ("風子（自風）", 1)
         else current_yaku)
      melds current_yaku in
  (* all simples, or terminals everywhere *)
  let has_yao :=
    fold_left
      (fun has_yao x =>
         if suit_eqb (m_suit x) Sz then true
         else if meld_type_eqb (m_type x) triplet && mem Z.eqb (m_val x) [1; 9] then true
         else if meld_type_eqb (m_type x) sequence
                 && ((m_val x =? 1) || (m_val x =? 7)) then true
         else has_yao)
      melds
      (suit_eqb (fst head) Sz || mem Z.eqb (snd head) [1; 9]) in
  let current_yaku :=
    if negb has_yao then current_yaku ++ [("斷幺九", 1)]
    else
      let '(is_all_yao_melds, has_honor_in_melds) :=
        fold_left
          (fun '(is_all_yao_melds, has_honor_in_melds) x =>
             let '(is_all_yao_melds, has_honor_in_melds) :=
               if suit_eqb (m_suit x) Sz then (is_all_yao_melds, true)
               else if meld_type_eqb (m_type x) triplet then
                 (if negb (mem Z.eqb (m_val x) [1; 9]) then false else is_all_yao_melds,
                  has_honor_in_melds)
               else if meld_type_eqb (m_type x) sequence then
                 (if negb (mem Z.eqb (m_val x) [1; 7]) then false else is_all_yao_melds,
                  has_honor_in_melds)
               else (is_all_yao_melds, has_honor_in_melds) in
             (if negb (suit_eqb (fst head) Sz) && negb (mem Z.eqb (snd head) [1; 9])
              then false else is_all_yao_melds,
              has_honor_in_melds))
          melds (true, suit_eqb (fst head) Sz) in
      if is_all_yao_melds then
        let is_toitoi := forallb (fun x => meld_type_eqb (m_type x) triplet) melds in
        if is_toitoi then append_if has_honor_in_melds current_yaku ("混老頭", 2)
        else if has_honor_in_melds then current_yaku ++ [("混全帯幺九", 2)]
        else current_yaku ++ [("純全帯幺九", 3)]
      else current_yaku in
  (* all sequences *)
  let current_yaku :=
    if is_menzen then
      let is_all_seq := forallb (fun x => meld_type_eqb (m_type x) sequence) melds in
      let is_pair_val := negb (suit_eqb (fst head) Sz && mem Z.eqb (snd head) [5; 6; 7]) in
      append_if (is_all_seq && is_pair_val) current_yaku ("平和", 1)
    else current_yaku in
  (* paired sequences *)
  let current_yaku :=
    if is_menzen then
      let seqs :=
        map (fun x => (m_suit x, m_val x))
            (filter (fun x => meld_type_eqb (m_type x) sequence) melds) in
      let seq_counts := Counter seqs in
      let pairs_count := len (filter (fun c => 2 <=? c) (dict_values seq_counts)) in
      if pairs_count =? 2 then current_yaku ++ [("二盃口", 3)]
      else if pairs_count =? 1 then current_yaku ++ [("一盃口", 1)]
      else current_yaku
    else current_yaku in
  (* the same sequence, then the same triplet, in the three suits *)
  let vals_of (ty : meld_type) (st : suit) : list Z :=
    map m_val
        (filter (fun x => meld_type_eqb (m_type x) ty && suit_eqb (m_suit x) st) melds) in
  let current_yaku :=
    append_if (common (vals_of sequence Sm) (vals_of sequence Sp) (vals_of sequence Ss))
              current_yaku ("三色同順", 2) in
  let current_yaku :=
    append_if (common (vals_of triplet Sm) (vals_of triplet Sp) (vals_of triplet Ss))
              current_yaku ("三色同刻", 2) in
  (* full straight *)
  let current_yaku :=
    fold_left
      (fun current_yaku st =>
         let has (v : Z) := mem Z.eqb v (vals_of sequence st) in
         append_if (has 1 && has 4 && has 7) current_yaku ("一氣通貫", 2))
      numeric_suits current_yaku in
  (* triplets *)
  let current_yaku :=
    append_if (forallb (fun x => meld_type_eqb (m_type x) triplet) melds)
              current_yaku ("対々和", 2) in
  let triplets_count :=
    len (filter (fun x => meld_type_eqb (m_type x) triplet) melds) in
  let current_yaku := append_if (3 <=? triplets_count) current_yaku ("三暗刻", 2) in
  let dragons :=
    len (filter (fun x => meld_type_eqb (m_type x) triplet && suit_eqb (m_suit x) Sz
                          && mem Z.eqb (m_val x) [5; 6; 7]) melds) in
  let pair_is_dragon := suit_eqb (fst head) Sz && mem Z.eqb (snd head) [5; 6; 7] in
  append_if ((dragons =? 2) && pair_is_dragon) current_yaku ("小三元", 2).

(** One turn of the loop over [structures]: the best list so far with its
    value, replaced only by a strictly larger value. *)
Definition keep_best (tiles : hand) (is_tsumo is_menzen is_riichi : bool)
           (best : list yaku * Z) (structure : list meld * tile) : list yaku * Z :=
  let current_yaku := evaluate_structure tiles is_tsumo is_menzen is_riichi structure in
  let current_fan := total_fan current_yaku in
  if snd best <? current_fan then (current_yaku, current_fan) else best.

Definition calculate_fan (tiles : hand) (is_tsumo is_menzen is_riichi : bool)
  : result (list yaku * Z) :=
  let total := total_tiles tiles in
  if negb (total =? 14) then Raise (WrongTileCount total)
  else
    let yakuman_list := _check_yakuman tiles in
    if truthy yakuman_list then Ok (yakuman_list, total_fan yakuman_list)
    else
      let pair_count :=
        len (filter (fun '(st, n) => count Z.eqb n (get tiles st) =? 2)
                    (flat_map (fun st => map (fun n => (st, n)) (set_of Z.eqb (get tiles st)))
                              suits)) in
      let yaku_list := append_if (pair_count =? 7) [] ("七對子", 2) in
      structures <- _analyze_hand tiles ;;
      if negb (truthy structures)
         && negb (existsb (fun y => String.eqb (fst y) "七對子") yaku_list)
      then Ok ([("無役", 0)], 0)
      else
        let '(best_yaku_list, best_fan) :=
          fold_left (keep_best tiles is_tsumo is_menzen is_riichi) structures
                    (yaku_list, total_fan yaku_list) in
        if (best_fan =? 0) && negb (truthy best_yaku_list)
        then Ok ([("無役", 0)], 0)
        else Ok (best_yaku_list, best_fan).

Definition get_points (fan : Z) (is_tsumo : bool) : result Z :=
  if fan =? 0 then Ok 0
  else
    let fan :=
      if 13 <=? fan then 13
      else if 11 <=? fan then 11
      else if 8 <=? fan then 8
      else if 6 <=? fan then 6
      else if 5 <=? fan then 5
      else fan in
    default <- dict_index Z.eqb BASE_POINTS 1 ;;
    let pts := dict_get Z.eqb BASE_POINTS fan default in
    Ok (if is_tsumo then tsumo pts else ron pts).

End Lebron.

(** ** smalljj.py *)

Module Smalljj.

Import Melds.

Definition DRAGONS : dict Z string := [(5, "白"); (6, "發"); (7, "中")].

Definition BASE_POINTS : dict Z points :=
  [ (1, mkPoints 1000 1000);
    (2, mkPoints 2000 2000);
    (3, mkPoints 3900 5800);
    (4, mkPoints 7700 7700);
    (5, mkPoints 8000 8000);
    (6, mkPoints 12000 12000);
    (7, mkPoints 16000 16000);
    (8, mkPoints 16000 16000);
    (10, mkPoints 16000 16000);
    (13, mkPoints 16000 16000) ].

Definition parse_hand : string -> result hand := Parse.parse_hand.

(** The key of [counts] is the tuple [(suit, num)]. *)
Definition _count_tiles (tiles : hand) : dict tile Z :=
  fold_left
    (fun counts st =>
       fold_left
         (fun counts num =>
            dict_set tile_eqb counts (st, num)
                     (dict_get tile_eqb counts (st, num) 0 + 1))
         (get tiles st) counts)
    suits [].

Definition _is_triplet (count : Z) : bool := 3 <=? count.

Definition _check_big_three_dragons (counts : dict tile Z) : bool :=
  let dragon_triplets :=
    len (filter (fun d => 3 <=? dict_get tile_eqb counts (Sz, d) 0) [5; 6; 7]) in
  dragon_triplets =? 3.

Definition _check_seven_pairs (counts : dict tile Z) : bool :=
  let pairs := len (filter (fun count => count =? 2) (dict_values counts)) in
  pairs =? 7.

Definition _check_all_triplets (counts : dict tile Z) : bool :=
  if forallb (fun count => mem Z.eqb count [2; 3; 4]) (dict_values counts) then
    let triplets :=
      len (filter (fun count => mem Z.eqb count [3; 4]) (dict_values counts)) in
    3 <=? triplets
  else false.

Definition _has_terminal_or_honor (tiles : hand) : bool :=
  if existsb (fun st => mem Z.eqb 1 (get tiles st) || mem Z.eqb 9 (get tiles st))
             numeric_suits
  then true
  else truthy (tiles_z tiles).

Definition yaochuuhai : list tile :=
  [ (Sm, 1); (Sm, 9); (Sp, 1); (Sp, 9); (Ss, 1); (Ss, 9);
    (Sz, 1); (Sz, 2); (Sz, 3); (Sz, 4); (Sz, 5); (Sz, 6); (Sz, 7) ].

Definition _check_kokushi (tiles : hand) : bool :=
  let counts := _count_tiles tiles in
  if negb (forallb (fun t => dict_mem tile_eqb counts t) yaochuuhai) then false
  else
    let total := sum (map (fun t => dict_get tile_eqb counts t 0) yaochuuhai) in
    (total =? 14) && (len counts =? 13).

Definition _check_nine_gates (tiles : hand) : bool :=
  let non_empty_suits := filter (fun st => truthy (get tiles st)) numeric_suits in
  if negb (len non_empty_suits =? 1) || truthy (tiles_z tiles) then false
  else
    match non_empty_suits with
    | st :: _ =>
        list_eqb (sorted (get tiles st)) [1; 1; 1; 2; 3; 4; 5; 6; 7; 8; 9; 9; 9]
    | [] => false
    end.

Definition _check_big_four_winds (counts : dict tile Z) : bool :=
  let wind_tiles := [(Sz, 1); (Sz, 2); (Sz, 3); (Sz, 4)] in
  let triplet_count :=
    len (filter (fun t => 3 <=? dict_get tile_eqb counts t 0) wind_tiles) in
  triplet_count =? 4.

Definition _check_four_concealed_triplets (tiles : hand) : bool :=
  let counts := _count_tiles tiles in
  let pair_count := len (filter (fun c => c =? 2) (dict_values counts)) in
  let triplet_count := len (filter (fun c => mem Z.eqb c [3; 4]) (dict_values counts)) in
  (pair_count =? 1) && (triplet_count =? 4).

Definition _check_three_concealed_triplets (tiles : hand) : bool :=
  let counts := _count_tiles tiles in
  let triplet_count := len (filter (fun c => mem Z.eqb c [3; 4]) (dict_values counts)) in
  3 <=? triplet_count.

(** Every key [(suit, start_num)] is visited once, so each entry of
    [sequences] is 1 when the loops end. *)
Definition _check_ippekou (tiles : hand) : bool :=
  let sequences :=
    fold_left
      (fun sequences st =>
         let tile_counts :=
           fold_left
             (fun tc num => dict_set Z.eqb tc num (dict_get Z.eqb tc num 0 + 1))
             (get tiles st) [] in
         fold_left
           (fun sequences start_num =>
              if (1 <=? dict_get Z.eqb tile_counts start_num 0)
                 && (1 <=? dict_get Z.eqb tile_counts (start_num + 1) 0)
                 && (1 <=? dict_get Z.eqb tile_counts (start_num + 2) 0)
              then
                let seq_key := (st, start_num) in
                let sequences :=
                  if negb (dict_mem tile_eqb sequences seq_key)
                  then dict_set tile_eqb sequences seq_key 0 else sequences in
                dict_set tile_eqb sequences seq_key
                         (dict_get tile_eqb sequences seq_key 0 + 1)
              else sequences)
           [1; 2; 3; 4; 5; 6; 7] sequences)
      numeric_suits [] in
  existsb (fun c => 2 <=? c) (dict_values sequences).

(** The set [pair_candidates]; its elements are visited in the order they
    were added. *)
Definition pair_candidates (tiles : hand) : list tile :=
  flat_map
    (fun st =>
       map (fun num => (st, num))
           (filter (fun num => 2 <=? count Z.eqb num (get tiles st))
                   (set_of Z.eqb (get tiles st))))
    suits.

Definition _is_valid_winning_pattern (tiles : hand) : result bool :=
  let all_tiles := tile_list_of (fun l => l) tiles in
  if negb (len all_tiles =? 14) then Ok false
  else try_pairs tiles (pair_candidates tiles).

Definition check_yaku (tiles : hand) (is_riichi is_tsumo has_pung : bool)
  : result (list yaku) :=
  valid <- _is_valid_winning_pattern tiles ;;
  if negb valid then
    if _check_kokushi tiles then Ok [("國士無雙", 13)]
    else if _check_nine_gates tiles then Ok [("九蓮寶燈", 13)]
    else Ok [("無役", 0)]
  else
    let counts := _count_tiles tiles in
    if _check_kokushi tiles then Ok [("國士無雙", 13)]
    else if _check_nine_gates tiles then Ok [("九蓮寶燈", 13)]
    else if _check_big_four_winds counts then Ok [("大四喜", 13)]
    else
      let non_empty_suits := filter (fun st => truthy (get tiles st)) numeric_suits in
      if (len non_empty_suits =? 1) && negb (truthy (tiles_z tiles)) then
        Ok [("清一色", 6)]
      else if (len non_empty_suits =? 1) && truthy (tiles_z tiles) then
        Ok [("混一色", 3)]
      else if _check_big_three_dragons counts then Ok [("大三元", 13)]
      else
        let yaku_list :=
          fold_left
            (fun yaku_list '(dragon_num, dragon_name) =>
               append_if (_is_triplet (dict_get tile_eqb counts (Sz, dragon_num) 0))
                         yaku_list (dragon_name, 1))
            DRAGONS [] in
        if _check_seven_pairs counts then Ok (yaku_list ++ [("七對子", 2)])
        else if negb has_pung && _check_four_concealed_triplets tiles then
          Ok (yaku_list ++ [("四暗刻", 13)])
        else
          let yaku_list :=
            if _check_all_triplets counts then
              if has_pung then yaku_list ++ [("排型對對和", 2)]
              else yaku_list ++ [("対々和", 2)]
            else yaku_list in
          let yaku_list :=
            if negb (existsb
                       (fun y => existsb (String.eqb (fst y))
                                         ["対々和"; "排型對對和"; "四暗刻"])
                       yaku_list)
            then append_if (_check_three_concealed_triplets tiles) yaku_list ("三暗刻", 2)
            else yaku_list in
          let yaku_list := append_if (_check_ippekou tiles) yaku_list ("一盃口", 1) in
          let yaku_list :=
            append_if (negb (_has_terminal_or_honor tiles)) yaku_list ("斷幺九", 1) in
          let yaku_list :=
            if is_riichi && negb (existsb (fun y => String.eqb (fst y) "対々和") yaku_list)
            then
              if is_tsumo then yaku_list ++ [("兩倍立直", 2)]
              else yaku_list ++ [("立直", 1)]
            else yaku_list in
          Ok (if negb (truthy yaku_list) then [("無役", 0)] else yaku_list).

Definition calculate_fan (tiles : hand) (is_riichi is_tsumo has_pung : bool)
  : result (list yaku * Z) :=
  yaku_list <- check_yaku tiles is_riichi is_tsumo has_pung ;;
  Ok (yaku_list, total_fan yaku_list).

Definition get_points (fan : Z) (is_tsumo : bool) : result Z :=
  if fan =? 0 then Ok 0
  else
    pts <- (if dict_mem Z.eqb BASE_POINTS fan then dict_index Z.eqb BASE_POINTS fan
            else dict_index Z.eqb BASE_POINTS 13) ;;
    Ok (if is_tsumo then tsumo pts else ron pts).

End Smalljj.

(** ** jonjonjon.py: the scoring table of the first class of the file *)

Module Jonjonjon.

Definition BASE_POINTS : dict Z points :=
  [ (0, mkPoints 1000 1000);
    (1, mkPoints 1000 1000);
    (2, mkPoints 2000 2000);
    (3, mkPoints 3900 5800);
    (4, mkPoints 7700 7700);
    (5, mkPoints 8000 8000);
    (6, mkPoints 12000 12000);
    (7, mkPoints 16000 16000);
    (8, mkPoints 16000 16000);
    (10, mkPoints 16000 16000);
    (13, mkPoints 16000 16000);
    (15, mkPoints 24000 24000);
    (18, mkPoints 32000 32000);
    (20, mkPoints 48000 48000) ].

Definition get_points (fan : Z) (is_tsumo : bool) : result Z :=
  if fan =? 0 then Ok 0
  else if dict_mem Z.eqb BASE_POINTS fan then
    pts <- dict_index Z.eqb BASE_POINTS fan ;;
    Ok (if is_tsumo then tsumo pts else ron pts)
  else if 13 <=? fan then
    pts <- dict_index Z.eqb BASE_POINTS 13 ;;
    Ok (if is_tsumo then tsumo pts else ron pts)
  else Ok 0.

End Jonjonjon.

(** ** Hands used as examples *)

Module Hands.

(** 11223344556677m: seven pairs, all in one suit. *)
Definition seven_pairs_one_suit : hand :=
  mkHand [1; 1; 2; 2; 3; 3; 4; 4; 5; 5; 6; 6; 7; 7] [] [] [].

(** 1122m 3344p 5566s 77z: seven pairs of seven different ranks. *)
Definition seven_pairs_spread : hand :=
  mkHand [1; 1; 2; 2] [3; 3; 4; 4] [5; 5; 6; 6] [7; 7].

(** 567m 567p 567s 11122z: no dragon tile at all. *)
Definition three_suits_567 : hand :=
  mkHand [5; 6; 7] [5; 6; 7] [5; 6; 7] [1; 1; 1; 2; 2].

(** 159m 19p 19s 1234567z: the thirteen orphans and a 5 of the m suit. *)
Definition orphans_and_middle : hand :=
  mkHand [1; 5; 9] [1; 9] [1; 9] [1; 2; 3; 4; 5; 6; 7].

(** 119m 19p 19s 1234567z: the thirteen orphans and a second 1m. *)
Definition orphans_and_pair : hand :=
  mkHand [1; 1; 9] [1; 9] [1; 9] [1; 2; 3; 4; 5; 6; 7].

(** 1122334456789m: thirteen tiles of one suit. *)
Definition thirteen_one_suit : hand :=
  mkHand [1; 1; 2; 2; 3; 3; 4; 4; 5; 6; 7; 8; 9] [] [] [].

(** 123 123 456 789 99 in the m suit. *)
Definition flush_four_runs : hand :=
  mkHand [1; 1; 2; 2; 3; 3; 4; 5; 6; 7; 8; 9; 9; 9] [] [] [].

(** 123m 456p 789s 111z 22z *)
Definition plain_win : hand :=
  mkHand [1; 2; 3] [4; 5; 6] [7; 8; 9] [1; 1; 1; 2; 2].

End Hands.

(** ** The hand as mutable objects

    The evaluators receive the dict [tiles] by reference, and the lists
    under its keys are mutable objects.  To say what a call does to them,
    the code that copies and removes is embedded a second time over a
    store of list objects: a list is named by its position in the store,
    [l[:]] and [sorted(l)] put a new object at the end, and [l.remove(x)]
    changes the object in place.  The dict itself is never assigned to
    during an evaluation, so it is the record of the four references
    under its keys. *)

Module Heap.

Definition loc : Type := nat.

(** The list objects: the rank lists, and the lists of (suit, num)
    tuples built by [_check_melds_valid]. *)
Record store : Type := mkStore {
  nums : list (list Z);
  tups : list (list tile)
}.

(** A computation on the store that returns, raises or runs out of fuel. *)
Definition M (A : Type) : Type := store -> result (A * store).

Definition ret {A : Type} (a : A) : M A := fun sto => Ok (a, sto).

Definition bindM {A B : Type} (c : M A) (k : A -> M B) : M B :=
  fun sto =>
    match c sto with
    | Ok (a, sto') => k a sto'
    | Raise e => Raise e
    | OutOfFuel => OutOfFuel
    end.

Definition lift {A : Type} (r : result A) : M A :=
  fun sto =>
    match r with
    | Ok a => Ok (a, sto)
    | Raise e => Raise e
    | OutOfFuel => OutOfFuel
    end.

(** The list with the element at position [n] replaced. *)
Fixpoint update {A : Type} (n : nat) (x : A) (l : list A) : list A :=
  match l, n with
  | [], _ => []
  | _ :: l', O => x :: l'
  | y :: l', S n' => y :: update n' x l'
  end.

Definition read_nums (r : loc) : M (list Z) :=
  fun sto =>
    match nth_error (nums sto) r with
    | Some l => Ok (l, sto)
    | None => Raise BadReference
    end.

Definition write_nums (r : loc) (l : list Z) : M unit :=
  fun sto =>
    match nth_error (nums sto) r with
    | Some _ => Ok (tt, mkStore (update r l (nums sto)) (tups sto))
    | None => Raise BadReference
    end.

Definition new_nums (l : list Z) : M loc :=
  fun sto => Ok (length (nums sto), mkStore (nums sto ++ [l]) (tups sto)).

Definition read_tups (r : loc) : M (list tile) :=
  fun sto =>
    match nth_error (tups sto) r with
    | Some l => Ok (l, sto)
    | None => Raise BadReference
    end.

Definition write_tups (r : loc) (l : list tile) : M unit :=
  fun sto =>
    match nth_error (tups sto) r with
    | Some _ => Ok (tt, mkStore (nums sto) (update r l (tups sto)))
    | None => Raise BadReference
    end.

Definition new_tups (l : list tile) : M loc :=
  fun sto => Ok (length (tups sto), mkStore (nums sto) (tups sto ++ [l])).

(** [l.remove(x)], in place. *)
Definition remove_nums (r : loc) (x : Z) : M unit :=
  bindM (read_nums r) (fun l =>
  bindM (lift (remove Z.eqb x l)) (fun l' =>
  write_nums r l')).

Definition remove_tups (r : loc) (x : tile) : M unit :=
  bindM (read_tups r) (fun l =>
  bindM (lift (remove tile_eqb x l)) (fun l' =>
  write_tups r l')).

(** The dict [tiles]: the references under its four keys. *)
Record refs : Type := mkRefs {
  ref_m : loc;
  ref_p : loc;
  ref_s : loc;
  ref_z : loc
}.

(** The reference [tiles[suit]]. *)
Definition ref (tiles : refs) (st : suit) : loc :=
  match st with
  | Sm => ref_m tiles
  | Sp => ref_p tiles
  | Ss => ref_s tiles
  | Sz => ref_z tiles
  end.

(** The lists the four keys refer to at this moment. *)
Definition load (tiles : refs) : M hand :=
  bindM (read_nums (ref_m tiles)) (fun lm =>
  bindM (read_nums (ref_p tiles)) (fun lp =>
  bindM (read_nums (ref_s tiles)) (fun ls =>
  bindM (read_nums (ref_z tiles)) (fun lz =>
  ret (mkHand lm lp ls lz))))).

(** [{s: f(tiles[s][:]) for s in tiles}]: a new dict of four new lists;
    [f] is the identity or [sorted] (the slice [sorted] is applied to is
    dropped at once and gets no place in the store). *)
Definition copy_dict (f : list Z -> list Z) (tiles : refs) : M refs :=
  bindM (read_nums (ref_m tiles)) (fun lm =>
  bindM (new_nums (f lm)) (fun rm =>
  bindM (read_nums (ref_p tiles)) (fun lp =>
  bindM (new_nums (f lp)) (fun rp =>
  bindM (read_nums (ref_s tiles)) (fun ls =>
  bindM (new_nums (f ls)) (fun rs =>
  bindM (read_nums (ref_z tiles)) (fun lz =>
  bindM (new_nums (f lz)) (fun rz =>
  ret (mkRefs rm rp rs rz))))))))).

(** The store holds the hand [h] under the references [tiles]. *)
Definition holds (sto : store) (tiles : refs) (h : hand) : Prop :=
  forall st, nth_error (nums sto) (ref tiles st) = Some (get h st).

(** Every object of [sto] is in [sto'], at its place and unchanged; what
    [sto'] has more are new objects. *)
Definition extends (sto sto' : store) : Prop :=
  exists more_nums more_tups,
    nums sto' = nums sto ++ more_nums /\ tups sto' = tups sto ++ more_tups.

(** The four lists of a hand in dict order, and the references of four
    lists allocated in a row from position [n]. *)
Definition hand_lists (h : hand) : list (list Z) :=
  [tiles_m h; tiles_p h; tiles_s h; tiles_z h].

Definition fresh_refs (n : nat) : refs :=
  mkRefs n (1 + n)%nat (2 + n)%nat (3 + n)%nat.

End Heap.

Declare Scope heap_scope.
Delimit Scope heap_scope with heap.
Notation "x <- e ;; k" := (Heap.bindM e (fun x => k))
  (at level 61, e at next level, right associativity) : heap_scope.

(** *** The meld search of jjjj.py and smalljj.py on the store *)

Module MeldsHeap.

Import Heap.
Local Open Scope heap_scope.

(** [remaining = tile_list[:]] and the three removals of a triplet. *)
Definition triplet_copy (tile_list : loc) (t : tile) : M loc :=
  l <- read_tups tile_list ;;
  remaining <- new_tups l ;;
  _ <- remove_tups remaining t ;;
  _ <- remove_tups remaining t ;;
  _ <- remove_tups remaining t ;;
  ret remaining.

(** [remaining = tile_list[:]] and the three removals of a sequence. *)
Definition sequence_copy (tile_list : loc) (st : suit) (num : Z) : M loc :=
  l <- read_tups tile_list ;;
  remaining <- new_tups l ;;
  _ <- remove_tups remaining (st, num) ;;
  _ <- remove_tups remaining (st, num + 1) ;;
  _ <- remove_tups remaining (st, num + 2) ;;
  ret remaining.

Fixpoint try_form_melds_fuel (fuel : nat) (tile_list : loc) : M bool :=
  match fuel with
  | O => lift OutOfFuel
  | S fuel' =>
      l <- read_tups tile_list ;;
      match l with
      | [] => ret true
      | (st, num) :: _ =>
          if negb (len l mod 3 =? 0) then ret false
          else
            let triplet_count := count tile_eqb (st, num) l in
            by_triplet <-
              (if 3 <=? triplet_count then
                 remaining <- triplet_copy tile_list (st, num) ;;
                 try_form_melds_fuel fuel' remaining
               else ret false) ;;
            if by_triplet then ret true
            else if mem suit_eqb st numeric_suits && (num <=? 7) then
              l <- read_tups tile_list ;;
              if mem tile_eqb (st, num + 1) l && mem tile_eqb (st, num + 2) l then
                remaining <- sequence_copy tile_list st num ;;
                by_sequence <- try_form_melds_fuel fuel' remaining ;;
                if by_sequence then ret true else ret false
              else ret false
            else ret false
      end
  end.

Definition _try_form_melds (tile_list : loc) : M bool :=
  l <- read_tups tile_list ;;
  try_form_melds_fuel (S (length l)) tile_list.

(** [tile_list] is a new list, filled from the sorted lists of the dict. *)
Definition _check_melds_valid (tiles : refs) : M bool :=
  h <- load tiles ;;
  tile_list <- new_tups (Melds.tile_list_of sorted h) ;;
  _try_form_melds tile_list.

(** [tiles_copy = {suit: tiles[suit][:] for suit in tiles}], the two
    removals from the list of the copy, and the check of the copy. *)
Definition try_pair (tiles : refs) (candidate : tile) : M bool :=
  let '(pair_suit, pair_num) := candidate in
  tiles_copy <- copy_dict (fun l => l) tiles ;;
  _ <- remove_nums (ref tiles_copy pair_suit) pair_num ;;
  _ <- remove_nums (ref tiles_copy pair_suit) pair_num ;;
  _check_melds_valid tiles_copy.

Fixpoint try_pairs (tiles : refs) (candidates : list tile) : M bool :=
  match candidates with
  | [] => ret false
  | candidate :: rest =>
      valid <- try_pair tiles candidate ;;
      if valid then ret true else try_pairs tiles rest
  end.

End MeldsHeap.

(** *** jjjj.py on the store *)

Module JjjjHeap.

Import Heap.
Local Open Scope heap_scope.

Definition _is_valid_winning_pattern (tiles : refs) : M bool :=
  h <- load tiles ;;
  let all_tiles := Melds.tile_list_of (fun l => l) h in
  if negb (len all_tiles =? 14) then ret false
  else MeldsHeap.try_pairs tiles (dict_keys (Jjjj.pair_candidates h)).

(** Up to the call of [_is_valid_winning_pattern] the method only reads
    the lists; [h] is what it reads. *)
Definition check_yaku (tiles : refs) : M (list yaku) :=
  h <- load tiles ;;
  let non_empty_suits := filter (fun st => truthy (get h st)) numeric_suits in
  if (len non_empty_suits =? 1) && negb (truthy (tiles_z h)) then
    ret [("清一色", 6)]
  else if (len non_empty_suits =? 1) && truthy (tiles_z h) then
    ret [("混一色", 3)]
  else
    let counts := Jjjj._count_tiles h in
    if Jjjj._check_big_three_dragons counts then ret [("大三元", 13)]
    else
      let yaku_list :=
        fold_left
          (fun yaku_list '(dragon_num, dragon_name) =>
             if Jjjj._is_triplet (dict_get Z.eqb counts dragon_num 0)
             then yaku_list ++ [(dragon_name, 1)] else yaku_list)
          Jjjj.DRAGONS [] in
      if Jjjj._check_seven_pairs counts then ret (yaku_list ++ [("七對子", 2)])
      else
        let yaku_list :=
          if Jjjj._check_all_triplets counts then yaku_list ++ [("対々和", 2)]
          else yaku_list in
        let yaku_list :=
          if negb (Jjjj._has_terminal_or_honor h) then yaku_list ++ [("斷幺九", 1)]
          else yaku_list in
        valid <- _is_valid_winning_pattern tiles ;;
        let yaku_list :=
          if valid then
            if negb (truthy yaku_list)
               || match yaku_list with
                  | [(name, _)] => String.eqb name "無役"
                  | _ => false
                  end
            then [("基本和", 1)] else yaku_list
          else yaku_list in
        ret (if truthy yaku_list then yaku_list else [("無役", 0)]).

Definition calculate_fan (tiles : refs) : M (list yaku * Z) :=
  yaku_list <- check_yaku tiles ;;
  ret (yaku_list, total_fan yaku_list).

End JjjjHeap.

(** *** lebron.py on the store *)

Module LebronHeap.

Import Heap.
Local Open Scope heap_scope.

(** [new_tiles = {s: tiles[s][:] for s in tiles}] and the three removals
    of a triplet from the list of the copy. *)
Definition triplet_copy (tiles : refs) (st : suit) (v : Z) : M refs :=
  new_tiles <- copy_dict (fun l => l) tiles ;;
  _ <- remove_nums (ref new_tiles st) v ;;
  _ <- remove_nums (ref new_tiles st) v ;;
  _ <- remove_nums (ref new_tiles st) v ;;
  ret new_tiles.

Definition sequence_copy (tiles : refs) (st : suit) (v : Z) : M refs :=
  new_tiles <- copy_dict (fun l => l) tiles ;;
  _ <- remove_nums (ref new_tiles st) v ;;
  _ <- remove_nums (ref new_tiles st) (v + 1) ;;
  _ <- remove_nums (ref new_tiles st) (v + 2) ;;
  ret new_tiles.

Fixpoint get_melds_recursive_fuel (fuel : nat) (tiles : refs)
  : M (list (list Lebron.meld)) :=
  match fuel with
  | O => lift OutOfFuel
  | S fuel' =>
      h <- load tiles ;;
      if total_tiles h =? 0 then ret [[]]
      else
        match Lebron.first_tile h with
        | None => lift (Raise StopIteration)
        | Some (first_suit, first_val) =>
            with_triplet <-
              (if 3 <=? count Z.eqb first_val (get h first_suit) then
                 new_tiles <- triplet_copy tiles first_suit first_val ;;
                 sub_results <- get_melds_recursive_fuel fuel' new_tiles ;;
                 ret (map (fun res => (Lebron.triplet, first_suit, first_val) :: res)
                          sub_results)
               else ret []) ;;
            h <- load tiles ;;
            with_sequence <-
              (if negb (suit_eqb first_suit Sz) && (first_val <=? 7) then
                 if mem Z.eqb (first_val + 1) (get h first_suit)
                    && mem Z.eqb (first_val + 2) (get h first_suit) then
                   new_tiles <- sequence_copy tiles first_suit first_val ;;
                   sub_results <- get_melds_recursive_fuel fuel' new_tiles ;;
                   ret (map (fun res => (Lebron.sequence, first_suit, first_val) :: res)
                            sub_results)
                 else ret []
               else ret []) ;;
            ret (with_triplet ++ with_sequence)
        end
  end.

Definition _get_melds_recursive (tiles : refs) : M (list (list Lebron.meld)) :=
  h <- load tiles ;;
  get_melds_recursive_fuel (S (Z.to_nat (total_tiles h))) tiles.

(** [rem_tiles = {s: sorted(tiles[s][:]) for s in tiles}], the two
    removals of the pair, and the search on [rem_tiles]. *)
Definition analyze_pair (tiles : refs) (candidate : tile)
  : M (list (list Lebron.meld * tile)) :=
  let '(p_suit, p_val) := candidate in
  rem_tiles <- copy_dict sorted tiles ;;
  _ <- remove_nums (ref rem_tiles p_suit) p_val ;;
  _ <- remove_nums (ref rem_tiles p_suit) p_val ;;
  found_melds <- _get_melds_recursive rem_tiles ;;
  ret (map (fun melds => (melds, (p_suit, p_val))) found_melds).

Fixpoint analyze_pairs (tiles : refs) (candidates : list tile)
  : M (list (list Lebron.meld * tile)) :=
  match candidates with
  | [] => ret []
  | candidate :: rest =>
      here <- analyze_pair tiles candidate ;;
      there <- analyze_pairs tiles rest ;;
      ret (here ++ there)
  end.

Definition _analyze_hand (tiles : refs) : M (list (list Lebron.meld * tile)) :=
  h <- load tiles ;;
  analyze_pairs tiles (Lebron.pair_candidates h).

(** [calculate_fan] reads the lists before [_analyze_hand] and again in
    the loop over the structures. *)
Definition calculate_fan (tiles : refs) (is_tsumo is_menzen is_riichi : bool)
  : M (list yaku * Z) :=
  h <- load tiles ;;
  let total := total_tiles h in
  if negb (total =? 14) then lift (Raise (WrongTileCount total))
  else
    let yakuman_list := Lebron._check_yakuman h in
    if truthy yakuman_list then ret (yakuman_list, total_fan yakuman_list)
    else
      let pair_count :=
        len (filter (fun '(st, n) => count Z.eqb n (get h st) =? 2)
                    (flat_map (fun st => map (fun n => (st, n)) (set_of Z.eqb (get h st)))
                              suits)) in
      let yaku_list := append_if (pair_count =? 7) [] ("七對子", 2) in
      structures <- _analyze_hand tiles ;;
      if negb (truthy structures)
         && negb (existsb (fun y => String.eqb (fst y) "七對子") yaku_list)
      then ret ([("無役", 0)], 0)
      else
        h <- load tiles ;;
        let '(best_yaku_list, best_fan) :=
          fold_left (Lebron.keep_best h is_tsumo is_menzen is_riichi) structures
                    (yaku_list, total_fan yaku_list) in
        if (best_fan =? 0) && negb (truthy best_yaku_list)
        then ret ([("無役", 0)], 0)
        else ret (best_yaku_list, best_fan).

End LebronHeap.

(** *** smalljj.py on the store *)

Module SmalljjHeap.

Import Heap.
Local Open Scope heap_scope.

Definition _is_valid_winning_pattern (tiles : refs) : M bool :=
  h <- load tiles ;;
  let all_tiles := Melds.tile_list_of (fun l => l) h in
  if negb (len all_tiles =? 14) then ret false
  else MeldsHeap.try_pairs tiles (Smalljj.pair_candidates h).

(** [check_yaku] calls [_is_valid_winning_pattern] first and reads the
    lists afterwards; [h] is what it reads then. *)
Definition check_yaku (tiles : refs) (is_riichi is_tsumo has_pung : bool)
  : M (list yaku) :=
  valid <- _is_valid_winning_pattern tiles ;;
  h <- load tiles ;;
  if negb valid then
    if Smalljj._check_kokushi h then ret [("國士無雙", 13)]
    else if Smalljj._check_nine_gates h then ret [("九蓮寶燈", 13)]
    else ret [("無役", 0)]
  else
    let counts := Smalljj._count_tiles h in
    if Smalljj._check_kokushi h then ret [("國士無雙", 13)]
    else if Smalljj._check_nine_gates h then ret [("九蓮寶燈", 13)]
    else if Smalljj._check_big_four_winds counts then ret [("大四喜", 13)]
    else
      let non_empty_suits := filter (fun st => truthy (get h st)) numeric_suits in
      if (len non_empty_suits =? 1) && negb (truthy (tiles_z h)) then
        ret [("清一色", 6)]
      else if (len non_empty_suits =? 1) && truthy (tiles_z h) then
        ret [("混一色", 3)]
      else if Smalljj._check_big_three_dragons counts then ret [("大三元", 13)]
      else
        let yaku_list :=
          fold_left
            (fun yaku_list '(dragon_num, dragon_name) =>
               append_if (Smalljj._is_triplet (dict_get tile_eqb counts (Sz, dragon_num) 0))
                         yaku_list (dragon_name, 1))
            Smalljj.DRAGONS [] in
        if Smalljj._check_seven_pairs counts then ret (yaku_list ++ [("七對子", 2)])
        else if negb has_pung && Smalljj._check_four_concealed_triplets h then
          ret (yaku_list ++ [("四暗刻", 13)])
        else
          let yaku_list :=
            if Smalljj._check_all_triplets counts then
              if has_pung then yaku_list ++ [("排型對對和", 2)]
              else yaku_list ++ [("対々和", 2)]
            else yaku_list in
          let yaku_list :=
            if negb (existsb
                       (fun y => existsb (String.eqb (fst y))
                                         ["対々和"; "排型對對和"; "四暗刻"])
                       yaku_list)
            then append_if (Smalljj._check_three_concealed_triplets h) yaku_list ("三暗刻", 2)
            else yaku_list in
          let yaku_list := append_if (Smalljj._check_ippekou h) yaku_list ("一盃口", 1) in
          let yaku_list :=
            append_if (negb (Smalljj._has_terminal_or_honor h)) yaku_list ("斷幺九", 1) in
          let yaku_list :=
            if is_riichi && negb (existsb (fun y => String.eqb (fst y) "対々和") yaku_list)
            then
              if is_tsumo then yaku_list ++ [("兩倍立直", 2)]
              else yaku_list ++ [("立直", 1)]
            else yaku_list in
          ret (if negb (truthy yaku_list) then [("無役", 0)] else yaku_list).

Definition calculate_fan (tiles : refs) (is_riichi is_tsumo has_pung : bool)
  : M (list yaku * Z) :=
  yaku_list <- check_yaku tiles is_riichi is_tsumo has_pung ;;
  ret (yaku_list, total_fan yaku_list).

End SmalljjHeap.

(** ** Shapes of hands, as the specification words them *)

Module Shapes.

(** The tiles of a hand as tuples, suit by suit. *)
Definition all_tiles (tiles : hand) : list tile :=
  Melds.tile_list_of (fun l => l) tiles.

(** All tiles lie in the numeric suit [st]; none is an honor tile. *)
Definition only_suit (tiles : hand) (st : suit) : Prop :=
  In st numeric_suits /\ forall st', st' <> st -> get tiles st' = [].

(** The ranks split into a pair and four sequences of three consecutive
    ranks with base ranks from 1 to 7. *)
Definition four_runs_and_pair (l : list Z) : Prop :=
  exists a b c d head,
    1 <= a <= 7 /\ 1 <= b <= 7 /\ 1 <= c <= 7 /\ 1 <= d <= 7 /\
    Permutation l
      ([head; head] ++ [a; a + 1; a + 2] ++ [b; b + 1; b + 2]
       ++ [c; c + 1; c + 2] ++ [d; d + 1; d + 2]).

(** Exactly seven distinct (suit, rank) keys, each held exactly twice, and
    nothing else. *)
Definition seven_pairs (tiles : hand) : Prop :=
  exists keys : list tile,
    NoDup keys /\ length keys = 7%nat /\
    Permutation (all_tiles tiles) (keys ++ keys).

(** The hand holds the candidate pair at least twice. *)
Definition enough_for_pair (tiles : hand) (candidate : tile) : Prop :=
  2 <= count Z.eqb (snd candidate) (get tiles (fst candidate)).

(** What a list of patterns returned by an evaluation looks like: it is
    the entry for no pattern alone, or every entry has a positive value. *)
Definition patterns_or_none (yaku_list : list yaku) : Prop :=
  yaku_list = [("無役", 0)] \/ (yaku_list <> [] /\ Forall (fun y => 0 < snd y) yaku_list).

End Shapes.

(** ** Flat tile sequences and their text *)

Module Flat.

(** The digit that stands for a rank from 0 to 9, and the letter of a
    suit. *)
Definition digit (num : Z) : ascii := ascii_of_nat (48 + Z.to_nat num).

Definition letter (st : suit) : ascii :=
  match st with
  | Sm => "m"%char
  | Sp => "p"%char
  | Ss => "s"%char
  | Sz => "z"%char
  end.

(** A flat sequence of (suit, rank) tiles written tile by tile in the
    input format of the calculators, the rank before the suit letter. *)
Definition chars (tile_seq : list tile) : list ascii :=
  flat_map (fun t => [digit (snd t); letter (fst t)]) tile_seq.

Definition render (tile_seq : list tile) : string :=
  string_of_list_ascii (chars tile_seq).

(** The dict of the sequence: each rank appended to the list of its
    suit, from the dict [tiles]. *)
Definition collect (tiles : hand) (tile_seq : list tile) : hand :=
  fold_left (fun tiles t => with_suit tiles (fst t) (get tiles (fst t) ++ [snd t]))
            tile_seq tiles.

(** A rank that jjjj.py and smalljj.py refuse. *)
Definition refused (t : tile) : bool := negb ((1 <=? snd t) && (snd t <=? 9)).

End Flat.

(** ** A store used as an example *)

Module Stores.

(** The hand 123m 456p 789s 11122z in four list objects, an unrelated
    list object in front of them, and the dict that refers to the four. *)
Definition plain : Heap.store :=
  Heap.mkStore [[0]; [1; 2; 3]; [4; 5; 6]; [7; 8; 9]; [1; 1; 1; 2; 2]] [].

Definition plain_refs : Heap.refs := Heap.mkRefs 1%nat 2%nat 3%nat 4%nat.

End Stores.

(** ** Splits of a list of tiles into groups *)

Module Split.

(** A group as the meld search forms it: three equal tiles, or the three
    tiles [num], [num + 1], [num + 2] of one suit. *)
Inductive group : Type :=
| Triplet (t : tile)
| Run (st : suit) (num : Z).

Definition group_tiles (g : group) : list tile :=
  match g with
  | Triplet t => [t; t; t]
  | Run st num => [(st, num); (st, num + 1); (st, num + 2)]
  end.

(** The sequences the search accepts: in a numeric suit, from a rank of
    at most 7. *)
Definition legal (g : group) : Prop :=
  match g with
  | Triplet _ => True
  | Run st num => st <> Sz /\ num <= 7
  end.

(** The tiles of [l] are those of the groups [gs], each as often. *)
Definition splits (l : list tile) (gs : list group) : Prop :=
  Forall legal gs /\ Permutation l (flat_map group_tiles gs).

(** Within a suit, the rank of [a] is at most that of [b]. *)
Definition tile_le (a b : tile) : Prop := fst a = fst b -> snd a <= snd b.

(** Every tile of the list is, within its suit, not above the tiles
    behind it; the list [_check_melds_valid] builds is such a list. *)
Definition ordered (l : list tile) : Prop := StronglySorted tile_le l.

(** The hand is a pair and groups. *)
Definition pair_and_groups (tiles : hand) (head : tile) (gs : list group) : Prop :=
  Forall legal gs
  /\ Permutation (Shapes.all_tiles tiles) (head :: head :: flat_map group_tiles gs).

(** The tiles of a meld of lebron.py. *)
Definition meld_group (x : Lebron.meld) : group :=
  match Lebron.m_type x with
  | Lebron.triplet => Triplet (Lebron.m_suit x, Lebron.m_val x)
  | Lebron.sequence => Run (Lebron.m_suit x) (Lebron.m_val x)
  end.

End Split.

(** ** Text in the input format *)

Module Grouped.

(** The text of a group: the digits of its ranks, then the letter of its
    suit, as in [123m]. *)
Definition group_chars (g : list Z * suit) : list ascii :=
  map Flat.digit (fst g) ++ [Flat.letter (snd g)].

Definition chars (gs : list (list Z * suit)) : list ascii :=
  flat_map group_chars gs.

Definition render (gs : list (list Z * suit)) : string :=
  string_of_list_ascii (chars gs).

(** The ranks of a group appended to the list of its suit, and the dict
    of a sequence of groups. *)
Definition add_group (tiles : hand) (g : list Z * suit) : hand :=
  with_suit tiles (snd g) (get tiles (snd g) ++ fst g).

Definition collect (tiles : hand) (gs : list (list Z * suit)) : hand :=
  fold_left add_group gs tiles.

(** A hand written suit by suit, the suits it does not hold left out. *)
Definition of_hand (tiles : hand) : list (list Z * suit) :=
  filter (fun g => truthy (fst g)) (map (fun st => (get tiles st, st)) suits).

Definition show (tiles : hand) : string := render (of_hand tiles).


(** Ranks between [lo] and 9. *)
Definition ranks_from (lo : Z) (ns : list Z) : Prop :=
  forall n, In n ns -> lo <= n <= 9.

End Grouped.

(** * Properties *)

Import Shapes.

(** ** Facts about the Python helpers *)

Lemma filter_Permutation {A : Type} (f : A -> bool) (l l' : list A) :
  Permutation l l' -> Permutation (filter f l) (filter f l').
Proof.
  induction 1 as [| x l l' _ IH | x y l | l l' l'' _ IH1 _ IH2]; cbn [filter].
  - constructor.
  - destruct (f x); [now constructor | assumption].
  - destruct (f x), (f y); try reflexivity. apply perm_swap.
  - now transitivity (filter f l').
Qed.

Section PyFacts.
Context {A : Type} (eqb : A -> A -> bool).
Hypothesis eqb_eq : forall x y, eqb x y = true <-> x = y.

Lemma mem_In (x : A) (l : list A) : mem eqb x l = true <-> In x l.
  Proof.
    unfold mem. rewrite existsb_exists. split.
    - intros [y [Hin He]]. apply eqb_eq in He. now subst.
    - intros Hin. exists x. split; [assumption | now apply eqb_eq].
  Qed.

Lemma count_count_occ (dec : forall a b : A, {a = b} + {a <> b}) (x : A) (l : list A) :
    count eqb x l = Z.of_nat (count_occ dec l x).
  Proof.
    unfold count, len. f_equal.
    induction l as [| y l IH]; [reflexivity |].
    cbn [filter count_occ]. destruct (eqb y x) eqn:E.
    - apply eqb_eq in E. subst. destruct (dec x x); [| congruence].
      cbn [length]. now rewrite IH.
    - destruct (dec y x) as [-> |]; [| exact IH].
      assert (eqb x x = true) by now apply eqb_eq. congruence.
  Qed.

Lemma count_nonneg (x : A) (l : list A) : 0 <= count eqb x l.
  Proof. unfold count, len. lia. Qed.

Lemma count_cons (x y : A) (l : list A) :
    count eqb x (y :: l) = (if eqb y x then 1 else 0) + count eqb x l.
  Proof.
    unfold count, len. cbn [filter]. destruct (eqb y x); cbn [length]; lia.
  Qed.

Lemma count_pos_In (x : A) (l : list A) : 1 <= count eqb x l -> In x l.
  Proof.
    induction l as [| y l IH]; [unfold count, len; cbn; lia |].
    rewrite count_cons. destruct (eqb y x) eqn:E.
    - intros _. left. now apply eqb_eq.
    - intros H. right. apply IH. lia.
  Qed.

  (** [l.remove(x)] succeeds exactly when [x] is in [l]; it then drops
      one copy of [x]. *)
Lemma remove_In (x : A) (l : list A) :
    In x l -> exists r, remove eqb x l = Ok r.
  Proof.
    induction l as [| y l IH]; [intros [] |].
    intros Hin. cbn [remove]. destruct (eqb y x) eqn:E; [now eexists |].
    destruct Hin as [-> | Hin].
    - assert (eqb x x = true) by now apply eqb_eq. congruence.
    - destruct (IH Hin) as [r ->]. now eexists.
  Qed.

Lemma remove_Permutation (x : A) (l r : list A) :
    remove eqb x l = Ok r -> Permutation l (x :: r).
  Proof.
    revert r. induction l as [| y l IH]; [discriminate |].
    intros r. cbn [remove]. destruct (eqb y x) eqn:E.
    - intros [= <-]. apply eqb_eq in E. now subst.
    - destruct (remove eqb x l) as [r0 | |] eqn:R; try discriminate.
      cbn [bind]. intros [= <-].
      rewrite (IH r0 eq_refl). apply perm_swap.
  Qed.

Lemma remove_length (x : A) (l r : list A) :
    remove eqb x l = Ok r -> length l = S (length r).
  Proof.
    intros H. apply remove_Permutation in H.
    now rewrite (Permutation_length H).
  Qed.

Lemma remove_count (x y : A) (l r : list A) :
    remove eqb x l = Ok r ->
    count eqb y l = (if eqb x y then 1 else 0) + count eqb y r.
  Proof.
    intros H. apply remove_Permutation in H.
    unfold count, len. rewrite (Permutation_length (filter_Permutation _ _ _ H)).
    cbn [filter]. destruct (eqb x y); cbn [length]; lia.
  Qed.

Lemma remove_never_out_of_fuel (x : A) (l : list A) :
    remove eqb x l <> OutOfFuel.
  Proof.
    induction l as [| y l IH]; [discriminate |].
    cbn [remove]. destruct (eqb y x); [discriminate |].
    destruct (remove eqb x l); cbn; congruence.
  Qed.

Lemma is_perm_sound (l l' : list A) :
    is_perm eqb l l' = true -> Permutation l l'.
  Proof.
    revert l'. induction l as [| x l IH]; intros l'; cbn [is_perm].
    - destruct l'; [constructor | discriminate].
    - destruct (remove eqb x l') as [r | |] eqn:R; try discriminate.
      intros H. apply remove_Permutation in R. rewrite R.
      constructor. now apply IH.
  Qed.
End PyFacts.

Lemma suit_eqb_eq (a b : suit) : suit_eqb a b = true <-> a = b.
Proof. destruct a, b; cbn; split; congruence. Qed.

Lemma tile_eqb_eq (a b : tile) : tile_eqb a b = true <-> a = b.
Proof.
  destruct a as [s1 n1], b as [s2 n2]. unfold tile_eqb. cbn [fst snd].
  rewrite andb_true_iff, suit_eqb_eq, Z.eqb_eq. split.
  - intros [-> ->]. reflexivity.
  - intros [= -> ->]. auto.
Qed.

Lemma Z_eqb_eq (a b : Z) : Z.eqb a b = true <-> a = b.
Proof. apply Z.eqb_eq. Qed.

(** ** The scoring tables *)

Ltac split_eqb :=
  repeat match goal with
         | |- context [Z.eqb ?a ?b] => destruct (Z.eqb_spec a b); try lia
         | |- context [Z.leb ?a ?b] => destruct (Z.leb_spec a b); try lia
         end.

Lemma jonjonjon_get_points_untabled (fan : Z) (is_tsumo : bool) :
  13 <= fan -> fan <> 15 -> fan <> 18 -> fan <> 20 ->
  Jonjonjon.get_points fan is_tsumo = Ok 16000.
Proof.
  intros Hge H15 H18 H20.
  unfold Jonjonjon.get_points, dict_mem, dict_index, Jonjonjon.BASE_POINTS.
  cbn [dict_find].
  split_eqb; cbn; destruct is_tsumo; reflexivity.
Qed.

(** C4, as the spec has it, fails on jonjonjon.py: 13 and 15 are both at
    least 13 and are paid differently. *)
Lemma C4_terminal_tier_counterexample :
  13 <= 13 /\ 13 <= 15 /\
  Jonjonjon.get_points 13 true <> Jonjonjon.get_points 15 true.
Proof.
  repeat split; try lia. vm_compute. discriminate.
Qed.

(** C4 (amended): in jonjonjon.py every value of at least 13 other than
    the table's own keys 15, 18 and 20 is paid the award of key 13, 16000
    in both win modes, so any two such values are paid alike; 15, 18 and
    20 are paid 24000, 32000 and 48000. *)
Theorem C4_terminal_tier (v1 v2 : Z) (is_tsumo : bool) :
  13 <= v1 -> 13 <= v2 ->
  ~ In v1 [15; 18; 20] -> ~ In v2 [15; 18; 20] ->
  Jonjonjon.get_points v1 is_tsumo = Jonjonjon.get_points v2 is_tsumo
  /\ Jonjonjon.get_points v1 is_tsumo = Ok 16000
  /\ Jonjonjon.get_points 15 is_tsumo = Ok 24000
  /\ Jonjonjon.get_points 18 is_tsumo = Ok 32000
  /\ Jonjonjon.get_points 20 is_tsumo = Ok 48000.
Proof.
  intros H1 H2 N1 N2. cbn [In] in N1, N2.
  rewrite (jonjonjon_get_points_untabled v1), (jonjonjon_get_points_untabled v2)
    by intuition lia.
  repeat split; destruct is_tsumo; reflexivity.
Qed.

Lemma C4_terminal_tier_witness :
  Jonjonjon.get_points 13 false = Jonjonjon.get_points 40 false
  /\ Jonjonjon.get_points 13 false = Ok 16000
  /\ Jonjonjon.get_points 15 false = Ok 24000
  /\ Jonjonjon.get_points 18 false = Ok 32000
  /\ Jonjonjon.get_points 20 false = Ok 48000.
Proof.
  apply (C4_terminal_tier 13 40 false); cbn [In]; lia.
Defined.

(** ** Flushes come first in jjjj.py *)

Lemma only_suit_non_empty (tiles : hand) (st : suit) :
  total_tiles tiles = 14 -> Shapes.only_suit tiles st ->
  filter (fun st' => truthy (get tiles st')) numeric_suits = [st]
  /\ tiles_z tiles = [].
Proof.
  intros Htotal [Hin Hothers].
  assert (Hne : get tiles st <> []).
  { intro He. unfold total_tiles, suits in Htotal. cbn [map] in Htotal.
    assert (forall st', get tiles st' = []) as Hall.
    { intros st'. destruct (suit_eqb st' st) eqn:E.
      - destruct st', st; try discriminate; exact He.
      - apply Hothers. intro; subst. destruct st; discriminate. }
    rewrite !Hall in Htotal. discriminate. }
  destruct tiles as [lm lp ls lz]; cbn [get tiles_m tiles_p tiles_s tiles_z] in *.
  destruct Hin as [<- | [<- | [<- | []]]];
    cbn [get tiles_m tiles_p tiles_s tiles_z] in *.
  - pose proof (Hothers Sp ltac:(discriminate)) as Hp.
    pose proof (Hothers Ss ltac:(discriminate)) as Hs.
    pose proof (Hothers Sz ltac:(discriminate)) as Hz.
    cbn in Hp, Hs, Hz. subst. destruct lm; [congruence | split; reflexivity].
  - pose proof (Hothers Sm ltac:(discriminate)) as Hp.
    pose proof (Hothers Ss ltac:(discriminate)) as Hs.
    pose proof (Hothers Sz ltac:(discriminate)) as Hz.
    cbn in Hp, Hs, Hz. subst. destruct lp; [congruence | split; reflexivity].
  - pose proof (Hothers Sm ltac:(discriminate)) as Hp.
    pose proof (Hothers Sp ltac:(discriminate)) as Hs.
    pose proof (Hothers Sz ltac:(discriminate)) as Hz.
    cbn in Hp, Hs, Hz. subst. destruct ls; [congruence | split; reflexivity].
Qed.

Lemma jjjj_flush_first (tiles : hand) (st : suit) :
  filter (fun st' => truthy (get tiles st')) numeric_suits = [st] ->
  Jjjj.check_yaku tiles
  = Ok [if truthy (tiles_z tiles) then ("混一色", 3) else ("清一色", 6)].
Proof.
  intros Hone. unfold Jjjj.check_yaku. rewrite Hone.
  destruct (truthy (tiles_z tiles)); reflexivity.
Qed.

(** C7: a 14-tile hand in one numeric suit, without honor tiles, that
    splits into four sequences and a pair is evaluated by jjjj.py to the
    full flush alone, of value 6, and the scoring table pays 12000 for a
    self-drawn win of value 6. *)
Theorem C7_full_flush (tiles : hand) (st : suit) :
  total_tiles tiles = 14 ->
  Shapes.only_suit tiles st ->
  Shapes.four_runs_and_pair (get tiles st) ->
  Jjjj.calculate_fan tiles = Ok ([("清一色", 6)], 6)
  /\ Jjjj.get_points 6 true = Ok 12000.
Proof.
  intros Htotal Honly _.
  destruct (only_suit_non_empty tiles st Htotal Honly) as [Hone Hz].
  unfold Jjjj.calculate_fan.
  rewrite (jjjj_flush_first tiles st Hone), Hz.
  split; reflexivity.
Qed.

Lemma C7_full_flush_witness :
  Jjjj.calculate_fan Hands.flush_four_runs = Ok ([("清一色", 6)], 6)
  /\ Jjjj.get_points 6 true = Ok 12000.
Proof.
  apply (C7_full_flush Hands.flush_four_runs Sm).
  - reflexivity.
  - split; [cbn; tauto |].
    intros st' Hne. destruct st'; [congruence | reflexivity ..].
  - exists 1, 1, 4, 7, 9. repeat split; try lia.
    apply (is_perm_sound Z.eqb Z_eqb_eq). reflexivity.
Defined.

(** ** The tile count *)

(** C5, as the spec has it, fails on jjjj.py: [check_yaku] and
    [calculate_fan] do not look at the number of tiles, and report the
    full flush for thirteen tiles of one suit. *)
Lemma C5_wrong_tile_count_counterexample :
  total_tiles Hands.thirteen_one_suit = 13
  /\ Jjjj.check_yaku Hands.thirteen_one_suit = Ok [("清一色", 6)]
  /\ Jjjj.calculate_fan Hands.thirteen_one_suit = Ok ([("清一色", 6)], 6).
Proof. repeat split. Qed.

(** C5 (amended): in lebron.py [calculate_fan] raises the tile-count
    error for every input whose total is not 14, whatever the flags,
    before any pattern is looked at.  In jjjj.py the test is made by the
    caller, [MahjongGUI.calculate]: when the entry parses to a hand whose
    total is not 14 it reports the count error with the parsed hand and
    never calls [calculate_fan]. *)
Theorem C5_wrong_tile_count
        (tiles : hand) (entry : string) (is_tsumo is_menzen is_riichi : bool) :
  total_tiles tiles <> 14 ->
  Lebron.calculate_fan tiles is_tsumo is_menzen is_riichi
  = Raise (WrongTileCount (total_tiles tiles))
  /\ (Jjjj.stripped entry <> "" ->
      Jjjj.parse_hand (Jjjj.stripped entry) = Ok tiles ->
      Jjjj.calculate entry is_tsumo = Jjjj.TileCountError tiles (total_tiles tiles)).
Proof.
  intros Hne. apply Z.eqb_neq in Hne. split.
  - unfold Lebron.calculate_fan. now rewrite Hne.
  - intros Hentry Hparse. unfold Jjjj.calculate.
    destruct (Jjjj.stripped entry) as [| c rest] eqn:E; [congruence |].
    cbn [String.length Nat.eqb]. rewrite Hparse. cbn [bind].
    now rewrite Hne.
Qed.

Lemma C5_wrong_tile_count_witness :
  Lebron.calculate_fan Hands.thirteen_one_suit true true false
  = Raise (WrongTileCount 13)
  /\ Jjjj.calculate "1122334456789m" true
     = Jjjj.TileCountError Hands.thirteen_one_suit 13.
Proof.
  destruct (C5_wrong_tile_count Hands.thirteen_one_suit "1122334456789m"
                                true true false) as [Hl Hj].
  - vm_compute. discriminate.
  - split; [exact Hl |].
    apply Hj; [vm_compute; discriminate | reflexivity].
Defined.

(** ** The meld search of jjjj.py and smalljj.py *)

Lemma bind_Ok {A B : Type} (r : result A) (k : A -> result B) (b : B) :
  bind r k = Ok b -> exists a, r = Ok a /\ k a = Ok b.
Proof. destruct r; cbn; try discriminate. intros H. now exists a. Qed.

Lemma remove_other_In {A : Type} (eqb : A -> A -> bool)
      (eqb_eq : forall x y, eqb x y = true <-> x = y) (x y : A) (l r : list A) :
  remove eqb x l = Ok r -> In y l -> y <> x -> In y r.
Proof.
  intros R Hin Hne. apply (remove_Permutation eqb eqb_eq) in R.
  apply (Permutation_in _ R) in Hin. destruct Hin; congruence.
Qed.

Lemma melds_remove_triplet_length (t : tile) (l r : list tile) :
  Melds.remove_triplet t l = Ok r -> length l = (length r + 3)%nat.
Proof.
  unfold Melds.remove_triplet. intros H.
  apply bind_Ok in H as [r1 [H1 H]]. apply bind_Ok in H as [r2 [H2 H3]].
  apply remove_length in H1, H2, H3; auto using tile_eqb_eq. lia.
Qed.

Lemma melds_remove_sequence_length (st : suit) (num : Z) (l r : list tile) :
  Melds.remove_sequence st num l = Ok r -> length l = (length r + 3)%nat.
Proof.
  unfold Melds.remove_sequence. intros H.
  apply bind_Ok in H as [r1 [H1 H]]. apply bind_Ok in H as [r2 [H2 H3]].
  apply remove_length in H1, H2, H3; auto using tile_eqb_eq. lia.
Qed.

(** The guards of the source are enough for the removals not to raise. *)
Lemma melds_remove_triplet_ok (t : tile) (l : list tile) :
  3 <= count tile_eqb t l -> exists r, Melds.remove_triplet t l = Ok r.
Proof.
  intros Hc. unfold Melds.remove_triplet.
  destruct (remove_In tile_eqb tile_eqb_eq t l) as [r1 H1].
  { apply (count_pos_In tile_eqb tile_eqb_eq). lia. }
  pose proof (remove_count tile_eqb tile_eqb_eq t t l r1 H1) as C1.
  assert (Et : tile_eqb t t = true) by now apply tile_eqb_eq.
  rewrite Et in C1.
  destruct (remove_In tile_eqb tile_eqb_eq t r1) as [r2 H2].
  { apply (count_pos_In tile_eqb tile_eqb_eq). lia. }
  pose proof (remove_count tile_eqb tile_eqb_eq t t r1 r2 H2) as C2.
  rewrite Et in C2.
  destruct (remove_In tile_eqb tile_eqb_eq t r2) as [r3 H3].
  { apply (count_pos_In tile_eqb tile_eqb_eq). lia. }
  rewrite H1. cbn [bind]. rewrite H2. cbn [bind]. now exists r3.
Qed.

Lemma melds_remove_sequence_ok (st : suit) (num : Z) (l : list tile) :
  In (st, num) l ->
  mem tile_eqb (st, num + 1) l = true ->
  mem tile_eqb (st, num + 2) l = true ->
  exists r, Melds.remove_sequence st num l = Ok r.
Proof.
  intros H0 H1 H2.
  apply (mem_In tile_eqb tile_eqb_eq) in H1, H2.
  unfold Melds.remove_sequence.
  destruct (remove_In tile_eqb tile_eqb_eq _ _ H0) as [r1 R1].
  assert (In (st, num + 1) r1) as I1.
  { apply (remove_other_In tile_eqb tile_eqb_eq _ _ _ _ R1 H1).
    intros [= E]. lia. }
  assert (In (st, num + 2) r1) as I2.
  { apply (remove_other_In tile_eqb tile_eqb_eq _ _ _ _ R1 H2).
    intros [= E]. lia. }
  destruct (remove_In tile_eqb tile_eqb_eq _ _ I1) as [r2 R2].
  assert (In (st, num + 2) r2) as I3.
  { apply (remove_other_In tile_eqb tile_eqb_eq _ _ _ _ R2 I2).
    intros [= E]. lia. }
  destruct (remove_In tile_eqb tile_eqb_eq _ _ I3) as [r3 R3].
  rewrite R1. cbn [bind]. rewrite R2. cbn [bind]. now exists r3.
Qed.

(** Fuel above the number of tiles always yields an answer. *)
Lemma try_form_melds_fuel_total (fuel : nat) :
  forall l, (length l < fuel)%nat -> exists b, Melds.try_form_melds_fuel fuel l = Ok b.
Proof.
  induction fuel as [| fuel IH]; intros l Hlen; [lia |].
  cbn [Melds.try_form_melds_fuel].
  destruct l as [| [st num] l']; [now eexists |].
  set (l := @cons tile (st, num) l') in *.
  destruct (negb (len l mod 3 =? 0)); [now eexists |].
  assert (exists b1,
             (if 3 <=? count tile_eqb (st, num) l
              then bind (Melds.remove_triplet (st, num) l)
                        (fun remaining => Melds.try_form_melds_fuel fuel remaining)
              else Ok false) = Ok b1) as [b1 ->].
  { destruct (Z.leb_spec 3 (count tile_eqb (st, num) l)) as [Hc |]; [| now eexists].
    destruct (melds_remove_triplet_ok _ _ Hc) as [r Hr]. rewrite Hr. cbn [bind].
    apply IH. apply melds_remove_triplet_length in Hr. lia. }
  cbn [bind]. destruct b1; [now eexists |].
  destruct (mem suit_eqb st numeric_suits && (num <=? 7)); [| now eexists].
  destruct (mem tile_eqb (st, num + 1) l) eqn:M1; [| now eexists].
  destruct (mem tile_eqb (st, num + 2) l) eqn:M2; [| now eexists].
  cbn [andb].
  destruct (melds_remove_sequence_ok st num l (or_introl eq_refl) M1 M2) as [r Hr].
  rewrite Hr. cbn [bind].
  destruct (IH r) as [b2 ->].
  { apply melds_remove_sequence_length in Hr. lia. }
  cbn [bind]. destruct b2; now eexists.
Qed.

(** The answer does not depend on how much fuel there is above that. *)
Lemma try_form_melds_fuel_indep (fuel : nat) :
  forall fuel' l, (length l < fuel)%nat -> (length l < fuel')%nat ->
                  Melds.try_form_melds_fuel fuel l = Melds.try_form_melds_fuel fuel' l.
Proof.
  induction fuel as [| fuel IH]; intros fuel' l H1 H2; [lia |].
  destruct fuel' as [| fuel']; [lia |].
  cbn [Melds.try_form_melds_fuel].
  destruct l as [| [st num] l']; [reflexivity |].
  set (l := @cons tile (st, num) l') in *.
  destruct (negb (len l mod 3 =? 0)); [reflexivity |].
  assert ((if 3 <=? count tile_eqb (st, num) l
           then bind (Melds.remove_triplet (st, num) l)
                     (fun remaining => Melds.try_form_melds_fuel fuel remaining)
           else Ok false)
          = (if 3 <=? count tile_eqb (st, num) l
             then bind (Melds.remove_triplet (st, num) l)
                       (fun remaining => Melds.try_form_melds_fuel fuel' remaining)
             else Ok false)) as ->.
  { destruct (3 <=? count tile_eqb (st, num) l); [| reflexivity].
    destruct (Melds.remove_triplet (st, num) l) as [r | |] eqn:Hr; try reflexivity.
    cbn [bind]. apply melds_remove_triplet_length in Hr. apply IH; lia. }
  destruct (if 3 <=? count tile_eqb (st, num) l
            then bind (Melds.remove_triplet (st, num) l)
                      (fun remaining => Melds.try_form_melds_fuel fuel' remaining)
            else Ok false) as [[|] | |]; cbn [bind]; try reflexivity.
  destruct (mem suit_eqb st numeric_suits && (num <=? 7)); [| reflexivity].
  destruct (mem tile_eqb (st, num + 1) l && mem tile_eqb (st, num + 2) l);
    [| reflexivity].
  destruct (Melds.remove_sequence st num l) as [r | |] eqn:Hr; try reflexivity.
  cbn [bind]. apply melds_remove_sequence_length in Hr.
  rewrite (IH fuel' r) by lia. reflexivity.
Qed.

Lemma try_form_melds_total (l : list tile) :
  exists b, Melds._try_form_melds l = Ok b.
Proof. apply try_form_melds_fuel_total. lia. Qed.

(** ** The meld search of lebron.py *)

Lemma total_tiles_unfold (tiles : hand) :
  total_tiles tiles
  = len (tiles_m tiles) + len (tiles_p tiles) + len (tiles_s tiles) + len (tiles_z tiles).
Proof. unfold total_tiles, sum, suits. cbn [map fold_left get]. lia. Qed.

Lemma total_tiles_nonneg (tiles : hand) : 0 <= total_tiles tiles.
Proof. rewrite total_tiles_unfold. unfold len. lia. Qed.

Lemma total_tiles_with_suit (tiles : hand) (st : suit) (l : list Z) :
  total_tiles (with_suit tiles st l) = total_tiles tiles - len (get tiles st) + len l.
Proof.
  rewrite !total_tiles_unfold. destruct st; cbn [with_suit get tiles_m tiles_p tiles_s tiles_z]; lia.
Qed.

Lemma get_with_suit_same (tiles : hand) (st : suit) (l : list Z) :
  get (with_suit tiles st l) st = l.
Proof. destruct st; reflexivity. Qed.

Lemma get_with_suit_other (tiles : hand) (st st' : suit) (l : list Z) :
  st' <> st -> get (with_suit tiles st l) st' = get tiles st'.
Proof. destruct st, st'; intros H; try reflexivity; congruence. Qed.

Lemma lebron_remove_triplet_total (tiles new_tiles : hand) (st : suit) (v : Z) :
  Lebron.remove_triplet tiles st v = Ok new_tiles ->
  total_tiles tiles = total_tiles new_tiles + 3.
Proof.
  unfold Lebron.remove_triplet. intros H.
  apply bind_Ok in H as [l1 [H1 H]]. apply bind_Ok in H as [l2 [H2 H]].
  apply bind_Ok in H as [l3 [H3 [= <-]]].
  apply remove_length in H1, H2, H3; auto using Z_eqb_eq.
  rewrite total_tiles_with_suit. unfold len. lia.
Qed.

Lemma lebron_remove_sequence_total (tiles new_tiles : hand) (st : suit) (v : Z) :
  Lebron.remove_sequence tiles st v = Ok new_tiles ->
  total_tiles tiles = total_tiles new_tiles + 3.
Proof.
  unfold Lebron.remove_sequence. intros H.
  apply bind_Ok in H as [l1 [H1 H]]. apply bind_Ok in H as [l2 [H2 H]].
  apply bind_Ok in H as [l3 [H3 [= <-]]].
  apply remove_length in H1, H2, H3; auto using Z_eqb_eq.
  rewrite total_tiles_with_suit. unfold len. lia.
Qed.

Lemma remove_twice_ok (v : Z) (l : list Z) :
  2 <= count Z.eqb v l ->
  exists l1 l2, remove Z.eqb v l = Ok l1 /\ remove Z.eqb v l1 = Ok l2.
Proof.
  intros Hc.
  destruct (remove_In Z.eqb Z_eqb_eq v l) as [l1 H1].
  { apply (count_pos_In Z.eqb Z_eqb_eq). lia. }
  pose proof (remove_count Z.eqb Z_eqb_eq v v l l1 H1) as C1.
  rewrite Z.eqb_refl in C1.
  destruct (remove_In Z.eqb Z_eqb_eq v l1) as [l2 H2].
  { apply (count_pos_In Z.eqb Z_eqb_eq). lia. }
  now exists l1, l2.
Qed.

Lemma lebron_remove_triplet_ok (tiles : hand) (st : suit) (v : Z) :
  3 <= count Z.eqb v (get tiles st) ->
  exists new_tiles, Lebron.remove_triplet tiles st v = Ok new_tiles.
Proof.
  intros Hc. unfold Lebron.remove_triplet.
  destruct (remove_twice_ok v (get tiles st)) as [l1 [l2 [H1 H2]]]; [lia |].
  pose proof (remove_count Z.eqb Z_eqb_eq v v _ _ H1) as C1.
  pose proof (remove_count Z.eqb Z_eqb_eq v v _ _ H2) as C2.
  rewrite Z.eqb_refl in C1, C2.
  destruct (remove_In Z.eqb Z_eqb_eq v l2) as [l3 H3].
  { apply (count_pos_In Z.eqb Z_eqb_eq). lia. }
  rewrite H1; cbn [bind]. rewrite H2; cbn [bind]. rewrite H3; cbn [bind].
  now eexists.
Qed.

Lemma lebron_remove_sequence_ok (tiles : hand) (st : suit) (v : Z) :
  In v (get tiles st) ->
  mem Z.eqb (v + 1) (get tiles st) = true ->
  mem Z.eqb (v + 2) (get tiles st) = true ->
  exists new_tiles, Lebron.remove_sequence tiles st v = Ok new_tiles.
Proof.
  intros H0 H1 H2.
  apply (mem_In Z.eqb Z_eqb_eq) in H1, H2.
  unfold Lebron.remove_sequence.
  destruct (remove_In Z.eqb Z_eqb_eq _ _ H0) as [r1 R1].
  assert (In (v + 1) r1) as I1
      by (apply (remove_other_In Z.eqb Z_eqb_eq _ _ _ _ R1 H1); lia).
  assert (In (v + 2) r1) as I2
      by (apply (remove_other_In Z.eqb Z_eqb_eq _ _ _ _ R1 H2); lia).
  destruct (remove_In Z.eqb Z_eqb_eq _ _ I1) as [r2 R2].
  assert (In (v + 2) r2) as I3
      by (apply (remove_other_In Z.eqb Z_eqb_eq _ _ _ _ R2 I2); lia).
  destruct (remove_In Z.eqb Z_eqb_eq _ _ I3) as [r3 R3].
  rewrite R1; cbn [bind]. rewrite R2; cbn [bind]. rewrite R3; cbn [bind].
  now eexists.
Qed.

Lemma first_tile_Some (tiles : hand) :
  total_tiles tiles <> 0 ->
  exists st v, Lebron.first_tile tiles = Some (st, v) /\ In v (get tiles st).
Proof.
  rewrite total_tiles_unfold. unfold Lebron.first_tile, suits. cbn [filter get].
  destruct tiles as [[| a lm] [| b lp] [| c ls] [| d lz]];
    cbn [tiles_m tiles_p tiles_s tiles_z truthy get]; intros H;
    try (do 2 eexists; split; [reflexivity | cbn; tauto]).
  now contradiction H.
Qed.

Lemma get_melds_recursive_fuel_total (fuel : nat) :
  forall tiles, total_tiles tiles < Z.of_nat fuel ->
                exists found, Lebron.get_melds_recursive_fuel fuel tiles = Ok found.
Proof.
  induction fuel as [| fuel IH]; intros tiles Hlt.
  { pose proof (total_tiles_nonneg tiles). lia. }
  cbn [Lebron.get_melds_recursive_fuel].
  destruct (Z.eqb_spec (total_tiles tiles) 0) as [| Hne]; [now eexists |].
  destruct (first_tile_Some tiles Hne) as [st [v [-> Hin]]].
  assert (exists with_triplet,
             (if 3 <=? count Z.eqb v (get tiles st)
              then
                bind (Lebron.remove_triplet tiles st v)
                  (fun new_tiles =>
                     bind (Lebron.get_melds_recursive_fuel fuel new_tiles)
                       (fun sub_results =>
                          Ok (map (fun res => (Lebron.triplet, st, v) :: res) sub_results)))
              else Ok []) = Ok with_triplet) as [wt ->].
  { destruct (Z.leb_spec 3 (count Z.eqb v (get tiles st))) as [Hc |]; [| now eexists].
    destruct (lebron_remove_triplet_ok _ _ _ Hc) as [new Hr]. rewrite Hr. cbn [bind].
    apply lebron_remove_triplet_total in Hr.
    destruct (IH new) as [sub ->]; [lia |]. cbn [bind]. now eexists. }
  cbn [bind].
  destruct (negb (suit_eqb st Sz) && (v <=? 7)); [| now eexists].
  destruct (mem Z.eqb (v + 1) (get tiles st)) eqn:M1; [| now eexists].
  destruct (mem Z.eqb (v + 2) (get tiles st)) eqn:M2; [| now eexists].
  cbn [andb].
  destruct (lebron_remove_sequence_ok tiles st v Hin M1 M2) as [new Hr].
  rewrite Hr. cbn [bind]. apply lebron_remove_sequence_total in Hr.
  destruct (IH new) as [sub ->]; [lia |]. cbn [bind]. now eexists.
Qed.

Lemma get_melds_recursive_fuel_indep (fuel : nat) :
  forall fuel' tiles,
    total_tiles tiles < Z.of_nat fuel -> total_tiles tiles < Z.of_nat fuel' ->
    Lebron.get_melds_recursive_fuel fuel tiles
    = Lebron.get_melds_recursive_fuel fuel' tiles.
Proof.
  induction fuel as [| fuel IH]; intros fuel' tiles H1 H2.
  { pose proof (total_tiles_nonneg tiles). lia. }
  destruct fuel' as [| fuel'].
  { pose proof (total_tiles_nonneg tiles). lia. }
  cbn [Lebron.get_melds_recursive_fuel].
  destruct (total_tiles tiles =? 0); [reflexivity |].
  destruct (Lebron.first_tile tiles) as [[st v] |]; [| reflexivity].
  assert ((if 3 <=? count Z.eqb v (get tiles st)
           then
             bind (Lebron.remove_triplet tiles st v)
               (fun new_tiles =>
                  bind (Lebron.get_melds_recursive_fuel fuel new_tiles)
                    (fun sub_results =>
                       Ok (map (fun res => (Lebron.triplet, st, v) :: res) sub_results)))
           else Ok [])
          = (if 3 <=? count Z.eqb v (get tiles st)
             then
               bind (Lebron.remove_triplet tiles st v)
                 (fun new_tiles =>
                    bind (Lebron.get_melds_recursive_fuel fuel' new_tiles)
                      (fun sub_results =>
                         Ok (map (fun res => (Lebron.triplet, st, v) :: res) sub_results)))
             else Ok [])) as ->.
  { destruct (3 <=? count Z.eqb v (get tiles st)); [| reflexivity].
    destruct (Lebron.remove_triplet tiles st v) as [new | |] eqn:Hr; try reflexivity.
    cbn [bind]. apply lebron_remove_triplet_total in Hr.
    rewrite (IH fuel' new) by lia. reflexivity. }
  f_equal.
  destruct (negb (suit_eqb st Sz) && (v <=? 7)); [| reflexivity].
  destruct (mem Z.eqb (v + 1) (get tiles st) && mem Z.eqb (v + 2) (get tiles st));
    [| reflexivity].
  destruct (Lebron.remove_sequence tiles st v) as [new | |] eqn:Hr; try reflexivity.
  cbn [bind]. apply lebron_remove_sequence_total in Hr.
  rewrite (IH fuel' new) by lia. reflexivity.
Qed.

Lemma get_melds_recursive_total (tiles : hand) :
  exists found, Lebron._get_melds_recursive tiles = Ok found.
Proof.
  apply get_melds_recursive_fuel_total.
  pose proof (total_tiles_nonneg tiles). lia.
Qed.

(** C9: the meld search ends on every input.  In jjjj.py and smalljj.py
    each recursive call of [_try_form_melds] is on a list from which
    three tiles were removed, the removals never raise under the guards
    of the source, and the search returns a boolean with any amount of
    fuel above the number of tiles.  The same holds for
    [_get_melds_recursive] of lebron.py on the total number of tiles of
    its dict, and the two removals of the candidate pair shorten a list
    by two. *)
Theorem C9_meld_search_terminates :
  (forall t l,
      match Melds.remove_triplet t l with
      | Ok remaining => length l = (length remaining + 3)%nat
      | Raise _ => count tile_eqb t l < 3
      | OutOfFuel => False
      end)
  /\ (forall st num l,
         match Melds.remove_sequence st num l with
         | Ok remaining => length l = (length remaining + 3)%nat
         | Raise _ =>
             mem tile_eqb (st, num) l && mem tile_eqb (st, num + 1) l
             && mem tile_eqb (st, num + 2) l = false
         | OutOfFuel => False
         end)
  /\ (forall l extra,
         exists b,
           Melds._try_form_melds l = Ok b
           /\ Melds.try_form_melds_fuel (S (length l) + extra) l = Ok b)
  /\ (forall tiles st v,
         match Lebron.remove_triplet tiles st v with
         | Ok new_tiles => total_tiles tiles = total_tiles new_tiles + 3
         | Raise _ => count Z.eqb v (get tiles st) < 3
         | OutOfFuel => False
         end)
  /\ (forall tiles st v,
         match Lebron.remove_sequence tiles st v with
         | Ok new_tiles => total_tiles tiles = total_tiles new_tiles + 3
         | Raise _ =>
             mem Z.eqb v (get tiles st) && mem Z.eqb (v + 1) (get tiles st)
             && mem Z.eqb (v + 2) (get tiles st) = false
         | OutOfFuel => False
         end)
  /\ (forall tiles extra,
         exists found,
           Lebron._get_melds_recursive tiles = Ok found
           /\ Lebron.get_melds_recursive_fuel
                (S (Z.to_nat (total_tiles tiles)) + extra) tiles = Ok found)
  /\ (forall v l,
         match l1 <- remove Z.eqb v l ;; remove Z.eqb v l1 with
         | Ok l2 => length l = (length l2 + 2)%nat
         | Raise _ => count Z.eqb v l < 2
         | OutOfFuel => False
         end).
Proof.
  repeat apply conj.
  - intros t l. destruct (Melds.remove_triplet t l) as [r | e |] eqn:E.
    + now apply melds_remove_triplet_length in E.
    + destruct (Z.ltb_spec (count tile_eqb t l) 3) as [| Hc]; [assumption |].
      destruct (melds_remove_triplet_ok t l Hc). congruence.
    + unfold Melds.remove_triplet in E.
      destruct (remove tile_eqb t l) as [r1 | |] eqn:E1; cbn [bind] in E;
        [| discriminate | now apply remove_never_out_of_fuel in E1].
      destruct (remove tile_eqb t r1) as [r2 | |] eqn:E2; cbn [bind] in E;
        [| discriminate | now apply remove_never_out_of_fuel in E2].
      now apply remove_never_out_of_fuel in E.
  - intros st num l. destruct (Melds.remove_sequence st num l) as [r | e |] eqn:E.
    + now apply melds_remove_sequence_length in E.
    + destruct (mem tile_eqb (st, num) l) eqn:M0; [| reflexivity].
      destruct (mem tile_eqb (st, num + 1) l) eqn:M1; [| reflexivity].
      destruct (mem tile_eqb (st, num + 2) l) eqn:M2; [| reflexivity].
      apply (mem_In tile_eqb tile_eqb_eq) in M0.
      destruct (melds_remove_sequence_ok st num l M0 M1 M2). congruence.
    + unfold Melds.remove_sequence in E.
      destruct (remove tile_eqb (st, num) l) as [r1 | |] eqn:E1; cbn [bind] in E;
        [| discriminate | now apply remove_never_out_of_fuel in E1].
      destruct (remove tile_eqb (st, num + 1) r1) as [r2 | |] eqn:E2; cbn [bind] in E;
        [| discriminate | now apply remove_never_out_of_fuel in E2].
      now apply remove_never_out_of_fuel in E.
  - intros l extra. destruct (try_form_melds_total l) as [b Hb].
    exists b. split; [assumption |].
    rewrite <- Hb. unfold Melds._try_form_melds.
    apply try_form_melds_fuel_indep; lia.
  - intros tiles st v.
    destruct (Lebron.remove_triplet tiles st v) as [r | e |] eqn:E.
    + now apply lebron_remove_triplet_total in E.
    + destruct (Z.ltb_spec (count Z.eqb v (get tiles st)) 3) as [| Hc]; [assumption |].
      destruct (lebron_remove_triplet_ok tiles st v Hc). congruence.
    + unfold Lebron.remove_triplet in E.
      destruct (remove Z.eqb v (get tiles st)) as [r1 | |] eqn:E1; cbn [bind] in E;
        [| discriminate | now apply remove_never_out_of_fuel in E1].
      destruct (remove Z.eqb v r1) as [r2 | |] eqn:E2; cbn [bind] in E;
        [| discriminate | now apply remove_never_out_of_fuel in E2].
      destruct (remove Z.eqb v r2) as [r3 | |] eqn:E3; cbn [bind] in E;
        [discriminate | discriminate | now apply remove_never_out_of_fuel in E3].
  - intros tiles st v.
    destruct (Lebron.remove_sequence tiles st v) as [r | e |] eqn:E.
    + now apply lebron_remove_sequence_total in E.
    + destruct (mem Z.eqb v (get tiles st)) eqn:M0; [| reflexivity].
      destruct (mem Z.eqb (v + 1) (get tiles st)) eqn:M1; [| reflexivity].
      destruct (mem Z.eqb (v + 2) (get tiles st)) eqn:M2; [| reflexivity].
      apply (mem_In Z.eqb Z_eqb_eq) in M0.
      destruct (lebron_remove_sequence_ok tiles st v M0 M1 M2). congruence.
    + unfold Lebron.remove_sequence in E.
      destruct (remove Z.eqb v (get tiles st)) as [r1 | |] eqn:E1; cbn [bind] in E;
        [| discriminate | now apply remove_never_out_of_fuel in E1].
      destruct (remove Z.eqb (v + 1) r1) as [r2 | |] eqn:E2; cbn [bind] in E;
        [| discriminate | now apply remove_never_out_of_fuel in E2].
      destruct (remove Z.eqb (v + 2) r2) as [r3 | |] eqn:E3; cbn [bind] in E;
        [discriminate | discriminate | now apply remove_never_out_of_fuel in E3].
  - intros tiles extra. destruct (get_melds_recursive_total tiles) as [found Hf].
    exists found. split; [assumption |].
    rewrite <- Hf. unfold Lebron._get_melds_recursive.
    pose proof (total_tiles_nonneg tiles).
    apply get_melds_recursive_fuel_indep; lia.
  - intros v l.
    destruct (remove Z.eqb v l) as [l1 | e |] eqn:E1; cbn [bind].
    + destruct (remove Z.eqb v l1) as [l2 | e |] eqn:E2.
      * apply remove_length in E1, E2; auto using Z_eqb_eq. lia.
      * destruct (Z.ltb_spec (count Z.eqb v l) 2) as [| Hc]; [assumption |].
        destruct (remove_twice_ok v l Hc) as [l1' [l2' [H1 H2]]]. congruence.
      * now apply remove_never_out_of_fuel in E2.
    + destruct (Z.ltb_spec (count Z.eqb v l) 2) as [| Hc]; [assumption |].
      destruct (remove_twice_ok v l Hc) as [l1' [l2' [H1 H2]]]. congruence.
    + now apply remove_never_out_of_fuel in E1.
Qed.

(** ** Dicts *)

Section DictFacts.
Context {A V : Type} (eqb : A -> A -> bool).
Hypothesis eqb_eq : forall x y, eqb x y = true <-> x = y.

Lemma eqb_refl' (x : A) : eqb x x = true.
  Proof. now apply eqb_eq. Qed.

Lemma eqb_neq' (x y : A) : x <> y -> eqb x y = false.
  Proof.
    intros H. destruct (eqb x y) eqn:E; [| reflexivity].
    apply eqb_eq in E. contradiction.
  Qed.

Lemma dict_find_set (d : dict A V) (k k' : A) (v : V) :
    dict_find eqb (dict_set eqb d k v) k'
    = if eqb k k' then Some v else dict_find eqb d k'.
  Proof.
    induction d as [| [k0 v0] d IH]; cbn [dict_set dict_find].
    - reflexivity.
    - destruct (eqb k0 k) eqn:E0; cbn [dict_find].
      + apply eqb_eq in E0. subst k0. destruct (eqb k k'); reflexivity.
      + destruct (eqb k0 k') eqn:E1; [| exact IH].
        apply eqb_eq in E1. subst k0. now rewrite (eqb_neq' k k') by
            (intro; subst; rewrite eqb_refl' in E0; discriminate).
  Qed.

Lemma dict_find_In_keys (d : dict A V) (k : A) :
    In k (dict_keys d) <-> dict_find eqb d k <> None.
  Proof.
    induction d as [| [k0 v0] d IH]; cbn [dict_keys map dict_find fst In].
    - tauto.
    - destruct (eqb k0 k) eqn:E.
      + apply eqb_eq in E. split; [discriminate | auto].
      + unfold dict_keys in IH. rewrite <- IH. split; [| tauto].
        intros [-> | H]; [| assumption].
        rewrite eqb_refl' in E. discriminate.
  Qed.

Lemma dict_keys_set (d : dict A V) (k : A) (v : V) :
    dict_keys (dict_set eqb d k v)
    = if dict_mem eqb d k then dict_keys d else dict_keys d ++ [k].
  Proof.
    unfold dict_mem.
    induction d as [| [k0 v0] d IH]; cbn [dict_set dict_find dict_keys map fst app].
    - reflexivity.
    - destruct (eqb k0 k) eqn:E; cbn [map fst]; [reflexivity |].
      unfold dict_keys in IH. rewrite IH.
      destruct (dict_find eqb d k); reflexivity.
  Qed.

Lemma dict_keys_set_In (d : dict A V) (k k' : A) (v : V) :
    In k' (dict_keys (dict_set eqb d k v)) -> k' = k \/ In k' (dict_keys d).
  Proof.
    rewrite dict_keys_set. destruct (dict_mem eqb d k); [auto |].
    rewrite in_app_iff. cbn [In]. intuition.
  Qed.

Lemma dict_keys_set_NoDup (d : dict A V) (k : A) (v : V) :
    NoDup (dict_keys d) -> NoDup (dict_keys (dict_set eqb d k v)).
  Proof.
    intros Hnd. rewrite dict_keys_set. unfold dict_mem.
    destruct (dict_find eqb d k) eqn:F; [assumption |].
    assert (~ In k (dict_keys d)) as Hni.
    { rewrite dict_find_In_keys. congruence. }
    apply NoDup_app; [assumption | repeat constructor; intros [] |].
    intros x Hx [-> | []]. contradiction.
  Qed.
End DictFacts.

(** ** Every evaluation of jjjj.py returns a list of patterns *)

Lemma jjjj_pair_candidates_enough (tiles : hand) :
  forall candidate, In candidate (dict_keys (Jjjj.pair_candidates tiles)) ->
                    enough_for_pair tiles candidate.
Proof.
  unfold Jjjj.pair_candidates.
  assert (forall (sts : list suit) cands,
             (forall c, In c (dict_keys cands) -> enough_for_pair tiles c) ->
             forall c,
               In c (dict_keys
                       (fold_left
                          (fun cands st =>
                             fold_left
                               (fun cands num =>
                                  let count := count Z.eqb num (get tiles st) in
                                  if 2 <=? count then
                                    let cands :=
                                      if negb (dict_mem tile_eqb cands (st, num))
                                      then dict_set tile_eqb cands (st, num) 0 else cands in
                                    dict_set tile_eqb cands (st, num)
                                             (dict_get tile_eqb cands (st, num) 0 + count / 2)
                                  else cands)
                               (set_of Z.eqb (get tiles st)) cands)
                          sts cands)) ->
               enough_for_pair tiles c) as Houter.
  { induction sts as [| st sts IHs]; intros cands Hc; cbn [fold_left]; [exact Hc |].
    apply IHs. generalize (set_of Z.eqb (get tiles st)). intros nums.
    revert cands Hc. induction nums as [| num nums IHn]; intros cands Hc;
      cbn [fold_left]; [exact Hc |].
    apply IHn. cbv zeta.
    destruct (Z.leb_spec 2 (count Z.eqb num (get tiles st))) as [Hge |]; [| exact Hc].
    intros c Hin.
    apply dict_keys_set_In in Hin as [-> | Hin]; [exact Hge |].
    destruct (negb (dict_mem tile_eqb cands (st, num))); [| now apply Hc].
    apply dict_keys_set_In in Hin as [-> | Hin]; [exact Hge | now apply Hc]. }
  apply Houter. intros c [].
Qed.

Lemma check_melds_valid_total (tiles : hand) :
  exists b, Melds._check_melds_valid tiles = Ok b.
Proof. apply try_form_melds_total. Qed.

Lemma try_pair_total (tiles : hand) (candidate : tile) :
  enough_for_pair tiles candidate -> exists b, Melds.try_pair tiles candidate = Ok b.
Proof.
  destruct candidate as [pair_suit pair_num]. unfold enough_for_pair, Melds.try_pair.
  cbn [fst snd]. intros Hc.
  destruct (remove_twice_ok _ _ Hc) as [l1 [l2 [-> H2]]]. cbn [bind].
  rewrite H2. cbn [bind]. apply check_melds_valid_total.
Qed.

Lemma try_pairs_total (tiles : hand) (candidates : list tile) :
  (forall c, In c candidates -> enough_for_pair tiles c) ->
  exists b, Melds.try_pairs tiles candidates = Ok b.
Proof.
  induction candidates as [| c rest IH]; intros Hall; cbn [Melds.try_pairs].
  - now eexists.
  - destruct (try_pair_total tiles c) as [b ->]; [apply Hall; now left |].
    cbn [bind]. destruct b; [now eexists |].
    apply IH. intros c' Hin. apply Hall. now right.
Qed.

Lemma jjjj_is_valid_winning_pattern_total (tiles : hand) :
  exists b, Jjjj._is_valid_winning_pattern tiles = Ok b.
Proof.
  unfold Jjjj._is_valid_winning_pattern.
  destruct (negb (len (Melds.tile_list_of (fun l => l) tiles) =? 14)); [now eexists |].
  apply try_pairs_total, jjjj_pair_candidates_enough.
Qed.

Lemma patterns_or_none_non_empty (yaku_list : list yaku) :
  patterns_or_none yaku_list -> yaku_list <> [].
Proof. intros [-> | [H _]]; [discriminate | assumption]. Qed.

Lemma Forall_snoc {A : Type} (P : A -> Prop) (l : list A) (x : A) :
  Forall P l -> P x -> Forall P (l ++ [x]).
Proof. intros Hl Hx. apply Forall_app. split; [assumption | now constructor]. Qed.

Lemma append_if_positive (b : bool) (yaku_list : list yaku) (y : yaku) :
  Forall (fun y => 0 < snd y) yaku_list -> 0 < snd y ->
  Forall (fun y => 0 < snd y) (append_if b yaku_list y).
Proof.
  intros Hl Hy. unfold append_if. destruct b; [now apply Forall_snoc | assumption].
Qed.

Lemma snoc_non_empty {A : Type} (l : list A) (x : A) : l ++ [x] <> [].
Proof. destruct l; discriminate. Qed.

Lemma positive_truthy (yaku_list : list yaku) :
  Forall (fun y => 0 < snd y) yaku_list ->
  patterns_or_none (if truthy yaku_list then yaku_list else [("無役", 0)]).
Proof.
  intros H. destruct yaku_list; cbn [truthy]; [now left |].
  right. split; [discriminate | assumption].
Qed.

Lemma jjjj_check_yaku_patterns (tiles : hand) :
  exists yaku_list,
    Jjjj.check_yaku tiles = Ok yaku_list /\ patterns_or_none yaku_list.
Proof.
  unfold Jjjj.check_yaku.
  set (one := len (filter (fun st => truthy (get tiles st)) numeric_suits) =? 1).
  destruct (one && negb (truthy (tiles_z tiles))).
  { eexists; split; [reflexivity |]. right. split; [discriminate |].
    repeat constructor. }
  destruct (one && truthy (tiles_z tiles)).
  { eexists; split; [reflexivity |]. right. split; [discriminate |].
    repeat constructor. }
  destruct (Jjjj._check_big_three_dragons (Jjjj._count_tiles tiles)).
  { eexists; split; [reflexivity |]. right. split; [discriminate |].
    repeat constructor. }
  set (dragons := fold_left _ Jjjj.DRAGONS []).
  assert (Forall (fun y => 0 < snd y) dragons) as Hd.
  { subst dragons. unfold Jjjj.DRAGONS. cbn [fold_left].
    repeat match goal with
           | |- context [if ?b then _ else _] => destruct b
           end; cbn [app]; repeat constructor. }
  destruct (Jjjj._check_seven_pairs (Jjjj._count_tiles tiles)).
  { eexists; split; [reflexivity |]. right. split; [apply snoc_non_empty |].
    apply Forall_snoc; [assumption | reflexivity]. }
  set (l1 := if Jjjj._check_all_triplets _ then _ else dragons).
  assert (Forall (fun y => 0 < snd y) l1) as H1.
  { subst l1. destruct (Jjjj._check_all_triplets _); [| assumption].
    apply Forall_snoc; [assumption | reflexivity]. }
  set (l2 := if negb (Jjjj._has_terminal_or_honor tiles) then _ else l1).
  assert (Forall (fun y => 0 < snd y) l2) as H2.
  { subst l2. destruct (negb _); [| assumption].
    apply Forall_snoc; [assumption | reflexivity]. }
  destruct (jjjj_is_valid_winning_pattern_total tiles) as [valid ->]. cbn [bind].
  eexists; split; [reflexivity |].
  apply positive_truthy.
  destruct valid; [| assumption].
  match goal with |- context [if ?b then _ else _] => destruct b end;
    [repeat constructor | assumption].
Qed.

(** ** Every evaluation of lebron.py returns a list of patterns *)

Lemma insert_sorted_Permutation (x : Z) (l : list Z) :
  Permutation (insert_sorted x l) (x :: l).
Proof.
  induction l as [| y l IH]; cbn [insert_sorted]; [reflexivity |].
  destruct (x <? y); [reflexivity |].
  rewrite IH. apply perm_swap.
Qed.

Lemma sorted_Permutation (l : list Z) : Permutation (sorted l) l.
Proof.
  unfold sorted.
  assert (forall acc, Permutation (fold_left (fun acc x => insert_sorted x acc) l acc)
                                  (l ++ acc)) as H.
  { induction l as [| x l IH]; intros acc; cbn [fold_left app]; [reflexivity |].
    rewrite IH, insert_sorted_Permutation. symmetry. apply Permutation_middle. }
  rewrite H. now rewrite app_nil_r.
Qed.

Lemma count_Permutation {A : Type} (eqb : A -> A -> bool) (x : A) (l l' : list A) :
  Permutation l l' -> count eqb x l = count eqb x l'.
Proof.
  intros H. unfold count, len.
  now rewrite (Permutation_length (filter_Permutation _ _ _ H)).
Qed.

Lemma get_sort_all (tiles : hand) (st : suit) :
  get (Parse.sort_all tiles) st = sorted (get tiles st).
Proof. destruct st; reflexivity. Qed.

Lemma lebron_pair_candidates_enough (tiles : hand) :
  forall candidate, In candidate (Lebron.pair_candidates tiles) ->
                    enough_for_pair tiles candidate.
Proof.
  intros [st n]. unfold Lebron.pair_candidates, enough_for_pair. cbn [fst snd].
  rewrite in_flat_map. intros [st' [_ Hin]].
  apply in_map_iff in Hin as [n' [[= -> ->] Hin]].
  apply filter_In in Hin as [_ Hc]. now apply Z.leb_le.
Qed.

Lemma lebron_analyze_pair_total (tiles : hand) (candidate : tile) :
  enough_for_pair tiles candidate ->
  exists found, Lebron.analyze_pair tiles candidate = Ok found.
Proof.
  destruct candidate as [p_suit p_val]. unfold enough_for_pair, Lebron.analyze_pair.
  cbn [fst snd]. intros Hc. rewrite get_sort_all.
  rewrite (count_Permutation _ _ _ _ (Permutation_sym (sorted_Permutation _))) in Hc.
  destruct (remove_twice_ok _ _ Hc) as [l1 [l2 [-> H2]]]. cbn [bind].
  rewrite H2. cbn [bind].
  destruct (get_melds_recursive_total (with_suit (Parse.sort_all tiles) p_suit l2))
    as [found ->].
  cbn [bind]. now eexists.
Qed.

Lemma lebron_analyze_hand_total (tiles : hand) :
  exists structures, Lebron._analyze_hand tiles = Ok structures.
Proof.
  unfold Lebron._analyze_hand.
  pose proof (lebron_pair_candidates_enough tiles) as Hall.
  induction (Lebron.pair_candidates tiles) as [| c rest IH]; cbn [Lebron.analyze_pairs].
  - now eexists.
  - destruct (lebron_analyze_pair_total tiles c) as [here ->]; [apply Hall; now left |].
    cbn [bind]. destruct IH as [there ->]; [intros c' Hin; apply Hall; now right |].
    cbn [bind]. now eexists.
Qed.

Lemma fold_left_positive {X : Type} (f : list yaku -> X -> list yaku) (xs : list X) :
  (forall l x, Forall (fun y => 0 < snd y) l -> Forall (fun y => 0 < snd y) (f l x)) ->
  forall l, Forall (fun y => 0 < snd y) l ->
            Forall (fun y => 0 < snd y) (fold_left f xs l).
Proof.
  intros Hf. induction xs as [| x xs IH]; intros l Hl; cbn [fold_left]; auto.
Qed.

(** Opens the outermost [let] of a goal about a list of patterns, proves
    with [tac] that the bound list has positive values only, and forgets
    how the list was made. *)
Ltac stage tac :=
  lazymatch goal with
  | |- Forall ?P (let x := ?e in @?b x) =>
      let s := fresh "stage" in
      change (let x := e in Forall P (b x)); intro s; cbv beta;
      assert (Forall P s) by (subst s; tac); clearbody s
  end.

Ltac forget_let :=
  lazymatch goal with
  | |- Forall ?P (let x := ?e in @?b x) =>
      let s := fresh "aux" in
      change (let x := e in Forall P (b x)); intro s; cbv beta; clearbody s
  end.

Ltac all_positive :=
  repeat first
    [ assumption
    | apply Forall_nil
    | apply append_if_positive
    | apply Forall_snoc
    | match goal with
      | |- Forall _ (let _ := _ in _) => cbv zeta
      | |- 0 < snd (_, if ?b then _ else _) => destruct b
      | |- 0 < snd (_, _) => reflexivity
      | |- Forall _ (if ?b then _ else _) => destruct b
      | |- Forall _ (match ?e with _ => _ end) => destruct e
      end ].

Lemma lebron_evaluate_structure_positive
      (tiles : hand) (is_tsumo is_menzen is_riichi : bool) (structure : list Lebron.meld * tile) :
  Forall (fun y => 0 < snd y)
         (Lebron.evaluate_structure tiles is_tsumo is_menzen is_riichi structure).
Proof.
  cbv delta [Lebron.evaluate_structure]. cbv beta.
  destruct structure as [melds head].
  stage all_positive. stage all_positive.
  forget_let. forget_let.
  stage all_positive.
  forget_let.
  stage ltac:(apply fold_left_positive; [intros; all_positive | assumption]).
  forget_let.
  stage all_positive.
  stage all_positive.
  stage all_positive.
  forget_let.
  stage all_positive.
  stage all_positive.
  stage ltac:(apply fold_left_positive; [intros; all_positive | assumption]).
  stage all_positive.
  forget_let.
  stage all_positive.
  forget_let. forget_let.
  all_positive.
Qed.

Lemma lebron_check_yakuman_positive (tiles : hand) :
  Forall (fun y => 0 < snd y) (Lebron._check_yakuman tiles).
Proof.
  unfold Lebron._check_yakuman.
  repeat match goal with
         | |- Forall _ (if ?b then _ else _) => destruct b
         end; try (repeat constructor).
  match goal with
  | |- context [fold_left ?f ?l ?a] => destruct (fold_left f l a) as [[triplets dragons] winds]
  end.
  all_positive.
Qed.

Lemma lebron_keep_best_invariant
      (tiles : hand) (is_tsumo is_menzen is_riichi : bool)
      (structures : list (list Lebron.meld * tile)) :
  forall best,
    snd best = total_fan (fst best) ->
    Forall (fun y => 0 < snd y) (fst best) ->
    let best' :=
      fold_left (Lebron.keep_best tiles is_tsumo is_menzen is_riichi) structures best in
    snd best' = total_fan (fst best') /\ Forall (fun y => 0 < snd y) (fst best').
Proof.
  induction structures as [| structure rest IH]; intros best Hsum Hpos; cbn [fold_left].
  - now split.
  - apply IH; unfold Lebron.keep_best; destruct (snd best <? _); cbn [fst snd];
      auto using lebron_evaluate_structure_positive.
Qed.

Lemma truthy_non_empty {A : Type} (l : list A) : truthy l = true -> l <> [].
Proof. destruct l; [discriminate | discriminate]. Qed.

(** C8: in jjjj.py and in lebron.py the total returned by
    [calculate_fan] is the sum of the values in the returned list, for
    every hand and flag setting, and the list is never empty: it is the
    entry for no pattern, of value 0, alone, or a non-empty list of
    patterns of positive value.  The evaluation of jjjj.py never raises;
    that of lebron.py raises only the tile-count error, and only for an
    input that is not of 14 tiles. *)
Theorem C8_total_is_sum :
  (forall tiles,
      exists yaku_list,
        Jjjj.calculate_fan tiles = Ok (yaku_list, total_fan yaku_list)
        /\ yaku_list <> [] /\ patterns_or_none yaku_list)
  /\ (forall tiles is_tsumo is_menzen is_riichi,
         match Lebron.calculate_fan tiles is_tsumo is_menzen is_riichi with
         | Ok (yaku_list, fan) =>
             total_tiles tiles = 14 /\ fan = total_fan yaku_list
             /\ yaku_list <> [] /\ patterns_or_none yaku_list
         | Raise e => total_tiles tiles <> 14 /\ e = WrongTileCount (total_tiles tiles)
         | OutOfFuel => False
         end).
Proof.
  split.
  - intros tiles. destruct (jjjj_check_yaku_patterns tiles) as [yaku_list [Hc Hp]].
    exists yaku_list. unfold Jjjj.calculate_fan. rewrite Hc. cbn [bind].
    auto using patterns_or_none_non_empty.
  - intros tiles is_tsumo is_menzen is_riichi. unfold Lebron.calculate_fan.
    destruct (Z.eqb_spec (total_tiles tiles) 14) as [H14 | Hne]; cbn [negb];
      [| now split].
    pose proof (lebron_check_yakuman_positive tiles) as Hy.
    destruct (truthy (Lebron._check_yakuman tiles)) eqn:Ty.
    { apply truthy_non_empty in Ty. repeat split; try assumption.
      right. now split. }
    match goal with
    | |- context [append_if ?b [] ?y] => set (yaku_list := append_if b [] y)
    end.
    assert (Forall (fun y => 0 < snd y) yaku_list) as Hpos
        by (subst yaku_list; all_positive).
    clearbody yaku_list.
    destruct (lebron_analyze_hand_total tiles) as [structures ->]. cbn [bind].
    destruct (negb (truthy structures) && _).
    { repeat split; try assumption; try discriminate. now left. }
    pose proof (lebron_keep_best_invariant tiles is_tsumo is_menzen is_riichi structures
                  (yaku_list, total_fan yaku_list) eq_refl Hpos) as Hinv.
    cbv zeta in Hinv.
    destruct (fold_left _ structures _) as [best_yaku_list best_fan].
    cbn [fst snd] in Hinv. destruct Hinv as [Hsum Hbest].
    destruct ((best_fan =? 0) && negb (truthy best_yaku_list)) eqn:Hnone.
    { repeat split; try assumption; try discriminate. now left. }
    assert (best_yaku_list <> []) as Hne.
    { intros ->. subst best_fan. discriminate. }
    repeat split; try assumption. right. now split.
Qed.

(** ** Counting dicts *)

Section Tally.
Context {A : Type} (eqb : A -> A -> bool).
Hypothesis eqb_eq : forall x y, eqb x y = true <-> x = y.

  (** The loop [for k in l: counts[k] = counts.get(k, 0) + 1]. *)
Local Abbreviation tally l d :=
    (fold_left (fun counts k => dict_set eqb counts k (dict_get eqb counts k 0 + 1)) l d).

Lemma tally_get (l : list A) :
    forall (d : dict A Z) (k : A),
      dict_get eqb (tally l d) k 0 = dict_get eqb d k 0 + count eqb k l.
  Proof.
    induction l as [| x l IH]; intros d k; cbn [fold_left].
    - unfold count, len. cbn. lia.
    - rewrite IH, count_cons. unfold dict_get at 1.
      rewrite (dict_find_set eqb eqb_eq).
      destruct (eqb x k) eqn:E; [| unfold dict_get; lia].
      apply eqb_eq in E. subst x. lia.
  Qed.

Lemma tally_keys_NoDup (l : list A) :
    forall d : dict A Z, NoDup (dict_keys d) -> NoDup (dict_keys (tally l d)).
  Proof.
    induction l as [| x l IH]; intros d Hd; cbn [fold_left]; [assumption |].
    apply IH. now apply dict_keys_set_NoDup.
  Qed.

Lemma tally_keys_In (l : list A) :
    forall (d : dict A Z) (k : A),
      In k (dict_keys (tally l d)) <-> In k (dict_keys d) \/ In k l.
  Proof.
    induction l as [| x l IH]; intros d k; cbn [fold_left In]; [tauto |].
    rewrite IH, dict_keys_set. destruct (dict_mem eqb d x) eqn:M.
    - split; [tauto |]. intros [H | [<- | H]]; auto.
      left. apply (dict_find_In_keys eqb eqb_eq). unfold dict_mem in M.
      destruct (dict_find eqb d x); [discriminate | discriminate].
    - rewrite in_app_iff. cbn [In]. tauto.
  Qed.

Lemma dict_values_get (d : dict A Z) :
    NoDup (dict_keys d) ->
    dict_values d = map (fun k => dict_get eqb d k 0) (dict_keys d).
  Proof.
    induction d as [| [k0 v0] d IH]; cbn [dict_values dict_keys map fst snd];
      [reflexivity |].
    intros Hnd. inversion Hnd as [| ? ? Hni Hnd']; subst.
    unfold dict_get at 1. cbn [dict_find]. rewrite (eqb_refl' eqb eqb_eq). f_equal.
    unfold dict_values, dict_keys in IH. rewrite (IH Hnd').
    apply map_ext_in. intros k Hk. unfold dict_get. cbn [dict_find].
    rewrite (eqb_neq' eqb eqb_eq k0 k); [reflexivity |].
    intros ->. contradiction.
  Qed.

Lemma count_app (k : A) (l l' : list A) :
    count eqb k (l ++ l') = count eqb k l + count eqb k l'.
  Proof. unfold count, len. rewrite filter_app, length_app. lia. Qed.

Lemma count_NoDup (k : A) (l : list A) :
    NoDup l -> count eqb k l = if mem eqb k l then 1 else 0.
  Proof.
    induction 1 as [| x l Hni _ IH]; [reflexivity |].
    rewrite count_cons, IH. unfold mem. cbn [existsb]. fold (mem eqb k l).
    destruct (eqb x k) eqn:E; cbn [orb]; [| destruct (mem eqb k l); lia].
    apply eqb_eq in E. subst x.
    destruct (mem eqb k l) eqn:M; [| lia].
    apply (mem_In eqb eqb_eq) in M. contradiction.
  Qed.
End Tally.

(** ** Seven pairs in jjjj.py *)

(** The ranks of a hand in the order [_count_tiles] of jjjj.py visits
    them. *)
Lemma jjjj_count_tiles_ranks (tiles : hand) :
  Jjjj._count_tiles tiles
  = fold_left
      (fun counts num => dict_set Z.eqb counts num (dict_get Z.eqb counts num 0 + 1))
      (map snd (all_tiles tiles)) [].
Proof.
  unfold Jjjj._count_tiles, all_tiles, Melds.tile_list_of, suits.
  cbn [fold_left flat_map]. rewrite !map_app, !map_map. cbn [snd].
  rewrite !map_id, app_nil_r, !fold_left_app. reflexivity.
Qed.

Section SevenPairs.
Variables (tiles : hand) (keys : list tile).
Hypothesis keys_ranks : NoDup (map snd keys).
Hypothesis keys_seven : length keys = 7%nat.
Hypothesis keys_twice : Permutation (all_tiles tiles) (keys ++ keys).

Local Abbreviation ranks := (map snd (all_tiles tiles)).

Lemma ranks_twice : Permutation ranks (map snd keys ++ map snd keys).
  Proof. rewrite <- map_app. now apply Permutation_map. Qed.

Lemma rank_count (k : Z) :
    count Z.eqb k ranks = if mem Z.eqb k (map snd keys) then 2 else 0.
  Proof.
    rewrite (count_Permutation _ _ _ _ ranks_twice), count_app.
    rewrite (count_NoDup Z.eqb Z_eqb_eq) by assumption.
    destruct (mem Z.eqb k (map snd keys)); reflexivity.
  Qed.

Lemma rank_In (k : Z) : In k ranks <-> In k (map snd keys).
  Proof.
    split; intros H.
    - apply (Permutation_in _ ranks_twice) in H. apply in_app_iff in H. tauto.
    - apply (Permutation_in _ (Permutation_sym ranks_twice)).
      apply in_app_iff. now left.
  Qed.

Lemma jjjj_counts_get (k : Z) :
    dict_get Z.eqb (Jjjj._count_tiles tiles) k 0
    = if mem Z.eqb k (map snd keys) then 2 else 0.
  Proof.
    rewrite jjjj_count_tiles_ranks, (tally_get Z.eqb Z_eqb_eq). fold ranks.
    rewrite rank_count. reflexivity.
  Qed.

Lemma jjjj_counts_le_2 (k : Z) : dict_get Z.eqb (Jjjj._count_tiles tiles) k 0 <= 2.
  Proof. rewrite jjjj_counts_get. destruct (mem _ _ _); lia. Qed.

Lemma jjjj_seven_pairs_found :
    Jjjj._check_seven_pairs (Jjjj._count_tiles tiles) = true.
  Proof.
    unfold Jjjj._check_seven_pairs.
    assert (NoDup (dict_keys (Jjjj._count_tiles tiles))) as Hnd.
    { rewrite jjjj_count_tiles_ranks. apply (tally_keys_NoDup Z.eqb Z_eqb_eq).
      constructor. }
    assert (forall k, In k (dict_keys (Jjjj._count_tiles tiles)) <-> In k (map snd keys))
      as Hin.
    { intros k. rewrite jjjj_count_tiles_ranks, (tally_keys_In Z.eqb Z_eqb_eq).
      fold ranks. rewrite rank_In. cbn [dict_keys map In]. tauto. }
    rewrite (dict_values_get Z.eqb Z_eqb_eq _ Hnd).
    assert (filter (fun count => count =? 2)
                   (map (fun k => dict_get Z.eqb (Jjjj._count_tiles tiles) k 0)
                        (dict_keys (Jjjj._count_tiles tiles)))
            = map (fun k => dict_get Z.eqb (Jjjj._count_tiles tiles) k 0)
                  (dict_keys (Jjjj._count_tiles tiles))) as ->.
    { apply forallb_filter_id. apply forallb_forall. intros v Hv.
      apply in_map_iff in Hv as [k [<- Hk]]. rewrite jjjj_counts_get.
      apply Hin, (mem_In Z.eqb Z_eqb_eq) in Hk. now rewrite Hk. }
    unfold len. rewrite length_map.
    rewrite (Permutation_length (NoDup_Permutation Hnd keys_ranks Hin)).
    assert (length (map snd keys) = 7%nat) as ->
        by (rewrite length_map; exact keys_seven).
    reflexivity.
  Qed.

Lemma jjjj_seven_pairs_alone :
    len (filter (fun st => truthy (get tiles st)) numeric_suits) <> 1 ->
    Jjjj.check_yaku tiles = Ok [("七對子", 2)].
  Proof.
    intros Hone. apply Z.eqb_neq in Hone.
    unfold Jjjj.check_yaku. rewrite Hone. cbn [andb].
    assert (forall d, (3 <=? dict_get Z.eqb (Jjjj._count_tiles tiles) d 0) = false) as Hlt.
    { intros d. apply Z.leb_gt. pose proof (jjjj_counts_le_2 d). lia. }
    unfold Jjjj._check_big_three_dragons. cbn [filter]. rewrite !Hlt.
    cbn [len length Z.of_nat Z.eqb].
    unfold Jjjj.DRAGONS, Jjjj._is_triplet. cbn [fold_left]. rewrite !Hlt.
    rewrite jjjj_seven_pairs_found. reflexivity.
  Qed.
End SevenPairs.

(** C1, as the spec has it, fails on jjjj.py: 11223344556677m is seven
    distinct pairs, all in one suit, and is evaluated to the full flush. *)
Lemma C1_seven_pairs_counterexample :
  seven_pairs Hands.seven_pairs_one_suit
  /\ Jjjj.check_yaku Hands.seven_pairs_one_suit = Ok [("清一色", 6)]
  /\ Jjjj.calculate_fan Hands.seven_pairs_one_suit = Ok ([("清一色", 6)], 6)
  /\ Jjjj.calculate_fan Hands.seven_pairs_one_suit <> Ok ([("七對子", 2)], 2).
Proof.
  split; [| split; [| split]; [reflexivity | reflexivity | discriminate]].
  exists [(Sm, 1); (Sm, 2); (Sm, 3); (Sm, 4); (Sm, 5); (Sm, 6); (Sm, 7)].
  split; [| split; [reflexivity |]].
  - repeat constructor; cbn [In]; intuition discriminate.
  - apply (is_perm_sound tile_eqb tile_eqb_eq). reflexivity.
Qed.

(** C1 (amended): in jjjj.py a hand of exactly seven distinct
    (suit, rank) keys, each held exactly twice, is evaluated to the
    Seven-Pairs pattern alone, of value 2, when the seven ranks differ
    from one another and the tiles do not lie in exactly one numeric suit;
    when exactly one numeric suit is held, the flush check runs first and
    the hand is evaluated to the full flush (no honor tile) or to the half
    flush (with honor tiles) alone. *)
Theorem C1_seven_pairs (tiles : hand) (keys : list tile) :
  NoDup keys -> length keys = 7%nat ->
  Permutation (all_tiles tiles) (keys ++ keys) ->
  (NoDup (map snd keys) ->
   len (filter (fun st => truthy (get tiles st)) numeric_suits) <> 1 ->
   Jjjj.calculate_fan tiles = Ok ([("七對子", 2)], 2))
  /\ (len (filter (fun st => truthy (get tiles st)) numeric_suits) = 1 ->
      Jjjj.calculate_fan tiles
      = if truthy (tiles_z tiles) then Ok ([("混一色", 3)], 3)
        else Ok ([("清一色", 6)], 6)).
Proof.
  intros _ Hseven Htwice. split.
  - intros Hranks Hone. unfold Jjjj.calculate_fan.
    now rewrite (jjjj_seven_pairs_alone tiles keys Hranks Hseven Htwice Hone).
  - intros Hone. unfold Jjjj.calculate_fan.
    destruct (filter (fun st => truthy (get tiles st)) numeric_suits)
      as [| st [| st' rest]] eqn:Hf; try discriminate.
    + rewrite (jjjj_flush_first tiles st Hf).
      destruct (truthy (tiles_z tiles)); reflexivity.
    + unfold len in Hone. cbn [length] in Hone. lia.
Qed.

Lemma C1_seven_pairs_witness :
  Jjjj.calculate_fan Hands.seven_pairs_spread = Ok ([("七對子", 2)], 2)
  /\ Jjjj.calculate_fan Hands.seven_pairs_one_suit = Ok ([("清一色", 6)], 6).
Proof.
  split.
  - refine (proj1 (C1_seven_pairs Hands.seven_pairs_spread
                     [(Sm, 1); (Sm, 2); (Sp, 3); (Sp, 4); (Ss, 5); (Ss, 6); (Sz, 7)]
                     _ _ _) _ _).
    + repeat constructor; cbn [In]; intuition discriminate.
    + reflexivity.
    + apply (is_perm_sound tile_eqb tile_eqb_eq). reflexivity.
    + repeat constructor; cbn [In]; intuition discriminate.
    + vm_compute. discriminate.
  - refine (proj2 (C1_seven_pairs Hands.seven_pairs_one_suit
                     [(Sm, 1); (Sm, 2); (Sm, 3); (Sm, 4); (Sm, 5); (Sm, 6); (Sm, 7)]
                     _ _ _) _).
    + repeat constructor; cbn [In]; intuition discriminate.
    + reflexivity.
    + apply (is_perm_sound tile_eqb tile_eqb_eq). reflexivity.
    + reflexivity.
Defined.

(** ** The rank check of [parse_hand] *)

Lemma digit_cases (num : Z) :
  0 <= num <= 9 ->
  num = 0 \/ num = 1 \/ num = 2 \/ num = 3 \/ num = 4
  \/ num = 5 \/ num = 6 \/ num = 7 \/ num = 8 \/ num = 9.
Proof. lia. Qed.

Lemma digit_isdigit (num : Z) :
  0 <= num <= 9 ->
  Parse.isdigit (Flat.digit num) = true /\ Parse.int_of (Flat.digit num) = num
  /\ Parse.isspace (Flat.digit num) = false
  /\ Ascii.eqb (Flat.digit num) " "%char = false.
Proof.
  intros H. apply digit_cases in H.
  repeat destruct H as [-> | H]; [.. | subst num]; repeat split.
Qed.

Lemma letter_suit (st : suit) :
  Parse.isdigit (Flat.letter st) = false /\ Parse.suit_of (Flat.letter st) = Some st
  /\ Parse.isspace (Flat.letter st) = false
  /\ Ascii.eqb (Flat.letter st) " "%char = false.
Proof. destruct st; repeat split. Qed.

Lemma lstrip_id (l : list ascii) :
  (forall c, In c l -> Parse.isspace c = false) -> Parse.lstrip l = l.
Proof.
  destruct l as [| c l]; [reflexivity |]. intros H. cbn [Parse.lstrip].
  now rewrite (H c (or_introl eq_refl)).
Qed.

Lemma normalize_id (l : list ascii) :
  (forall c, In c l -> Parse.isspace c = false /\ Ascii.eqb c " "%char = false) ->
  Parse.normalize l = l.
Proof.
  intros H. unfold Parse.normalize, Parse.strip.
  rewrite forallb_filter_id.
  - rewrite (lstrip_id l) by (intros c Hc; now apply H).
    rewrite lstrip_id; [apply rev_involutive |].
    intros c Hc. apply in_rev in Hc. now apply H.
  - apply forallb_forall. intros c Hc. destruct (H c Hc) as [_ ->]. reflexivity.
Qed.

Lemma chars_plain (tile_seq : list tile) :
  (forall t, In t tile_seq -> 0 <= snd t <= 9) ->
  forall c, In c (Flat.chars tile_seq) ->
            Parse.isspace c = false /\ Ascii.eqb c " "%char = false.
Proof.
  intros Hd c Hc. unfold Flat.chars in Hc. apply in_flat_map in Hc as [t [Ht Hc]].
  destruct Hc as [<- | [<- | []]].
  - destruct (digit_isdigit (snd t) (Hd t Ht)) as [_ [_ [? ?]]]. now split.
  - destruct (letter_suit (fst t)) as [_ [_ [? ?]]]. now split.
Qed.

Lemma collect_numbers_tile (t : tile) (rest : list ascii) :
  0 <= snd t <= 9 ->
  Parse.collect_numbers (Flat.digit (snd t) :: Flat.letter (fst t) :: rest)
  = ([snd t], Flat.letter (fst t) :: rest).
Proof.
  intros H. destruct (digit_isdigit _ H) as [Hd [Hi _]].
  destruct (letter_suit (fst t)) as [Hl _].
  cbn [Parse.collect_numbers]. now rewrite Hd, Hl, Hi.
Qed.

Lemma jjjj_parse_loop_flat (tile_seq : list tile) :
  (forall t, In t tile_seq -> 0 <= snd t <= 9) ->
  forall fuel tiles,
    (length tile_seq < fuel)%nat ->
    Parse.parse_loop fuel tiles (Flat.chars tile_seq)
    = match find Flat.refused tile_seq with
      | Some t => Raise (RankOutOfRange (snd t))
      | None => Ok (Flat.collect tiles tile_seq)
      end.
Proof.
  induction tile_seq as [| t rest IH]; intros Hd fuel tiles Hfuel.
  - destruct fuel; [cbn in Hfuel; lia | reflexivity].
  - destruct fuel as [| fuel]; [lia |].
    cbn [Flat.chars flat_map app]. fold (Flat.chars rest).
    cbn [Parse.parse_loop].
    rewrite collect_numbers_tile by (apply Hd; now left).
    destruct (letter_suit (fst t)) as [_ [-> _]].
    cbn [Parse.append_checked find Flat.collect fold_left].
    unfold Flat.refused at 1.
    destruct (negb ((1 <=? snd t) && (snd t <=? 9))); [reflexivity |].
    cbn [bind]. apply IH; [| cbn [length] in Hfuel; lia].
    intros t' Ht'. apply Hd. now right.
Qed.

Lemma lebron_parse_loop_flat (tile_seq : list tile) :
  (forall t, In t tile_seq -> 0 <= snd t <= 9) ->
  forall fuel tiles,
    (length tile_seq < fuel)%nat ->
    Lebron.parse_loop fuel tiles (Flat.chars tile_seq)
    = Ok (Flat.collect tiles tile_seq).
Proof.
  induction tile_seq as [| t rest IH]; intros Hd fuel tiles Hfuel.
  - destruct fuel; [cbn in Hfuel; lia | reflexivity].
  - destruct fuel as [| fuel]; [lia |].
    cbn [Flat.chars flat_map app]. fold (Flat.chars rest).
    cbn [Lebron.parse_loop].
    rewrite collect_numbers_tile by (apply Hd; now left).
    destruct (letter_suit (fst t)) as [_ [-> _]].
    cbn [Flat.collect fold_left]. apply IH; [| cbn [length] in Hfuel; lia].
    intros t' Ht'. apply Hd. now right.
Qed.

Lemma chars_length (tile_seq : list tile) :
  length (Flat.chars tile_seq) = (2 * length tile_seq)%nat.
Proof.
  induction tile_seq as [| t rest IH]; [reflexivity |].
  cbn [Flat.chars flat_map app length]. fold (Flat.chars rest). lia.
Qed.

Lemma string_length_of_list (l : list ascii) :
  String.length (string_of_list_ascii l) = length l.
Proof. induction l as [| c l IH]; cbn; congruence. Qed.

(** C6, as the spec has it, fails on jjjj.py: the honor tiles of rank 8
    and 9 are outside [1,7] and are accepted. *)
Lemma C6_invalid_tile_counterexample :
  ~ (1 <= 8 <= 7) /\ ~ (1 <= 9 <= 7)
  /\ Jjjj.parse_hand "89z" = Ok (mkHand [] [] [] [8; 9])
  /\ Jjjj.parse_hand (Flat.render [(Sz, 8); (Sz, 9)]) = Ok (mkHand [] [] [] [8; 9]).
Proof. repeat split; lia. Qed.

(** C6 (amended): a non-empty flat sequence of tiles with ranks written
    as one digit each is refused by [parse_hand] of jjjj.py (the same
    text as in smalljj.py) exactly when a rank is outside [1,9], that is
    when it is 0, whatever the suit of the tile, the honor suit included:
    the error names the first such rank and no hand is built.  Otherwise
    the hand is built and sorted; in particular honor tiles of rank 8 and
    9 are accepted.  [parse_hand] of lebron.py checks no rank at all and
    builds the hand from any such sequence. *)
Theorem C6_invalid_tile (tile_seq : list tile) :
  tile_seq <> [] ->
  (forall t, In t tile_seq -> 0 <= snd t <= 9) ->
  Jjjj.parse_hand (Flat.render tile_seq)
  = match find Flat.refused tile_seq with
    | Some t => Raise (RankOutOfRange (snd t))
    | None => Ok (Parse.sort_all (Flat.collect Parse.empty_hand tile_seq))
    end
  /\ (forall t, find Flat.refused tile_seq = Some t -> snd t = 0)
  /\ Lebron.parse_hand (Flat.render tile_seq)
     = Ok (Parse.sort_all (Flat.collect Parse.empty_hand tile_seq)).
Proof.
  intros Hne Hd.
  assert (Parse.normalize (list_ascii_of_string (Flat.render tile_seq))
          = Flat.chars tile_seq) as Hnorm.
  { unfold Flat.render. rewrite list_ascii_of_string_of_list_ascii.
    apply normalize_id, chars_plain, Hd. }
  assert (String.length (Flat.render tile_seq) = (2 * length tile_seq)%nat) as Hlen.
  { unfold Flat.render. now rewrite string_length_of_list, chars_length. }
  repeat split.
  - unfold Jjjj.parse_hand, Parse.parse_hand, Parse.parse_hand_fuel.
    rewrite Hnorm, Hlen.
    destruct tile_seq as [| t rest]; [congruence |].
    cbn [Flat.chars flat_map app truthy negb].
    change (Flat.digit (snd t) :: Flat.letter (fst t) :: flat_map _ rest)
      with (Flat.chars (t :: rest)).
    rewrite jjjj_parse_loop_flat by (assumption || lia).
    destruct (find Flat.refused (t :: rest)); reflexivity.
  - intros t Hf. apply find_some in Hf as [Hin Hr].
    unfold Flat.refused in Hr. specialize (Hd t Hin).
    destruct (Z.leb_spec 1 (snd t)); destruct (Z.leb_spec (snd t) 9);
      cbn in Hr; try discriminate; lia.
  - unfold Lebron.parse_hand. rewrite Hnorm, Hlen.
    rewrite lebron_parse_loop_flat by (assumption || lia). reflexivity.
Qed.

Lemma C6_invalid_tile_witness :
  Jjjj.parse_hand "1m0z9z" = Raise (RankOutOfRange 0)
  /\ Lebron.parse_hand "1m0z9z" = Ok (mkHand [1] [] [] [0; 9]).
Proof.
  destruct (C6_invalid_tile [(Sm, 1); (Sz, 0); (Sz, 9)]) as [Hj [_ Hl]].
  - discriminate.
  - intros t [<- | [<- | [<- | []]]]; cbn; lia.
  - split; [exact Hj | exact Hl].
Defined.

(** ** The store *)

Import Heap.

Lemma bindM_Ok {A B : Type} (c : M A) (k : A -> M B) (sto sto' : store) (a : A) :
  c sto = Ok (a, sto') -> bindM c k sto = k a sto'.
Proof. unfold bindM. now intros ->. Qed.

Lemma extends_refl (sto : store) : extends sto sto.
Proof. exists [], []. now rewrite !app_nil_r. Qed.

Lemma extends_trans (sto1 sto2 sto3 : store) :
  extends sto1 sto2 -> extends sto2 sto3 -> extends sto1 sto3.
Proof.
  intros [n1 [t1 [Hn1 Ht1]]] [n2 [t2 [Hn2 Ht2]]].
  exists (n1 ++ n2), (t1 ++ t2). rewrite Hn2, Ht2, Hn1, Ht1, !app_assoc. now split.
Qed.

Lemma extends_more_nums (sto : store) (more : list (list Z)) :
  extends sto (mkStore (nums sto ++ more) (tups sto)).
Proof. exists more, []. cbn. now rewrite app_nil_r. Qed.

Lemma extends_more_tups (sto : store) (more : list (list tile)) :
  extends sto (mkStore (nums sto) (tups sto ++ more)).
Proof. exists [], more. cbn. now rewrite app_nil_r. Qed.

Lemma extends_nums (sto sto' : store) (r : loc) (l : list Z) :
  extends sto sto' -> nth_error (nums sto) r = Some l -> nth_error (nums sto') r = Some l.
Proof.
  intros [n [t [Hn _]]] H. rewrite Hn, nth_error_app1; [assumption |].
  apply nth_error_Some. congruence.
Qed.

Lemma extends_tups (sto sto' : store) (r : loc) (l : list tile) :
  extends sto sto' -> nth_error (tups sto) r = Some l -> nth_error (tups sto') r = Some l.
Proof.
  intros [n [t [_ Ht]]] H. rewrite Ht, nth_error_app1; [assumption |].
  apply nth_error_Some. congruence.
Qed.

Lemma holds_extends (sto sto' : store) (tiles : refs) (h : hand) :
  holds sto tiles h -> extends sto sto' -> holds sto' tiles h.
Proof. intros H E st. eapply extends_nums; [exact E | apply H]. Qed.

Lemma holds_unique (sto : store) (tiles : refs) (h h' : hand) :
  holds sto tiles h -> holds sto tiles h' -> h = h'.
Proof.
  intros H H'. destruct h as [a b c d], h' as [a' b' c' d'].
  pose proof (H Sm) as Hm. pose proof (H Sp) as Hp.
  pose proof (H Ss) as Hs. pose proof (H Sz) as Hz.
  rewrite (H' Sm) in Hm. rewrite (H' Sp) in Hp.
  rewrite (H' Ss) in Hs. rewrite (H' Sz) in Hz.
  cbn in Hm, Hp, Hs, Hz. congruence.
Qed.

Lemma read_nums_Some (sto : store) (r : loc) (l : list Z) :
  nth_error (nums sto) r = Some l -> read_nums r sto = Ok (l, sto).
Proof. unfold read_nums. now intros ->. Qed.

Lemma read_tups_Some (sto : store) (r : loc) (l : list tile) :
  nth_error (tups sto) r = Some l -> read_tups r sto = Ok (l, sto).
Proof. unfold read_tups. now intros ->. Qed.

Lemma load_holds (sto : store) (tiles : refs) (h : hand) :
  holds sto tiles h -> load tiles sto = Ok (h, sto).
Proof.
  intros H. unfold load.
  rewrite (bindM_Ok _ _ _ _ _ (read_nums_Some _ _ _ (H Sm))).
  rewrite (bindM_Ok _ _ _ _ _ (read_nums_Some _ _ _ (H Sp))).
  rewrite (bindM_Ok _ _ _ _ _ (read_nums_Some _ _ _ (H Ss))).
  rewrite (bindM_Ok _ _ _ _ _ (read_nums_Some _ _ _ (H Sz))).
  destruct h. reflexivity.
Qed.

Lemma nth_error_here {A : Type} (L R : list A) (x : A) :
  nth_error (L ++ x :: R) (length L) = Some x.
Proof. rewrite nth_error_app2, Nat.sub_diag by lia. reflexivity. Qed.

Lemma update_here {A : Type} (L R : list A) (x y : A) :
  update (length L) y (L ++ x :: R) = L ++ y :: R.
Proof. induction L as [| z L IH]; cbn [length app update]; congruence. Qed.

Lemma remove_nums_here (L R : list (list Z)) (T : list (list tile))
      (x : Z) (l l' : list Z) :
  remove Z.eqb x l = Ok l' ->
  remove_nums (length L) x (mkStore (L ++ l :: R) T)
  = Ok (tt, mkStore (L ++ l' :: R) T).
Proof.
  intros Hr. unfold remove_nums.
  erewrite bindM_Ok by (apply read_nums_Some; cbn [nums]; apply nth_error_here).
  rewrite Hr. unfold bindM, lift, write_nums. cbn [nums tups].
  now rewrite nth_error_here, update_here.
Qed.

Lemma remove_tups_here (N : list (list Z)) (L R : list (list tile))
      (x : tile) (l l' : list tile) :
  remove tile_eqb x l = Ok l' ->
  remove_tups (length L) x (mkStore N (L ++ l :: R))
  = Ok (tt, mkStore N (L ++ l' :: R)).
Proof.
  intros Hr. unfold remove_tups.
  erewrite bindM_Ok by (apply read_tups_Some; cbn [tups]; apply nth_error_here).
  rewrite Hr. unfold bindM, lift, write_tups. cbn [nums tups].
  now rewrite nth_error_here, update_here.
Qed.

Lemma read_nums_old (N more : list (list Z)) (T : list (list tile)) (r : loc) (l : list Z) :
  nth_error N r = Some l ->
  read_nums r (mkStore (N ++ more) T) = Ok (l, mkStore (N ++ more) T).
Proof.
  intros H. apply read_nums_Some. cbn [nums].
  rewrite nth_error_app1; [assumption |]. apply nth_error_Some. congruence.
Qed.

(** A copied dict holds the copied hand, in four new objects. *)
Lemma copy_dict_holds (f : list Z -> list Z) (sto : store) (tiles : refs) (h : hand) :
  holds sto tiles h ->
  copy_dict f tiles sto
  = Ok (fresh_refs (length (nums sto)),
        mkStore (nums sto
                 ++ hand_lists (mkHand (f (tiles_m h)) (f (tiles_p h))
                                       (f (tiles_s h)) (f (tiles_z h))))
                (tups sto)).
Proof.
  intros H. destruct sto as [N T].
  pose proof (H Sm) as Hm. pose proof (H Sp) as Hp.
  pose proof (H Ss) as Hs. pose proof (H Sz) as Hz.
  cbn [nums tups ref get] in *. unfold copy_dict.
  rewrite (bindM_Ok _ _ _ _ _ (read_nums_Some (mkStore N T) _ _ Hm)).
  unfold bindM at 1. unfold new_nums at 1. cbn [nums tups].
  rewrite (bindM_Ok _ _ _ _ _ (read_nums_old N _ T _ _ Hp)).
  unfold bindM at 1. unfold new_nums at 1. cbn [nums tups].
  rewrite <- app_assoc.
  rewrite (bindM_Ok _ _ _ _ _ (read_nums_old N _ T _ _ Hs)).
  unfold bindM at 1. unfold new_nums at 1. cbn [nums tups].
  rewrite <- app_assoc.
  rewrite (bindM_Ok _ _ _ _ _ (read_nums_old N _ T _ _ Hz)).
  unfold bindM, new_nums, ret, fresh_refs, hand_lists. cbn [nums tups].
  rewrite !length_app. cbn [length tiles_m tiles_p tiles_s tiles_z].
  f_equal. f_equal.
  - f_equal; lia.
  - f_equal. now rewrite <- app_assoc.
Qed.

Lemma holds_fresh (L : list (list Z)) (T : list (list tile)) (h : hand) :
  holds (mkStore (L ++ hand_lists h) T) (fresh_refs (length L)) h.
Proof.
  intros st. cbn [nums]. unfold hand_lists, fresh_refs.
  destruct st; cbn [ref ref_m ref_p ref_s ref_z get].
  - apply nth_error_here.
  - change (L ++ [tiles_m h; tiles_p h; tiles_s h; tiles_z h])
      with (L ++ [tiles_m h] ++ tiles_p h :: [tiles_s h; tiles_z h]).
    rewrite app_assoc.
    replace (1 + length L)%nat with (length (L ++ [tiles_m h]))
      by (rewrite length_app; cbn; lia).
    apply nth_error_here.
  - change (L ++ [tiles_m h; tiles_p h; tiles_s h; tiles_z h])
      with (L ++ [tiles_m h; tiles_p h] ++ tiles_s h :: [tiles_z h]).
    rewrite app_assoc.
    replace (2 + length L)%nat with (length (L ++ [tiles_m h; tiles_p h]))
      by (rewrite length_app; cbn; lia).
    apply nth_error_here.
  - change (L ++ [tiles_m h; tiles_p h; tiles_s h; tiles_z h])
      with (L ++ [tiles_m h; tiles_p h; tiles_s h] ++ tiles_z h :: []).
    rewrite app_assoc.
    replace (3 + length L)%nat with (length (L ++ [tiles_m h; tiles_p h; tiles_s h]))
      by (rewrite length_app; cbn; lia).
    apply nth_error_here.
Qed.

(** A removal from a list of the copy changes that list of the copy, and
    nothing else. *)
Lemma remove_nums_fresh (L : list (list Z)) (T : list (list tile)) (h : hand)
      (st : suit) (x : Z) (l' : list Z) :
  remove Z.eqb x (get h st) = Ok l' ->
  remove_nums (ref (fresh_refs (length L)) st) x (mkStore (L ++ hand_lists h) T)
  = Ok (tt, mkStore (L ++ hand_lists (with_suit h st l')) T).
Proof.
  intros Hr. unfold hand_lists, fresh_refs.
  destruct st; cbn [ref ref_m ref_p ref_s ref_z get with_suit
                        tiles_m tiles_p tiles_s tiles_z] in *.
  - now apply remove_nums_here.
  - change (L ++ [tiles_m h; tiles_p h; tiles_s h; tiles_z h])
      with (L ++ [tiles_m h] ++ tiles_p h :: [tiles_s h; tiles_z h]).
    change (L ++ [tiles_m h; l'; tiles_s h; tiles_z h])
      with (L ++ [tiles_m h] ++ l' :: [tiles_s h; tiles_z h]).
    rewrite !app_assoc.
    replace (1 + length L)%nat with (length (L ++ [tiles_m h]))
      by (rewrite length_app; cbn; lia).
    now apply remove_nums_here.
  - change (L ++ [tiles_m h; tiles_p h; tiles_s h; tiles_z h])
      with (L ++ [tiles_m h; tiles_p h] ++ tiles_s h :: [tiles_z h]).
    change (L ++ [tiles_m h; tiles_p h; l'; tiles_z h])
      with (L ++ [tiles_m h; tiles_p h] ++ l' :: [tiles_z h]).
    rewrite !app_assoc.
    replace (2 + length L)%nat with (length (L ++ [tiles_m h; tiles_p h]))
      by (rewrite length_app; cbn; lia).
    now apply remove_nums_here.
  - change (L ++ [tiles_m h; tiles_p h; tiles_s h; tiles_z h])
      with (L ++ [tiles_m h; tiles_p h; tiles_s h] ++ tiles_z h :: []).
    change (L ++ [tiles_m h; tiles_p h; tiles_s h; l'])
      with (L ++ [tiles_m h; tiles_p h; tiles_s h] ++ l' :: []).
    rewrite !app_assoc.
    replace (3 + length L)%nat with (length (L ++ [tiles_m h; tiles_p h; tiles_s h]))
      by (rewrite length_app; cbn; lia).
    now apply remove_nums_here.
Qed.

Lemma with_suit_twice (h : hand) (st : suit) (l l' : list Z) :
  with_suit (with_suit h st l) st l' = with_suit h st l'.
Proof. destruct st; reflexivity. Qed.

(** ** The meld search of jjjj.py and smalljj.py leaves every object as
    it found it *)

Lemma tups_copy_three (sto : store) (tile_list : loc) (l r1 r2 r3 : list tile)
      (x1 x2 x3 : tile) :
  nth_error (tups sto) tile_list = Some l ->
  remove tile_eqb x1 l = Ok r1 ->
  remove tile_eqb x2 r1 = Ok r2 ->
  remove tile_eqb x3 r2 = Ok r3 ->
  bindM (read_tups tile_list) (fun l =>
  bindM (new_tups l) (fun remaining =>
  bindM (remove_tups remaining x1) (fun _ =>
  bindM (remove_tups remaining x2) (fun _ =>
  bindM (remove_tups remaining x3) (fun _ =>
  ret remaining))))) sto
  = Ok (length (tups sto), mkStore (nums sto) (tups sto ++ [r3])).
Proof.
  intros Hl H1 H2 H3. destruct sto as [N T]. cbn [nums tups] in *.
  rewrite (bindM_Ok _ _ _ _ _ (read_tups_Some (mkStore N T) _ _ Hl)).
  unfold bindM at 1. unfold new_tups at 1. cbn [nums tups].
  rewrite (bindM_Ok _ _ _ _ _ (remove_tups_here N T [] x1 l r1 H1)).
  rewrite (bindM_Ok _ _ _ _ _ (remove_tups_here N T [] x2 r1 r2 H2)).
  rewrite (bindM_Ok _ _ _ _ _ (remove_tups_here N T [] x3 r2 r3 H3)).
  reflexivity.
Qed.

Lemma triplet_copy_spec (sto : store) (tile_list : loc) (l r : list tile) (t : tile) :
  nth_error (tups sto) tile_list = Some l ->
  Melds.remove_triplet t l = Ok r ->
  MeldsHeap.triplet_copy tile_list t sto
  = Ok (length (tups sto), mkStore (nums sto) (tups sto ++ [r])).
Proof.
  intros Hl Hr. unfold Melds.remove_triplet in Hr.
  apply bind_Ok in Hr as [r1 [H1 Hr]]. apply bind_Ok in Hr as [r2 [H2 H3]].
  unfold MeldsHeap.triplet_copy. eapply tups_copy_three; eassumption.
Qed.

Lemma sequence_copy_spec (sto : store) (tile_list : loc) (l r : list tile)
      (st : suit) (num : Z) :
  nth_error (tups sto) tile_list = Some l ->
  Melds.remove_sequence st num l = Ok r ->
  MeldsHeap.sequence_copy tile_list st num sto
  = Ok (length (tups sto), mkStore (nums sto) (tups sto ++ [r])).
Proof.
  intros Hl Hr. unfold Melds.remove_sequence in Hr.
  apply bind_Ok in Hr as [r1 [H1 Hr]]. apply bind_Ok in Hr as [r2 [H2 H3]].
  unfold MeldsHeap.sequence_copy. eapply tups_copy_three; eassumption.
Qed.

Lemma try_form_melds_fuel_on_store (fuel : nat) :
  forall (sto : store) (tile_list : loc) (l : list tile) (b : bool),
    nth_error (tups sto) tile_list = Some l ->
    Melds.try_form_melds_fuel fuel l = Ok b ->
    exists sto',
      MeldsHeap.try_form_melds_fuel fuel tile_list sto = Ok (b, sto')
      /\ extends sto sto'.
Proof.
  induction fuel as [| fuel IH]; intros sto tile_list l b Hl Hpure; [discriminate |].
  cbn [MeldsHeap.try_form_melds_fuel Melds.try_form_melds_fuel] in *.
  rewrite (bindM_Ok _ _ _ _ _ (read_tups_Some _ _ _ Hl)).
  destruct l as [| [st num] l'].
  { injection Hpure as <-. exists sto. split; [reflexivity | apply extends_refl]. }
  set (l := @cons tile (st, num) l') in *.
  destruct (negb (len l mod 3 =? 0)).
  { injection Hpure as <-. exists sto. split; [reflexivity | apply extends_refl]. }
  apply bind_Ok in Hpure as [by_triplet [Htri Hpure]].
  assert (exists sto1,
             (if 3 <=? count tile_eqb (st, num) l
              then bindM (MeldsHeap.triplet_copy tile_list (st, num))
                         (fun remaining => MeldsHeap.try_form_melds_fuel fuel remaining)
              else ret false) sto = Ok (by_triplet, sto1)
             /\ extends sto sto1) as [sto1 [Hrun1 Hext1]].
  { destruct (3 <=? count tile_eqb (st, num) l).
    - apply bind_Ok in Htri as [r [Hr Hrec]].
      rewrite (bindM_Ok _ _ _ _ _ (triplet_copy_spec _ _ _ _ _ Hl Hr)).
      destruct (IH (mkStore (nums sto) (tups sto ++ [r])) (length (tups sto)) r by_triplet)
        as [sto1 [Hrun Hext]]; [apply nth_error_here | assumption |].
      exists sto1. split; [assumption |].
      eapply extends_trans; [apply extends_more_tups | exact Hext].
    - injection Htri as <-. exists sto. split; [reflexivity | apply extends_refl]. }
  rewrite (bindM_Ok _ _ _ _ _ Hrun1).
  destruct by_triplet.
  { injection Hpure as <-. exists sto1. split; [reflexivity | assumption]. }
  destruct (mem suit_eqb st numeric_suits && (num <=? 7)).
  2: { injection Hpure as <-. exists sto1. split; [reflexivity | assumption]. }
  pose proof (extends_tups _ _ _ _ Hext1 Hl) as Hl1.
  rewrite (bindM_Ok _ _ _ _ _ (read_tups_Some _ _ _ Hl1)).
  destruct (mem tile_eqb (st, num + 1) l && mem tile_eqb (st, num + 2) l).
  2: { injection Hpure as <-. exists sto1. split; [reflexivity | assumption]. }
  apply bind_Ok in Hpure as [r [Hr Hpure]].
  apply bind_Ok in Hpure as [by_sequence [Hrec Hpure]].
  rewrite (bindM_Ok _ _ _ _ _ (sequence_copy_spec _ _ _ _ _ _ Hl1 Hr)).
  destruct (IH (mkStore (nums sto1) (tups sto1 ++ [r])) (length (tups sto1)) r by_sequence)
    as [sto2 [Hrun2 Hext2]]; [apply nth_error_here | assumption |].
  rewrite (bindM_Ok _ _ _ _ _ Hrun2).
  exists sto2. split.
  - destruct by_sequence; injection Hpure as <-; reflexivity.
  - eapply extends_trans; [exact Hext1 |].
    eapply extends_trans; [apply extends_more_tups | exact Hext2].
Qed.

Lemma check_melds_valid_on_store (sto : store) (tiles : refs) (h : hand) (b : bool) :
  holds sto tiles h ->
  Melds._check_melds_valid h = Ok b ->
  exists sto',
    MeldsHeap._check_melds_valid tiles sto = Ok (b, sto') /\ extends sto sto'.
Proof.
  intros Hh Hpure. unfold MeldsHeap._check_melds_valid.
  rewrite (bindM_Ok _ _ _ _ _ (load_holds _ _ _ Hh)).
  unfold bindM at 1. unfold new_tups at 1.
  unfold MeldsHeap._try_form_melds.
  erewrite bindM_Ok by (apply read_tups_Some; cbn [tups]; apply nth_error_here).
  unfold Melds._check_melds_valid, Melds._try_form_melds in Hpure.
  destruct (try_form_melds_fuel_on_store _
              (mkStore (nums sto) (tups sto ++ [Melds.tile_list_of sorted h]))
              (length (tups sto)) _ b (nth_error_here _ _ _) Hpure)
    as [sto' [Hrun Hext]].
  exists sto'. split; [assumption |].
  eapply extends_trans; [apply extends_more_tups | exact Hext].
Qed.

Lemma try_pair_on_store (sto : store) (tiles : refs) (h : hand)
      (candidate : tile) (b : bool) :
  holds sto tiles h ->
  Melds.try_pair h candidate = Ok b ->
  exists sto',
    MeldsHeap.try_pair tiles candidate sto = Ok (b, sto') /\ extends sto sto'.
Proof.
  intros Hh Hpure. destruct candidate as [pair_suit pair_num].
  unfold Melds.try_pair in Hpure. unfold MeldsHeap.try_pair.
  apply bind_Ok in Hpure as [l1 [H1 Hpure]]. apply bind_Ok in Hpure as [l2 [H2 Hpure]].
  rewrite (bindM_Ok _ _ _ _ _ (copy_dict_holds (fun l => l) _ _ _ Hh)).
  replace (mkHand (tiles_m h) (tiles_p h) (tiles_s h) (tiles_z h)) with h
    by (destruct h; reflexivity).
  rewrite (bindM_Ok _ _ _ _ _
             (remove_nums_fresh (nums sto) (tups sto) h pair_suit pair_num l1 H1)).
  erewrite bindM_Ok
    by (apply remove_nums_fresh; rewrite get_with_suit_same; exact H2).
  rewrite with_suit_twice.
  destruct (check_melds_valid_on_store
              (mkStore (nums sto ++ hand_lists (with_suit h pair_suit l2)) (tups sto))
              (fresh_refs (length (nums sto))) _ b (holds_fresh _ _ _) Hpure)
    as [sto' [Hrun Hext]].
  exists sto'. split; [assumption |].
  eapply extends_trans; [apply extends_more_nums | exact Hext].
Qed.

Lemma try_pairs_on_store (candidates : list tile) :
  forall (sto : store) (tiles : refs) (h : hand) (b : bool),
    holds sto tiles h ->
    Melds.try_pairs h candidates = Ok b ->
    exists sto',
      MeldsHeap.try_pairs tiles candidates sto = Ok (b, sto') /\ extends sto sto'.
Proof.
  induction candidates as [| c rest IH]; intros sto tiles h b Hh Hpure;
    cbn [Melds.try_pairs MeldsHeap.try_pairs] in *.
  - injection Hpure as <-. exists sto. split; [reflexivity | apply extends_refl].
  - apply bind_Ok in Hpure as [valid [Hc Hpure]].
    destruct (try_pair_on_store _ _ _ _ _ Hh Hc) as [sto1 [Hrun1 Hext1]].
    rewrite (bindM_Ok _ _ _ _ _ Hrun1). destruct valid.
    + injection Hpure as <-. exists sto1. split; [reflexivity | assumption].
    + destruct (IH sto1 tiles h b (holds_extends _ _ _ _ Hh Hext1) Hpure)
        as [sto2 [Hrun2 Hext2]].
      exists sto2. split; [assumption | eapply extends_trans; eassumption].
Qed.

Lemma jjjj_is_valid_on_store (sto : store) (tiles : refs) (h : hand) :
  holds sto tiles h ->
  exists b sto',
    JjjjHeap._is_valid_winning_pattern tiles sto = Ok (b, sto')
    /\ Jjjj._is_valid_winning_pattern h = Ok b
    /\ extends sto sto'.
Proof.
  intros Hh. destruct (jjjj_is_valid_winning_pattern_total h) as [b Hpure].
  exists b. unfold JjjjHeap._is_valid_winning_pattern.
  rewrite (bindM_Ok _ _ _ _ _ (load_holds _ _ _ Hh)).
  unfold Jjjj._is_valid_winning_pattern in Hpure |- *.
  destruct (negb (len (Melds.tile_list_of (fun l => l) h) =? 14)).
  - injection Hpure as <-. exists sto. repeat split. apply extends_refl.
  - destruct (try_pairs_on_store _ _ _ _ _ Hh Hpure) as [sto' [Hrun Hext]].
    exists sto'. now repeat split.
Qed.

Lemma smalljj_is_valid_total (h : hand) :
  exists b, Smalljj._is_valid_winning_pattern h = Ok b.
Proof.
  unfold Smalljj._is_valid_winning_pattern.
  destruct (negb (len (Melds.tile_list_of (fun l => l) h) =? 14)); [now eexists |].
  apply try_pairs_total. exact (lebron_pair_candidates_enough h).
Qed.

Lemma smalljj_is_valid_on_store (sto : store) (tiles : refs) (h : hand) :
  holds sto tiles h ->
  exists b sto',
    SmalljjHeap._is_valid_winning_pattern tiles sto = Ok (b, sto')
    /\ Smalljj._is_valid_winning_pattern h = Ok b
    /\ extends sto sto'.
Proof.
  intros Hh. destruct (smalljj_is_valid_total h) as [b Hpure].
  exists b. unfold SmalljjHeap._is_valid_winning_pattern.
  rewrite (bindM_Ok _ _ _ _ _ (load_holds _ _ _ Hh)).
  unfold Smalljj._is_valid_winning_pattern in Hpure |- *.
  destruct (negb (len (Melds.tile_list_of (fun l => l) h) =? 14)).
  - injection Hpure as <-. exists sto. repeat split. apply extends_refl.
  - destruct (try_pairs_on_store _ _ _ _ _ Hh Hpure) as [sto' [Hrun Hext]].
    exists sto'. now repeat split.
Qed.

Lemma jjjj_check_yaku_on_store (sto : store) (tiles : refs) (h : hand) :
  holds sto tiles h ->
  exists yaku_list sto',
    JjjjHeap.check_yaku tiles sto = Ok (yaku_list, sto')
    /\ Jjjj.check_yaku h = Ok yaku_list
    /\ extends sto sto'.
Proof.
  intros Hh. unfold JjjjHeap.check_yaku, Jjjj.check_yaku.
  rewrite (bindM_Ok _ _ _ _ _ (load_holds _ _ _ Hh)).
  destruct ((len (filter (fun st => truthy (get h st)) numeric_suits) =? 1)
            && negb (truthy (tiles_z h))).
  { do 2 eexists. repeat split. apply extends_refl. }
  destruct ((len (filter (fun st => truthy (get h st)) numeric_suits) =? 1)
            && truthy (tiles_z h)).
  { do 2 eexists. repeat split. apply extends_refl. }
  destruct (Jjjj._check_big_three_dragons (Jjjj._count_tiles h)).
  { do 2 eexists. repeat split. apply extends_refl. }
  destruct (Jjjj._check_seven_pairs (Jjjj._count_tiles h)).
  { do 2 eexists. repeat split. apply extends_refl. }
  destruct (jjjj_is_valid_on_store _ _ _ Hh) as [b [sto' [Hrun [Hpure Hext]]]].
  rewrite (bindM_Ok _ _ _ _ _ Hrun), Hpure. cbn [bind].
  do 2 eexists. repeat split. assumption.
Qed.

(** ** The meld search of lebron.py leaves every object as it found it *)

Lemma nums_copy_three (sto : store) (tiles : refs) (h : hand) (st : suit)
      (x1 x2 x3 : Z) (l1 l2 l3 : list Z) :
  holds sto tiles h ->
  remove Z.eqb x1 (get h st) = Ok l1 ->
  remove Z.eqb x2 l1 = Ok l2 ->
  remove Z.eqb x3 l2 = Ok l3 ->
  bindM (copy_dict (fun l => l) tiles) (fun new_tiles =>
  bindM (remove_nums (ref new_tiles st) x1) (fun _ =>
  bindM (remove_nums (ref new_tiles st) x2) (fun _ =>
  bindM (remove_nums (ref new_tiles st) x3) (fun _ =>
  ret new_tiles)))) sto
  = Ok (fresh_refs (length (nums sto)),
        mkStore (nums sto ++ hand_lists (with_suit h st l3)) (tups sto)).
Proof.
  intros Hh H1 H2 H3.
  rewrite (bindM_Ok _ _ _ _ _ (copy_dict_holds (fun l => l) _ _ _ Hh)).
  replace (mkHand (tiles_m h) (tiles_p h) (tiles_s h) (tiles_z h)) with h
    by (destruct h; reflexivity).
  rewrite (bindM_Ok _ _ _ _ _
             (remove_nums_fresh (nums sto) (tups sto) h st x1 l1 H1)).
  erewrite bindM_Ok
    by (apply remove_nums_fresh; rewrite get_with_suit_same; exact H2).
  rewrite with_suit_twice.
  erewrite bindM_Ok
    by (apply remove_nums_fresh; rewrite get_with_suit_same; exact H3).
  rewrite with_suit_twice. reflexivity.
Qed.

Lemma lebron_triplet_copy_spec (sto : store) (tiles : refs) (h new_h : hand)
      (st : suit) (v : Z) :
  holds sto tiles h ->
  Lebron.remove_triplet h st v = Ok new_h ->
  LebronHeap.triplet_copy tiles st v sto
  = Ok (fresh_refs (length (nums sto)),
        mkStore (nums sto ++ hand_lists new_h) (tups sto)).
Proof.
  intros Hh Hr. unfold Lebron.remove_triplet in Hr.
  apply bind_Ok in Hr as [l1 [H1 Hr]]. apply bind_Ok in Hr as [l2 [H2 Hr]].
  apply bind_Ok in Hr as [l3 [H3 [= <-]]].
  unfold LebronHeap.triplet_copy. eapply nums_copy_three; eassumption.
Qed.

Lemma lebron_sequence_copy_spec (sto : store) (tiles : refs) (h new_h : hand)
      (st : suit) (v : Z) :
  holds sto tiles h ->
  Lebron.remove_sequence h st v = Ok new_h ->
  LebronHeap.sequence_copy tiles st v sto
  = Ok (fresh_refs (length (nums sto)),
        mkStore (nums sto ++ hand_lists new_h) (tups sto)).
Proof.
  intros Hh Hr. unfold Lebron.remove_sequence in Hr.
  apply bind_Ok in Hr as [l1 [H1 Hr]]. apply bind_Ok in Hr as [l2 [H2 Hr]].
  apply bind_Ok in Hr as [l3 [H3 [= <-]]].
  unfold LebronHeap.sequence_copy. eapply nums_copy_three; eassumption.
Qed.

Lemma get_melds_recursive_fuel_on_store (fuel : nat) :
  forall (sto : store) (tiles : refs) (h : hand) (found : list (list Lebron.meld)),
    holds sto tiles h ->
    Lebron.get_melds_recursive_fuel fuel h = Ok found ->
    exists sto',
      LebronHeap.get_melds_recursive_fuel fuel tiles sto = Ok (found, sto')
      /\ extends sto sto'.
Proof.
  induction fuel as [| fuel IH]; intros sto tiles h found Hh Hpure; [discriminate |].
  cbn [LebronHeap.get_melds_recursive_fuel Lebron.get_melds_recursive_fuel] in *.
  rewrite (bindM_Ok _ _ _ _ _ (load_holds _ _ _ Hh)).
  destruct (total_tiles h =? 0).
  { injection Hpure as <-. exists sto. split; [reflexivity | apply extends_refl]. }
  destruct (Lebron.first_tile h) as [[first_suit first_val] |]; [| discriminate].
  apply bind_Ok in Hpure as [with_triplet [Htri Hpure]].
  apply bind_Ok in Hpure as [with_sequence [Hseq [= <-]]].
  assert (exists sto1,
             (if 3 <=? count Z.eqb first_val (get h first_suit)
              then
                bindM (LebronHeap.triplet_copy tiles first_suit first_val)
                  (fun new_tiles =>
                     bindM (LebronHeap.get_melds_recursive_fuel fuel new_tiles)
                       (fun sub_results =>
                          ret (map (fun res => (Lebron.triplet, first_suit, first_val) :: res)
                                   sub_results)))
              else ret []) sto = Ok (with_triplet, sto1)
             /\ extends sto sto1) as [sto1 [Hrun1 Hext1]].
  { destruct (3 <=? count Z.eqb first_val (get h first_suit)).
    - apply bind_Ok in Htri as [new_h [Hr Htri]].
      apply bind_Ok in Htri as [sub [Hrec [= <-]]].
      rewrite (bindM_Ok _ _ _ _ _ (lebron_triplet_copy_spec _ _ _ _ _ _ Hh Hr)).
      destruct (IH (mkStore (nums sto ++ hand_lists new_h) (tups sto))
                   (fresh_refs (length (nums sto))) new_h sub
                   (holds_fresh _ _ _) Hrec) as [sto1 [Hrun Hext]].
      rewrite (bindM_Ok _ _ _ _ _ Hrun).
      exists sto1. split; [reflexivity |].
      eapply extends_trans; [apply extends_more_nums | exact Hext].
    - injection Htri as <-. exists sto. split; [reflexivity | apply extends_refl]. }
  rewrite (bindM_Ok _ _ _ _ _ Hrun1).
  pose proof (holds_extends _ _ _ _ Hh Hext1) as Hh1.
  rewrite (bindM_Ok _ _ _ _ _ (load_holds _ _ _ Hh1)).
  assert (exists sto2,
             (if negb (suit_eqb first_suit Sz) && (first_val <=? 7)
              then
                if mem Z.eqb (first_val + 1) (get h first_suit)
                   && mem Z.eqb (first_val + 2) (get h first_suit)
                then
                  bindM (LebronHeap.sequence_copy tiles first_suit first_val)
                    (fun new_tiles =>
                       bindM (LebronHeap.get_melds_recursive_fuel fuel new_tiles)
                         (fun sub_results =>
                            ret (map (fun res =>
                                        (Lebron.sequence, first_suit, first_val) :: res)
                                     sub_results)))
                else ret []
              else ret []) sto1 = Ok (with_sequence, sto2)
             /\ extends sto1 sto2) as [sto2 [Hrun2 Hext2]].
  { destruct (negb (suit_eqb first_suit Sz) && (first_val <=? 7)).
    2: { injection Hseq as <-. exists sto1. split; [reflexivity | apply extends_refl]. }
    destruct (mem Z.eqb (first_val + 1) (get h first_suit)
              && mem Z.eqb (first_val + 2) (get h first_suit)).
    2: { injection Hseq as <-. exists sto1. split; [reflexivity | apply extends_refl]. }
    apply bind_Ok in Hseq as [new_h [Hr Hseq]].
    apply bind_Ok in Hseq as [sub [Hrec [= <-]]].
    rewrite (bindM_Ok _ _ _ _ _ (lebron_sequence_copy_spec _ _ _ _ _ _ Hh1 Hr)).
    destruct (IH (mkStore (nums sto1 ++ hand_lists new_h) (tups sto1))
                 (fresh_refs (length (nums sto1))) new_h sub
                 (holds_fresh _ _ _) Hrec) as [sto2 [Hrun Hext]].
    rewrite (bindM_Ok _ _ _ _ _ Hrun).
    exists sto2. split; [reflexivity |].
    eapply extends_trans; [apply extends_more_nums | exact Hext]. }
  rewrite (bindM_Ok _ _ _ _ _ Hrun2).
  exists sto2. split; [reflexivity | eapply extends_trans; eassumption].
Qed.

Lemma get_melds_recursive_on_store
      (sto : store) (tiles : refs) (h : hand) (found : list (list Lebron.meld)) :
  holds sto tiles h ->
  Lebron._get_melds_recursive h = Ok found ->
  exists sto',
    LebronHeap._get_melds_recursive tiles sto = Ok (found, sto') /\ extends sto sto'.
Proof.
  intros Hh Hpure. unfold LebronHeap._get_melds_recursive.
  rewrite (bindM_Ok _ _ _ _ _ (load_holds _ _ _ Hh)).
  now apply (get_melds_recursive_fuel_on_store _ sto tiles h found Hh).
Qed.

Lemma lebron_analyze_pair_on_store (sto : store) (tiles : refs) (h : hand)
      (candidate : tile) (found : list (list Lebron.meld * tile)) :
  holds sto tiles h ->
  Lebron.analyze_pair h candidate = Ok found ->
  exists sto',
    LebronHeap.analyze_pair tiles candidate sto = Ok (found, sto') /\ extends sto sto'.
Proof.
  intros Hh Hpure. destruct candidate as [p_suit p_val].
  unfold Lebron.analyze_pair in Hpure. unfold LebronHeap.analyze_pair.
  apply bind_Ok in Hpure as [l1 [H1 Hpure]]. apply bind_Ok in Hpure as [l2 [H2 Hpure]].
  apply bind_Ok in Hpure as [melds [Hrec [= <-]]].
  rewrite (bindM_Ok _ _ _ _ _ (copy_dict_holds sorted _ _ _ Hh)).
  change (mkHand (sorted (tiles_m h)) (sorted (tiles_p h))
                 (sorted (tiles_s h)) (sorted (tiles_z h)))
    with (Parse.sort_all h).
  rewrite (bindM_Ok _ _ _ _ _
             (remove_nums_fresh (nums sto) (tups sto) _ p_suit p_val l1 H1)).
  erewrite bindM_Ok
    by (apply remove_nums_fresh; rewrite get_with_suit_same; exact H2).
  rewrite with_suit_twice.
  destruct (get_melds_recursive_on_store
              (mkStore (nums sto ++ hand_lists (with_suit (Parse.sort_all h) p_suit l2))
                       (tups sto))
              (fresh_refs (length (nums sto))) _ melds (holds_fresh _ _ _) Hrec)
    as [sto' [Hrun Hext]].
  rewrite (bindM_Ok _ _ _ _ _ Hrun).
  exists sto'. split; [reflexivity |].
  eapply extends_trans; [apply extends_more_nums | exact Hext].
Qed.

Lemma lebron_analyze_pairs_on_store (candidates : list tile) :
  forall (sto : store) (tiles : refs) (h : hand) found,
    holds sto tiles h ->
    Lebron.analyze_pairs h candidates = Ok found ->
    exists sto',
      LebronHeap.analyze_pairs tiles candidates sto = Ok (found, sto')
      /\ extends sto sto'.
Proof.
  induction candidates as [| c rest IH]; intros sto tiles h found Hh Hpure;
    cbn [Lebron.analyze_pairs LebronHeap.analyze_pairs] in *.
  - injection Hpure as <-. exists sto. split; [reflexivity | apply extends_refl].
  - apply bind_Ok in Hpure as [here [Hc Hpure]].
    apply bind_Ok in Hpure as [there [Hrest [= <-]]].
    destruct (lebron_analyze_pair_on_store _ _ _ _ _ Hh Hc) as [sto1 [Hrun1 Hext1]].
    rewrite (bindM_Ok _ _ _ _ _ Hrun1).
    destruct (IH sto1 tiles h there (holds_extends _ _ _ _ Hh Hext1) Hrest)
      as [sto2 [Hrun2 Hext2]].
    rewrite (bindM_Ok _ _ _ _ _ Hrun2).
    exists sto2. split; [reflexivity | eapply extends_trans; eassumption].
Qed.

Lemma lebron_analyze_hand_on_store (sto : store) (tiles : refs) (h : hand) found :
  holds sto tiles h ->
  Lebron._analyze_hand h = Ok found ->
  exists sto',
    LebronHeap._analyze_hand tiles sto = Ok (found, sto') /\ extends sto sto'.
Proof.
  intros Hh Hpure. unfold LebronHeap._analyze_hand.
  rewrite (bindM_Ok _ _ _ _ _ (load_holds _ _ _ Hh)).
  now apply (lebron_analyze_pairs_on_store _ sto tiles h found Hh).
Qed.

Lemma lebron_calculate_fan_on_store
      (sto : store) (tiles : refs) (h : hand) (is_tsumo is_menzen is_riichi : bool) :
  holds sto tiles h ->
  total_tiles h = 14 ->
  exists r sto',
    LebronHeap.calculate_fan tiles is_tsumo is_menzen is_riichi sto = Ok (r, sto')
    /\ Lebron.calculate_fan h is_tsumo is_menzen is_riichi = Ok r
    /\ extends sto sto'.
Proof.
  intros Hh H14. unfold LebronHeap.calculate_fan, Lebron.calculate_fan.
  rewrite (bindM_Ok _ _ _ _ _ (load_holds _ _ _ Hh)).
  rewrite H14. cbn [Z.eqb Pos.eqb negb].
  destruct (truthy (Lebron._check_yakuman h)).
  { do 2 eexists. repeat split. apply extends_refl. }
  destruct (lebron_analyze_hand_total h) as [structures Hpure].
  rewrite Hpure. cbn [bind].
  destruct (lebron_analyze_hand_on_store _ _ _ _ Hh Hpure) as [sto' [Hrun Hext]].
  rewrite (bindM_Ok _ _ _ _ _ Hrun).
  destruct (negb (truthy structures) && _).
  { do 2 eexists. repeat split. assumption. }
  rewrite (bindM_Ok _ _ _ _ _ (load_holds _ _ _ (holds_extends _ _ _ _ Hh Hext))).
  destruct (fold_left _ structures _) as [best_yaku_list best_fan].
  destruct ((best_fan =? 0) && negb (truthy best_yaku_list));
    do 2 eexists; repeat split; assumption.
Qed.

Lemma smalljj_check_yaku_on_store
      (sto : store) (tiles : refs) (h : hand) (is_riichi is_tsumo has_pung : bool) :
  holds sto tiles h ->
  exists yaku_list sto',
    SmalljjHeap.check_yaku tiles is_riichi is_tsumo has_pung sto = Ok (yaku_list, sto')
    /\ Smalljj.check_yaku h is_riichi is_tsumo has_pung = Ok yaku_list
    /\ extends sto sto'.
Proof.
  intros Hh. unfold SmalljjHeap.check_yaku, Smalljj.check_yaku.
  destruct (smalljj_is_valid_on_store _ _ _ Hh) as [valid [sto' [Hrun [Hpure Hext]]]].
  rewrite (bindM_Ok _ _ _ _ _ Hrun), Hpure. cbn [bind].
  rewrite (bindM_Ok _ _ _ _ _ (load_holds _ _ _ (holds_extends _ _ _ _ Hh Hext))).
  cbv zeta.
  repeat lazymatch goal with
         | |- exists _ _, (if ?c then _ else _) _ = _ /\ _ => destruct c
         end;
    do 2 eexists; repeat split; assumption.
Qed.

(** C10: an evaluation leaves the lists of its input as they were.  Run
    on a store that holds the hand [h] under the references of the dict
    [tiles], the yaku check of jjjj.py and of smalljj.py and the fan
    calculation of lebron.py return what they return on the value [h],
    and the store they leave has every object of the store they found, at
    its place and unchanged, followed by the copies they made; so the
    dict still holds [h], and a second evaluation returns the same
    result.  (lebron.py is given a hand of 14 tiles; for any other it
    raises before it touches a list.) *)
Theorem C10_input_not_mutated
        (sto : store) (tiles : refs) (h : hand)
        (is_tsumo is_menzen is_riichi has_pung : bool) :
  holds sto tiles h ->
  (exists yaku_list sto' sto'',
      JjjjHeap.check_yaku tiles sto = Ok (yaku_list, sto')
      /\ Jjjj.check_yaku h = Ok yaku_list
      /\ extends sto sto' /\ holds sto' tiles h
      /\ JjjjHeap.check_yaku tiles sto' = Ok (yaku_list, sto''))
  /\ (exists yaku_list sto' sto'',
         SmalljjHeap.check_yaku tiles is_riichi is_tsumo has_pung sto
         = Ok (yaku_list, sto')
         /\ Smalljj.check_yaku h is_riichi is_tsumo has_pung = Ok yaku_list
         /\ extends sto sto' /\ holds sto' tiles h
         /\ SmalljjHeap.check_yaku tiles is_riichi is_tsumo has_pung sto'
            = Ok (yaku_list, sto''))
  /\ (total_tiles h = 14 ->
      exists r sto' sto'',
        LebronHeap.calculate_fan tiles is_tsumo is_menzen is_riichi sto = Ok (r, sto')
        /\ Lebron.calculate_fan h is_tsumo is_menzen is_riichi = Ok r
        /\ extends sto sto' /\ holds sto' tiles h
        /\ LebronHeap.calculate_fan tiles is_tsumo is_menzen is_riichi sto'
           = Ok (r, sto'')).
Proof.
  intros Hh. repeat apply conj.
  - destruct (jjjj_check_yaku_on_store _ _ _ Hh) as [y [sto' [Hrun [Hpure Hext]]]].
    pose proof (holds_extends _ _ _ _ Hh Hext) as Hh'.
    destruct (jjjj_check_yaku_on_store _ _ _ Hh') as [y' [sto'' [Hrun' [Hpure' _]]]].
    assert (y' = y) as -> by congruence.
    exists y, sto', sto''. auto.
  - destruct (smalljj_check_yaku_on_store _ _ _ is_riichi is_tsumo has_pung Hh)
      as [y [sto' [Hrun [Hpure Hext]]]].
    pose proof (holds_extends _ _ _ _ Hh Hext) as Hh'.
    destruct (smalljj_check_yaku_on_store _ _ _ is_riichi is_tsumo has_pung Hh')
      as [y' [sto'' [Hrun' [Hpure' _]]]].
    assert (y' = y) as -> by congruence.
    exists y, sto', sto''. auto.
  - intros H14.
    destruct (lebron_calculate_fan_on_store _ _ _ is_tsumo is_menzen is_riichi Hh H14)
      as [r [sto' [Hrun [Hpure Hext]]]].
    pose proof (holds_extends _ _ _ _ Hh Hext) as Hh'.
    destruct (lebron_calculate_fan_on_store _ _ _ is_tsumo is_menzen is_riichi Hh' H14)
      as [r' [sto'' [Hrun' [Hpure' _]]]].
    assert (r' = r) as -> by congruence.
    exists r, sto', sto''. auto.
Qed.

Lemma C10_input_not_mutated_witness :
  holds Stores.plain Stores.plain_refs Hands.plain_win
  /\ (exists yaku_list sto',
         JjjjHeap.check_yaku Stores.plain_refs Stores.plain = Ok (yaku_list, sto')
         /\ extends Stores.plain sto'
         /\ holds sto' Stores.plain_refs Hands.plain_win)
  /\ (exists yaku_list sto',
         SmalljjHeap.check_yaku Stores.plain_refs false true false Stores.plain
         = Ok (yaku_list, sto')
         /\ extends Stores.plain sto'
         /\ holds sto' Stores.plain_refs Hands.plain_win)
  /\ (exists r sto',
         LebronHeap.calculate_fan Stores.plain_refs true true false Stores.plain
         = Ok (r, sto')
         /\ extends Stores.plain sto'
         /\ holds sto' Stores.plain_refs Hands.plain_win).
Proof.
  assert (holds Stores.plain Stores.plain_refs Hands.plain_win) as Hh
      by (intros st; destruct st; reflexivity).
  split; [exact Hh |].
  destruct (C10_input_not_mutated Stores.plain Stores.plain_refs Hands.plain_win
              true true false false Hh) as [Hj [Hs Hl]].
  split; [| split].
  - destruct Hj as [y [sto' [_ [Hrun [_ [Hext [Hh' _]]]]]]].
    exists y, sto'. exact (conj Hrun (conj Hext Hh')).
  - destruct Hs as [y [sto' [_ [Hrun [_ [Hext [Hh' _]]]]]]].
    exists y, sto'. exact (conj Hrun (conj Hext Hh')).
  - destruct (Hl eq_refl) as [r [sto' [_ [Hrun [_ [Hext [Hh' _]]]]]]].
    exists r, sto'. exact (conj Hrun (conj Hext Hh')).
Defined.

(** ** Counting by rank alone in jjjj.py *)

Lemma fold_left_map {A B C : Type} (f : A -> B -> A) (g : C -> B) (l : list C) (a : A) :
  fold_left f (map g l) a = fold_left (fun a x => f a (g x)) l a.
Proof. revert a. induction l as [| x l IH]; intros a; cbn [map fold_left]; auto. Qed.

(** [_count_tiles] of smalljj.py counts the tuples of the hand. *)
Lemma smalljj_count_tiles_tiles (tiles : hand) :
  Smalljj._count_tiles tiles
  = fold_left
      (fun counts k => dict_set tile_eqb counts k (dict_get tile_eqb counts k 0 + 1))
      (all_tiles tiles) [].
Proof.
  unfold Smalljj._count_tiles, all_tiles, Melds.tile_list_of, suits.
  cbn [fold_left flat_map]. rewrite app_nil_r, !fold_left_app, !fold_left_map.
  reflexivity.
Qed.

Lemma count_tagged (st st' : suit) (d : Z) (l : list Z) :
  count tile_eqb (st, d) (map (fun num => (st', num)) l)
  = if suit_eqb st' st then count Z.eqb d l else 0.
Proof.
  unfold count, len. induction l as [| x l IH]; cbn [map filter].
  - destruct (suit_eqb st' st); reflexivity.
  - unfold tile_eqb at 1. cbn [fst snd].
    destruct (suit_eqb st' st); cbn [andb]; [| exact IH].
    destruct (x =? d); cbn [length]; lia.
Qed.

Lemma count_all_tiles (tiles : hand) (st : suit) (d : Z) :
  count tile_eqb (st, d) (all_tiles tiles) = count Z.eqb d (get tiles st).
Proof.
  unfold all_tiles, Melds.tile_list_of, suits. cbn [flat_map].
  rewrite app_nil_r, !(count_app tile_eqb), !count_tagged.
  destruct st; cbn [suit_eqb get]; lia.
Qed.

Lemma smalljj_counts_get (tiles : hand) (st : suit) (d : Z) :
  dict_get tile_eqb (Smalljj._count_tiles tiles) (st, d) 0
  = count Z.eqb d (get tiles st).
Proof.
  rewrite smalljj_count_tiles_tiles, (tally_get tile_eqb tile_eqb_eq), count_all_tiles.
  reflexivity.
Qed.

Lemma jjjj_counts_get_all (tiles : hand) (d : Z) :
  dict_get Z.eqb (Jjjj._count_tiles tiles) d 0
  = count Z.eqb d (tiles_m tiles ++ tiles_p tiles ++ tiles_s tiles ++ tiles_z tiles).
Proof.
  rewrite jjjj_count_tiles_ranks, (tally_get Z.eqb Z_eqb_eq).
  unfold all_tiles, Melds.tile_list_of, suits. cbn [flat_map get].
  rewrite app_nil_r, !map_app, !map_map. cbn [snd]. rewrite !map_id. reflexivity.
Qed.

Lemma three_of_three (a b c : bool) :
  (len (filter (fun x => x) [a; b; c]) =? 3) = a && b && c.
Proof. destruct a, b, c; reflexivity. Qed.

(** C3: jjjj.py reports the three-dragons pattern for the hand
    567m 567p 567s 11122z, which holds no dragon tile; smalljj.py reports
    no pattern for it.  In general the test of jjjj.py holds exactly when
    each of the ranks 5, 6 and 7 occurs three times or more over all four
    suits together, because its [_count_tiles] counts by rank alone,
    whereas the test of smalljj.py holds exactly when each of the three
    dragon tiles occurs three times or more. *)
Theorem C3_three_dragons_by_rank :
  existsb (fun d => mem Z.eqb d (tiles_z Hands.three_suits_567)) [5; 6; 7] = false
  /\ Jjjj._check_big_three_dragons (Jjjj._count_tiles Hands.three_suits_567) = true
  /\ Jjjj.calculate_fan Hands.three_suits_567 = Ok ([("大三元", 13)], 13)
  /\ Smalljj._check_big_three_dragons (Smalljj._count_tiles Hands.three_suits_567)
     = false
  /\ Smalljj.calculate_fan Hands.three_suits_567 false false false
     = Ok ([("無役", 0)], 0)
  /\ (forall tiles,
         Jjjj._check_big_three_dragons (Jjjj._count_tiles tiles)
         = forallb
             (fun d => 3 <=? count Z.eqb d (tiles_m tiles ++ tiles_p tiles
                                            ++ tiles_s tiles ++ tiles_z tiles))
             [5; 6; 7])
  /\ (forall tiles,
         Smalljj._check_big_three_dragons (Smalljj._count_tiles tiles)
         = forallb (fun d => 3 <=? count Z.eqb d (tiles_z tiles)) [5; 6; 7]).
Proof.
  repeat apply conj; try reflexivity.
  - intros tiles. unfold Jjjj._check_big_three_dragons. cbn [forallb].
    rewrite <- !jjjj_counts_get_all, andb_true_r, andb_assoc.
    rewrite <- three_of_three. cbn [filter].
    repeat match goal with |- context [3 <=? ?x] => destruct (3 <=? x) end;
      reflexivity.
  - intros tiles. unfold Smalljj._check_big_three_dragons. cbn [forallb].
    rewrite <- !(smalljj_counts_get tiles Sz), andb_true_r, andb_assoc.
    rewrite <- three_of_three. cbn [filter].
    repeat match goal with |- context [3 <=? ?x] => destruct (3 <=? x) end;
      reflexivity.
Qed.

(** ** Thirteen orphans in lebron.py *)

Lemma sum_from (l : list Z) (a : Z) : fold_left Z.add l a = a + sum l.
Proof.
  unfold sum. revert a. induction l as [| x l IH]; intros a; cbn [fold_left]; [lia |].
  rewrite (IH (a + x)), (IH (0 + x)). lia.
Qed.

Lemma sum_cons (x : Z) (l : list Z) : sum (x :: l) = x + sum l.
Proof. unfold sum at 1. cbn [fold_left]. rewrite sum_from. lia. Qed.

Lemma sum_values_set {A : Type} (eqb : A -> A -> bool) (d : dict A Z) (k : A) (v : Z) :
  sum (dict_values (dict_set eqb d k v))
  = sum (dict_values d) - dict_get eqb d k 0 + v.
Proof.
  unfold dict_get. induction d as [| [k0 v0] d IH]; cbn [dict_set dict_find].
  - cbn [dict_values map snd]. rewrite sum_cons. unfold sum. cbn. lia.
  - unfold dict_values in *. destruct (eqb k0 k); cbn [map snd];
      rewrite !sum_cons; [lia | rewrite IH; lia].
Qed.

Lemma sum_values_tally {A : Type} (eqb : A -> A -> bool) (l : list A) :
  forall d : dict A Z,
    sum (dict_values
           (fold_left (fun counts k => dict_set eqb counts k (dict_get eqb counts k 0 + 1))
                      l d))
    = sum (dict_values d) + len l.
Proof.
  induction l as [| x l IH]; intros d; cbn [fold_left].
  - unfold len. cbn. lia.
  - rewrite IH, sum_values_set. unfold len. cbn [length]. lia.
Qed.

Lemma len_all_tiles (tiles : hand) : len (all_tiles tiles) = total_tiles tiles.
Proof.
  rewrite total_tiles_unfold. unfold all_tiles, Melds.tile_list_of, suits, len.
  cbn [flat_map get]. rewrite app_nil_r, !length_app, !length_map. lia.
Qed.

(** The first test of [_check_yakuman]: the thirteen tiles occur and the
    hand has 14 tiles; what the fourteenth tile is plays no part. *)
Lemma lebron_orphans_test (tiles : hand) :
  forallb (fun k => 1 <=? dict_get tile_eqb (Lebron._count_all tiles) k 0) Lebron.yao
  && (sum (dict_values (Lebron._count_all tiles)) =? 14)
  = forallb (fun k => 1 <=? count Z.eqb (snd k) (get tiles (fst k))) Lebron.yao
    && (total_tiles tiles =? 14).
Proof.
  change (Lebron._count_all tiles) with (Smalljj._count_tiles tiles).
  f_equal.
  - unfold Lebron.yao. cbn [forallb]. rewrite !smalljj_counts_get. reflexivity.
  - rewrite smalljj_count_tiles_tiles, sum_values_tally, len_all_tiles. reflexivity.
Qed.

(** C2: the hand 159m 19p 19s 1234567z holds the thirteen terminal and
    honor tiles and a 5 of the m suit, which is none of them, and
    lebron.py reports thirteen orphans for it under every flag setting;
    smalljj.py rejects it, and accepts the hand whose fourteenth tile is a
    second 1m.  In general lebron.py reports thirteen orphans, alone and
    of value 13, for every hand of 14 tiles in which each of the thirteen
    tiles occurs, whatever the fourteenth tile is. *)
Theorem C2_orphans_with_middle_tile (is_tsumo is_menzen is_riichi : bool) :
  ~ In (Sm, 5) Lebron.yao
  /\ In (Sm, 5) (Shapes.all_tiles Hands.orphans_and_middle)
  /\ Lebron.calculate_fan Hands.orphans_and_middle is_tsumo is_menzen is_riichi
     = Ok ([("國士無雙", 13)], 13)
  /\ Smalljj._check_kokushi Hands.orphans_and_middle = false
  /\ Smalljj.calculate_fan Hands.orphans_and_middle is_riichi is_tsumo false
     = Ok ([("無役", 0)], 0)
  /\ Smalljj._check_kokushi Hands.orphans_and_pair = true
  /\ Smalljj.calculate_fan Hands.orphans_and_pair is_riichi is_tsumo false
     = Ok ([("國士無雙", 13)], 13)
  /\ (forall tiles,
         if forallb (fun k => 1 <=? count Z.eqb (snd k) (get tiles (fst k))) Lebron.yao
            && (total_tiles tiles =? 14)
         then Lebron.calculate_fan tiles is_tsumo is_menzen is_riichi
              = Ok ([("國士無雙", 13)], 13)
         else True).
Proof.
  split; [| split].
  - cbn. intuition discriminate.
  - cbn. tauto.
  - repeat apply conj; try (destruct is_tsumo, is_menzen, is_riichi; reflexivity).
    intros tiles.
    destruct (forallb (fun k => 1 <=? count Z.eqb (snd k) (get tiles (fst k))) Lebron.yao
              && (total_tiles tiles =? 14)) eqn:E; [| exact I].
    pose proof E as E'. apply andb_true_iff in E' as [_ H14].
    unfold Lebron.calculate_fan, Lebron._check_yakuman. rewrite H14. cbn [negb].
    rewrite lebron_orphans_test, E. reflexivity.
Qed.

(** * Further properties of the code *)

(** ** What the meld search of jjjj.py and smalljj.py decides *)

Import Split.

Lemma remove_triplet_Permutation (t : tile) (l r : list tile) :
  Melds.remove_triplet t l = Ok r -> Permutation l (group_tiles (Triplet t) ++ r).
Proof.
  unfold Melds.remove_triplet. intros H.
  apply bind_Ok in H as [r1 [H1 H]]. apply bind_Ok in H as [r2 [H2 H3]].
  apply (remove_Permutation tile_eqb tile_eqb_eq) in H1, H2, H3.
  cbn [group_tiles app]. now rewrite H1, H2, H3.
Qed.

Lemma remove_sequence_Permutation (st : suit) (num : Z) (l r : list tile) :
  Melds.remove_sequence st num l = Ok r -> Permutation l (group_tiles (Run st num) ++ r).
Proof.
  unfold Melds.remove_sequence. intros H.
  apply bind_Ok in H as [r1 [H1 H]]. apply bind_Ok in H as [r2 [H2 H3]].
  apply (remove_Permutation tile_eqb tile_eqb_eq) in H1, H2, H3.
  cbn [group_tiles app]. now rewrite H1, H2, H3.
Qed.

Lemma numeric_not_honor (st : suit) :
  mem suit_eqb st numeric_suits = true <-> st <> Sz.
Proof. destruct st; cbn; split; congruence. Qed.

(** The search answers yes only for a list that splits into groups. *)
Lemma try_form_melds_sound (fuel : nat) :
  forall l, Melds.try_form_melds_fuel fuel l = Ok true -> exists gs, splits l gs.
Proof.
  induction fuel as [| fuel IH]; intros l H; [discriminate |].
  cbn [Melds.try_form_melds_fuel] in H.
  destruct l as [| [st num] l'].
  { exists []. split; constructor. }
  set (l := @cons tile (st, num) l') in *.
  destruct (negb (len l mod 3 =? 0)); [discriminate |].
  apply bind_Ok in H as [by_triplet [Htri H]].
  destruct by_triplet.
  - destruct (3 <=? count tile_eqb (st, num) l); [| discriminate].
    apply bind_Ok in Htri as [r [Hr Hrec]].
    destruct (IH r Hrec) as [gs [Hlegal Hperm]].
    exists (Triplet (st, num) :: gs). split; [constructor; [exact I | assumption] |].
    cbn [flat_map]. rewrite (remove_triplet_Permutation _ _ _ Hr).
    now apply Permutation_app_head.
  - destruct (mem suit_eqb st numeric_suits) eqn:Hnum; [| discriminate].
    destruct (Z.leb_spec num 7) as [H7 |]; [| discriminate].
    cbn [andb] in H.
    destruct (mem tile_eqb (st, num + 1) l && mem tile_eqb (st, num + 2) l);
      [| discriminate].
    apply bind_Ok in H as [r [Hr H]]. apply bind_Ok in H as [by_sequence [Hrec H]].
    destruct by_sequence; [| discriminate].
    destruct (IH r Hrec) as [gs [Hlegal Hperm]].
    exists (Run st num :: gs). split.
    + constructor; [| assumption]. split; [now apply numeric_not_honor | assumption].
    + cbn [flat_map]. rewrite (remove_sequence_Permutation _ _ _ _ Hr).
      now apply Permutation_app_head.
Qed.

Lemma remove_ordered {A : Type} (eqb : A -> A -> bool) (R : A -> A -> Prop)
      (x : A) (l r : list A) :
  remove eqb x l = Ok r -> StronglySorted R l -> StronglySorted R r.
Proof.
  revert r. induction l as [| y l IH]; intros r; cbn [remove]; [discriminate |].
  intros H Hs. apply StronglySorted_inv in Hs as [Hs Hy].
  destruct (eqb y x); [now injection H as <- |].
  apply bind_Ok in H as [r0 [Hr [= <-]]].
  constructor; [now apply IH |].
  rewrite Forall_forall in *. intros z Hz. apply Hy.
  clear - Hr Hz. revert r0 Hr Hz. induction l as [| w l IHl]; intros r0; cbn [remove];
    [discriminate |].
  destruct (eqb w x); [intros [= <-] Hz; now right |].
  intros H Hz. apply bind_Ok in H as [r1 [Hr1 [= <-]]].
  destruct Hz as [-> | Hz]; [now left | right; eauto].
Qed.

Lemma remove_triplet_ordered (t : tile) (l r : list tile) :
  Melds.remove_triplet t l = Ok r -> ordered l -> ordered r.
Proof.
  unfold Melds.remove_triplet, ordered. intros H Hs.
  apply bind_Ok in H as [r1 [H1 H]]. apply bind_Ok in H as [r2 [H2 H3]].
  eauto using remove_ordered.
Qed.

Lemma remove_sequence_ordered (st : suit) (num : Z) (l r : list tile) :
  Melds.remove_sequence st num l = Ok r -> ordered l -> ordered r.
Proof.
  unfold Melds.remove_sequence, ordered. intros H Hs.
  apply bind_Ok in H as [r1 [H1 H]]. apply bind_Ok in H as [r2 [H2 H3]].
  eauto using remove_ordered.
Qed.

Lemma In_flat_map_split (gs : list group) (t : tile) :
  In t (flat_map group_tiles gs) ->
  exists g gs', In t (group_tiles g) /\ Permutation gs (g :: gs').
Proof.
  intros H. apply in_flat_map in H as [g [Hg Ht]].
  apply in_split in Hg as [g1 [g2 ->]].
  exists g, (g1 ++ g2). split; [assumption |].
  symmetry. apply Permutation_middle.
Qed.

Lemma flat_map_Permutation {A B : Type} (f : A -> list B) (l l' : list A) :
  Permutation l l' -> Permutation (flat_map f l) (flat_map f l').
Proof.
  induction 1 as [| x l l' _ IH | x y l | l l' l'' _ IH1 _ IH2]; cbn [flat_map].
  - constructor.
  - now apply Permutation_app_head.
  - rewrite !app_assoc. apply Permutation_app_tail, Permutation_app_comm.
  - now transitivity (flat_map f l').
Qed.

Lemma Forall_Permutation {A : Type} (P : A -> Prop) (l l' : list A) :
  Permutation l l' -> Forall P l -> Forall P l'.
Proof.
  intros Hp H. rewrite Forall_forall in *. intros x Hx.
  apply H. now apply (Permutation_in _ (Permutation_sym Hp)).
Qed.

Lemma splits_length (l : list tile) (gs : list group) :
  splits l gs -> length l = (3 * length gs)%nat.
Proof.
  intros [_ Hp]. rewrite (Permutation_length Hp). clear.
  induction gs as [| g gs IH]; [reflexivity |].
  cbn [flat_map]. rewrite length_app, IH. destruct g; cbn [group_tiles length]; lia.
Qed.

(** On an ordered list the search finds a split whenever there is one. *)
Lemma try_form_melds_complete (fuel : nat) :
  forall l gs,
    (length l < fuel)%nat -> ordered l -> splits l gs ->
    Melds.try_form_melds_fuel fuel l = Ok true.
Proof.
  induction fuel as [| fuel IH]; intros l gs Hfuel Hord Hsplit; [lia |].
  pose proof (splits_length _ _ Hsplit) as Hlen.
  cbn [Melds.try_form_melds_fuel].
  destruct l as [| [st num] l']; [reflexivity |].
  set (l := @cons tile (st, num) l') in *.
  assert (len l mod 3 = 0) as Hmod.
  { unfold len. rewrite Hlen, Nat2Z.inj_mul, Z.mul_comm. apply Z.mod_mul. lia. }
  rewrite Hmod. cbn [Z.eqb negb].
  destruct Hsplit as [Hlegal Hperm].
  assert (In (st, num) (flat_map group_tiles gs)) as Hin
      by (apply (Permutation_in _ Hperm); now left).
  destruct (In_flat_map_split _ _ Hin) as [g [gs' [Hg Hgs]]].
  pose proof (Forall_Permutation _ _ _ Hgs Hlegal) as Hlegal'.
  apply Forall_cons_iff in Hlegal' as [Hg_legal Hlegal'].
  assert (Permutation l (group_tiles g ++ flat_map group_tiles gs')) as Hperm'.
  { rewrite Hperm. apply (flat_map_Permutation group_tiles) in Hgs. exact Hgs. }
  (* whatever the triplet branch answers, it answers *)
  assert (exists by_triplet,
             (if 3 <=? count tile_eqb (st, num) l
              then bind (Melds.remove_triplet (st, num) l)
                        (fun remaining => Melds.try_form_melds_fuel fuel remaining)
              else Ok false) = Ok by_triplet
             /\ (g = Triplet (st, num) -> by_triplet = true)) as [by_triplet [-> Htri]].
  { destruct (Z.leb_spec 3 (count tile_eqb (st, num) l)) as [Hc | Hc].
    - destruct (melds_remove_triplet_ok _ _ Hc) as [r Hr]. rewrite Hr. cbn [bind].
      pose proof (melds_remove_triplet_length _ _ _ Hr) as Hrl.
      destruct (try_form_melds_fuel_total fuel r) as [b Hb]; [lia |].
      exists b. split; [assumption |]. intros ->.
      rewrite (IH r gs') in Hb; [congruence | lia | | ].
      + eapply remove_triplet_ordered; eassumption.
      + split; [assumption |].
        apply remove_triplet_Permutation in Hr. rewrite Hr in Hperm'.
        now apply Permutation_app_inv_l in Hperm'.
    - exists false. split; [reflexivity |]. intros ->.
      rewrite (count_Permutation tile_eqb _ _ _ Hperm') in Hc.
      cbn [group_tiles app] in Hc. rewrite !count_cons in Hc.
      rewrite (eqb_refl' tile_eqb tile_eqb_eq) in Hc.
      pose proof (count_nonneg tile_eqb (st, num) (flat_map group_tiles gs')). lia. }
  cbn [bind]. destruct by_triplet; [reflexivity |].
  destruct g as [t | st' n].
  { cbn [group_tiles In] in Hg.
    assert (t = (st, num)) as -> by intuition congruence.
    now discriminate Htri. }
  (* the first tile lies in a sequence, and is its lowest tile *)
  pose proof Hord as Hord'.
  apply StronglySorted_inv in Hord as [_ Hmin]. rewrite Forall_forall in Hmin.
  assert (st' = st /\ n = num) as [-> ->].
  { assert (In (st', n) l) as Hbase
        by (apply (Permutation_in _ (Permutation_sym Hperm')); cbn; tauto).
    cbn [group_tiles In] in Hg.
    assert (st' = st) as -> by (intuition congruence). split; [reflexivity |].
    assert (num <= n) as Hle.
    { destruct Hbase as [[= <-] | Hbase]; [lia |].
      apply (Hmin _ Hbase). reflexivity. }
    destruct Hg as [[= <-] | [[= <-] | [[= <-] | []]]]; lia. }
  destruct Hg_legal as [Hnum H7].
  apply numeric_not_honor in Hnum. rewrite Hnum.
  destruct (Z.leb_spec num 7); [| lia]. cbn [andb].
  assert (mem tile_eqb (st, num + 1) l = true) as ->.
  { apply (mem_In tile_eqb tile_eqb_eq), (Permutation_in _ (Permutation_sym Hperm')).
    cbn. tauto. }
  assert (mem tile_eqb (st, num + 2) l = true) as M2.
  { apply (mem_In tile_eqb tile_eqb_eq), (Permutation_in _ (Permutation_sym Hperm')).
    cbn. tauto. }
  rewrite M2. cbn [andb].
  destruct (melds_remove_sequence_ok st num l) as [r Hr];
    [now left
    | apply (mem_In tile_eqb tile_eqb_eq), (Permutation_in _ (Permutation_sym Hperm'));
      cbn; tauto
    | assumption |].
  rewrite Hr. cbn [bind].
  pose proof (melds_remove_sequence_length _ _ _ _ Hr) as Hrl.
  rewrite (IH r gs'); [reflexivity | lia | | ].
  - eapply remove_sequence_ordered; eassumption.
  - split; [assumption |].
    apply remove_sequence_Permutation in Hr. rewrite Hr in Hperm'.
    now apply Permutation_app_inv_l in Hperm'.
Qed.

Lemma insert_sorted_sorted (x : Z) (l : list Z) :
  StronglySorted Z.le l -> StronglySorted Z.le (insert_sorted x l).
Proof.
  induction l as [| y l IH]; intros Hs; cbn [insert_sorted].
  - repeat constructor.
  - apply StronglySorted_inv in Hs as [Hs Hy].
    destruct (Z.ltb_spec x y) as [Hlt | Hge].
    + constructor; [now constructor |].
      constructor; [lia |]. rewrite Forall_forall in *. intros z Hz.
      specialize (Hy z Hz). lia.
    + constructor; [now apply IH |].
      rewrite Forall_forall in *. intros z Hz.
      apply (Permutation_in _ (insert_sorted_Permutation x l)) in Hz.
      destruct Hz as [<- | Hz]; [lia | now apply Hy].
Qed.

Lemma sorted_sorted (l : list Z) : StronglySorted Z.le (sorted l).
Proof.
  unfold sorted.
  assert (forall acc, StronglySorted Z.le acc ->
                      StronglySorted Z.le
                        (fold_left (fun acc x => insert_sorted x acc) l acc)) as H.
  { induction l as [| x l IH]; intros acc Hacc; cbn [fold_left]; [assumption |].
    apply IH. now apply insert_sorted_sorted. }
  apply H. constructor.
Qed.

Lemma StronglySorted_app {A : Type} (R : A -> A -> Prop) (l1 l2 : list A) :
  StronglySorted R l1 -> StronglySorted R l2 ->
  (forall a b, In a l1 -> In b l2 -> R a b) ->
  StronglySorted R (l1 ++ l2).
Proof.
  induction l1 as [| x l1 IH]; intros H1 H2 Hc; cbn [app]; [assumption |].
  apply StronglySorted_inv in H1 as [H1 Hx]. constructor.
  - apply IH; auto. intros a b Ha Hb. apply Hc; [now right | assumption].
  - apply Forall_app. split; [assumption |].
    apply Forall_forall. intros b Hb. apply Hc; [now left | assumption].
Qed.

Lemma tagged_ordered (st : suit) (l : list Z) :
  StronglySorted Z.le l -> ordered (map (fun num => (st, num)) l).
Proof.
  unfold ordered. induction 1 as [| x l Hs IH Hx]; cbn [map]; constructor;
    [assumption |].
  rewrite Forall_forall in *. intros t Ht. apply in_map_iff in Ht as [y [<- Hy]].
  intros _. cbn. now apply Hx.
Qed.

(** The list [_check_melds_valid] hands to the search is ordered, and
    holds the tiles of the dict. *)
Lemma check_list_ordered (tiles : hand) : ordered (Melds.tile_list_of sorted tiles).
Proof.
  unfold Melds.tile_list_of, suits. cbn [flat_map]. rewrite app_nil_r.
  repeat apply StronglySorted_app;
    try (apply tagged_ordered, sorted_sorted);
    intros a b Ha Hb;
    repeat (apply in_app_iff in Hb as [Hb | Hb]);
    apply in_map_iff in Ha as [x [<- _]]; apply in_map_iff in Hb as [y [<- _]];
    intros Hst; cbn in Hst; discriminate.
Qed.

Lemma check_list_Permutation (tiles : hand) :
  Permutation (Melds.tile_list_of sorted tiles) (all_tiles tiles).
Proof.
  unfold all_tiles, Melds.tile_list_of, suits. cbn [flat_map].
  repeat apply Permutation_app; try reflexivity;
    apply Permutation_map, sorted_Permutation.
Qed.

Lemma pull_pair {A : Type} (front back : list A) (x : A) :
  Permutation (front ++ x :: x :: back) (x :: x :: front ++ back).
Proof.
  symmetry. etransitivity; [| apply Permutation_middle].
  constructor. apply Permutation_middle.
Qed.

Lemma all_tiles_without_pair (tiles : hand) (st : suit) (x : Z) (l1 l2 : list Z) :
  remove Z.eqb x (get tiles st) = Ok l1 ->
  remove Z.eqb x l1 = Ok l2 ->
  Permutation (all_tiles tiles)
              ((st, x) :: (st, x) :: all_tiles (with_suit tiles st l2)).
Proof.
  intros H1 H2.
  apply (remove_Permutation Z.eqb Z_eqb_eq) in H1, H2.
  assert (Permutation (get tiles st) (x :: x :: l2)) as Hp by now rewrite H1, H2.
  apply (Permutation_map (fun num => (st, num))) in Hp. cbn [map] in Hp.
  unfold all_tiles, Melds.tile_list_of, suits. cbn [flat_map]. rewrite !app_nil_r.
  destruct st; cbn [get with_suit tiles_m tiles_p tiles_s tiles_z] in *;
    rewrite Hp; cbn [app].
  - reflexivity.
  - apply pull_pair.
  - etransitivity; [apply Permutation_app_head, pull_pair | apply pull_pair].
  - etransitivity; [apply Permutation_app_head, Permutation_app_head, pull_pair |].
    etransitivity; [apply Permutation_app_head, pull_pair | apply pull_pair].
Qed.

Lemma try_pairs_true (tiles : hand) (candidates : list tile) :
  Melds.try_pairs tiles candidates = Ok true ->
  exists c, In c candidates /\ Melds.try_pair tiles c = Ok true.
Proof.
  induction candidates as [| c rest IH]; cbn [Melds.try_pairs]; [discriminate |].
  intros H. apply bind_Ok in H as [valid [Hc H]]. destruct valid.
  - exists c. split; [now left | assumption].
  - destruct (IH H) as [c' [Hin Hc']]. exists c'. split; [now right | assumption].
Qed.

Lemma try_pairs_reaches (tiles : hand) (candidates : list tile) (c : tile) :
  (forall c', In c' candidates -> enough_for_pair tiles c') ->
  In c candidates -> Melds.try_pair tiles c = Ok true ->
  Melds.try_pairs tiles candidates = Ok true.
Proof.
  induction candidates as [| c0 rest IH]; intros Hall Hin Hc; [destruct Hin |].
  cbn [Melds.try_pairs].
  destruct (try_pair_total tiles c0 (Hall c0 (or_introl eq_refl))) as [b Hb].
  rewrite Hb. cbn [bind]. destruct b; [reflexivity |].
  destruct Hin as [-> | Hin]; [congruence |].
  apply IH; auto. intros c' Hc'. apply Hall. now right.
Qed.

Lemma try_pair_true_iff (tiles : hand) (c : tile) :
  enough_for_pair tiles c ->
  (Melds.try_pair tiles c = Ok true <-> exists gs, pair_and_groups tiles c gs).
Proof.
  destruct c as [st x]. unfold enough_for_pair. cbn [fst snd]. intros Hc.
  destruct (remove_twice_ok _ _ Hc) as [l1 [l2 [H1 H2]]].
  pose proof (all_tiles_without_pair _ _ _ _ _ H1 H2) as Hall.
  unfold Melds.try_pair. rewrite H1. cbn [bind]. rewrite H2. cbn [bind].
  unfold Melds._check_melds_valid, Melds._try_form_melds. split.
  - intros H. apply try_form_melds_sound in H as [gs [Hlegal Hperm]].
    exists gs. split; [assumption |].
    rewrite Hall, <- Hperm, check_list_Permutation. reflexivity.
  - intros [gs [Hlegal Hperm]].
    apply (try_form_melds_complete _ _ gs); [lia | apply check_list_ordered |].
    split; [assumption |].
    rewrite check_list_Permutation. rewrite Hall in Hperm.
    now do 2 apply Permutation_cons_inv in Hperm.
Qed.

Lemma set_of_In {A : Type} (eqb : A -> A -> bool)
      (eqb_eq : forall x y, eqb x y = true <-> x = y) (x : A) (l : list A) :
  In x (set_of eqb l) <-> In x l.
Proof.
  induction l as [| y l IH]; cbn [set_of In]; [tauto |].
  rewrite filter_In, IH. split.
  - intros [-> | [H _]]; auto.
  - intros [-> | H]; [now left |].
    destruct (eqb x y) eqn:E.
    + left. symmetry. now apply eqb_eq.
    + right. split; [assumption | reflexivity].
Qed.

Lemma dict_set_keys_mono {A V : Type} (eqb : A -> A -> bool) (d : dict A V)
      (k k' : A) (v : V) :
  In k' (dict_keys d) -> In k' (dict_keys (dict_set eqb d k v)).
Proof.
  rewrite dict_keys_set. destruct (dict_mem eqb d k); [auto |].
  intros H. apply in_app_iff. now left.
Qed.

Lemma dict_set_keys_new {A V : Type} (eqb : A -> A -> bool)
      (eqb_eq : forall x y, eqb x y = true <-> x = y) (d : dict A V) (k : A) (v : V) :
  In k (dict_keys (dict_set eqb d k v)).
Proof.
  rewrite dict_keys_set. unfold dict_mem.
  destruct (dict_find eqb d k) eqn:F.
  - apply (dict_find_In_keys eqb eqb_eq). congruence.
  - apply in_app_iff. right. now left.
Qed.

(** The candidate pairs of the three files are the tiles held at least
    twice. *)
Lemma filtered_candidates_In (tiles : hand) (c : tile) :
  In c (Smalljj.pair_candidates tiles) <-> enough_for_pair tiles c.
Proof.
  destruct c as [st n]. unfold Smalljj.pair_candidates, enough_for_pair.
  cbn [fst snd]. rewrite in_flat_map. split.
  - intros [st' [_ Hin]]. apply in_map_iff in Hin as [n' [[= -> ->] Hin]].
    apply filter_In in Hin as [_ Hc]. now apply Z.leb_le.
  - intros Hc. exists st. split; [destruct st; cbn; tauto |].
    apply in_map. apply filter_In. split; [| now apply Z.leb_le].
    apply (set_of_In Z.eqb Z_eqb_eq), (count_pos_In Z.eqb Z_eqb_eq). lia.
Qed.

Lemma jjjj_pair_candidates_In (tiles : hand) (c : tile) :
  In c (dict_keys (Jjjj.pair_candidates tiles)) <-> enough_for_pair tiles c.
Proof.
  split; [apply jjjj_pair_candidates_enough |].
  destruct c as [st n]. unfold enough_for_pair. cbn [fst snd]. intros Hc.
  unfold Jjjj.pair_candidates.
  set (inner := fun (st : suit) (cands : dict tile Z) (num : Z) =>
                  let count := count Z.eqb num (get tiles st) in
                  if 2 <=? count
                  then dict_set tile_eqb
                         (if negb (dict_mem tile_eqb cands (st, num))
                          then dict_set tile_eqb cands (st, num) 0 else cands)
                         (st, num)
                         (dict_get tile_eqb
                            (if negb (dict_mem tile_eqb cands (st, num))
                             then dict_set tile_eqb cands (st, num) 0 else cands)
                            (st, num) 0 + count / 2)
                  else cands).
  change (In (st, n)
             (dict_keys
                (fold_left
                   (fun cands st' =>
                      fold_left (inner st') (set_of Z.eqb (get tiles st')) cands)
                   suits []))).
  assert (forall st' cands num k,
             In k (dict_keys cands) -> In k (dict_keys (inner st' cands num))) as Hstep.
  { intros st' cands num k Hk. unfold inner. cbv zeta.
    destruct (2 <=? count Z.eqb num (get tiles st')); [| assumption].
    apply dict_set_keys_mono.
    destruct (negb (dict_mem tile_eqb cands (st', num))); [| assumption].
    now apply dict_set_keys_mono. }
  assert (forall st' ns cands k,
             In k (dict_keys cands) ->
             In k (dict_keys (fold_left (inner st') ns cands))) as Hinner.
  { intros st' ns. induction ns as [| num ns IH]; intros cands k Hk;
      cbn [fold_left]; [assumption |]. apply IH, Hstep, Hk. }
  assert (forall ns cands,
             In n ns ->
             In (st, n) (dict_keys (fold_left (inner st) ns cands))) as Hadd.
  { induction ns as [| num ns IH]; intros cands Hin; [destruct Hin |].
    destruct Hin as [-> | Hin]; cbn [fold_left].
    - apply Hinner. unfold inner. cbv zeta.
      destruct (Z.leb_spec 2 (count Z.eqb n (get tiles st))); [| lia].
      apply (dict_set_keys_new tile_eqb tile_eqb_eq).
    - now apply IH. }
  assert (forall sts cands k,
             In k (dict_keys cands) ->
             In k (dict_keys
                     (fold_left
                        (fun cands st' =>
                           fold_left (inner st') (set_of Z.eqb (get tiles st')) cands)
                        sts cands))) as Houter.
  { induction sts as [| st' sts IH]; intros cands k Hk; cbn [fold_left];
      [assumption |]. apply IH, Hinner, Hk. }
  assert (In n (set_of Z.eqb (get tiles st))) as Hn.
  { apply (set_of_In Z.eqb Z_eqb_eq), (count_pos_In Z.eqb Z_eqb_eq). lia. }
  unfold suits.
  destruct st; cbn [fold_left];
    repeat first [ apply Hadd; exact Hn | apply Hinner ].
Qed.

Lemma try_pairs_decides (tiles : hand) (candidates : list tile) :
  (forall c, In c candidates <-> enough_for_pair tiles c) ->
  exists b,
    Melds.try_pairs tiles candidates = Ok b
    /\ (b = true <-> exists head gs, pair_and_groups tiles head gs).
Proof.
  intros Hcands.
  destruct (try_pairs_total tiles candidates) as [b Hb];
    [intros c Hc; now apply Hcands |].
  exists b. split; [assumption |]. split.
  - intros ->. apply try_pairs_true in Hb as [c [Hin Hc]].
    apply try_pair_true_iff in Hc as [gs Hgs]; [| now apply Hcands].
    now exists c, gs.
  - intros [head [gs Hgs]].
    assert (enough_for_pair tiles head) as Henough.
    { destruct Hgs as [_ Hperm]. destruct head as [st n].
      unfold enough_for_pair. cbn [fst snd].
      rewrite <- count_all_tiles, (count_Permutation tile_eqb _ _ _ Hperm).
      rewrite !count_cons, (eqb_refl' tile_eqb tile_eqb_eq).
      pose proof (count_nonneg tile_eqb (st, n) (flat_map group_tiles gs)). lia. }
    rewrite (try_pairs_reaches tiles candidates head) in Hb.
    + congruence.
    + intros c Hc. now apply Hcands.
    + now apply Hcands.
    + apply try_pair_true_iff; [assumption | now exists gs].
Qed.

Lemma valid_winning_pattern_decides (tiles : hand) :
  exists b,
    Jjjj._is_valid_winning_pattern tiles = Ok b
    /\ Smalljj._is_valid_winning_pattern tiles = Ok b
    /\ (b = true <->
        total_tiles tiles = 14
        /\ exists head gs, length gs = 4%nat /\ pair_and_groups tiles head gs).
Proof.
  unfold Jjjj._is_valid_winning_pattern, Smalljj._is_valid_winning_pattern.
  fold (all_tiles tiles). rewrite len_all_tiles.
  destruct (Z.eqb_spec (total_tiles tiles) 14) as [H14 | Hne]; cbn [negb].
  - destruct (try_pairs_decides tiles (dict_keys (Jjjj.pair_candidates tiles))
                                (jjjj_pair_candidates_In tiles)) as [b [Hb Hiff]].
    destruct (try_pairs_decides tiles (Smalljj.pair_candidates tiles)
                                (filtered_candidates_In tiles)) as [b' [Hb' Hiff']].
    assert (b' = b) as ->.
    { destruct b, b'; try reflexivity.
      - apply (proj2 Hiff'). now apply (proj1 Hiff).
      - symmetry. apply (proj2 Hiff). now apply (proj1 Hiff'). }
    exists b. repeat split; try assumption.
    + destruct (proj1 Hiff H) as [head [gs Hgs]]. exists head, gs.
      split; [| assumption].
      destruct Hgs as [Hlegal Hperm].
      pose proof (splits_length (flat_map group_tiles gs) gs
                    (conj Hlegal (Permutation_refl _))) as Hlen.
      apply Permutation_length in Hperm. cbn [length] in Hperm.
      rewrite <- len_all_tiles in H14. unfold len in H14. lia.
    + intros [_ [head [gs [_ Hgs]]]]. apply Hiff. now exists head, gs.
  - exists false. repeat split; try discriminate. intros [H _]. contradiction.
Qed.

(** X1: [_is_valid_winning_pattern] of jjjj.py and of smalljj.py always
    return a boolean, the same one, and it is [True] exactly when the
    dict holds 14 tiles that are a pair and four groups, a group being a
    triplet or a sequence of a numeric suit from a rank of at most 7. *)
Theorem X1_valid_winning_pattern_decides (tiles : hand) :
  exists b,
    Jjjj._is_valid_winning_pattern tiles = Ok b
    /\ Smalljj._is_valid_winning_pattern tiles = Ok b
    /\ (b = true <->
        total_tiles tiles = 14
        /\ exists head gs, length gs = 4%nat /\ pair_and_groups tiles head gs).
Proof. exact (valid_winning_pattern_decides tiles). Qed.

(** ** What the meld search of lebron.py enumerates *)

Lemma In_all_tiles (h : hand) (st : suit) (n : Z) :
  In (st, n) (all_tiles h) <-> In n (get h st).
Proof.
  unfold all_tiles, Melds.tile_list_of. rewrite in_flat_map. split.
  - intros [st' [_ Hin]]. apply in_map_iff in Hin as [n' [Heq Hin]].
    now inversion Heq; subst.
  - intros Hin. exists st. split.
    + destruct st; cbn; tauto.
    + apply in_map_iff. now exists n.
Qed.

Lemma all_tiles_without (h : hand) (st : suit) (xs l' : list Z) :
  Permutation (get h st) (xs ++ l') ->
  Permutation (all_tiles h)
              (map (fun n => (st, n)) xs ++ all_tiles (with_suit h st l')).
Proof.
  intros Hp. apply (Permutation_map (fun num => (st, num))) in Hp.
  rewrite map_app in Hp.
  unfold all_tiles, Melds.tile_list_of, suits. cbn [flat_map]. rewrite !app_nil_r.
  destruct st; cbn [get with_suit tiles_m tiles_p tiles_s tiles_z] in *; rewrite Hp.
  - now rewrite <- app_assoc.
  - rewrite <- app_assoc. apply Permutation_app_swap_app.
  - rewrite <- app_assoc.
    etransitivity; [apply Permutation_app_head, Permutation_app_swap_app |].
    apply Permutation_app_swap_app.
  - etransitivity; [apply Permutation_app_head, Permutation_app_head,
                    Permutation_app_swap_app |].
    etransitivity; [apply Permutation_app_head, Permutation_app_swap_app |].
    apply Permutation_app_swap_app.
Qed.

Lemma first_tile_head (tiles : hand) (st : suit) (v : Z) :
  Lebron.first_tile tiles = Some (st, v) -> exists rest, get tiles st = v :: rest.
Proof.
  unfold Lebron.first_tile.
  destruct (filter (fun st0 => truthy (get tiles st0)) suits) as [| st0 l];
    [discriminate |].
  destruct (get tiles st0) as [| v0 rest] eqn:E; [discriminate |].
  intros [= <- <-]. now exists rest.
Qed.

Lemma lebron_remove_triplet_Permutation (h new_tiles : hand) (st : suit) (v : Z) :
  Lebron.remove_triplet h st v = Ok new_tiles ->
  Permutation (all_tiles h) (group_tiles (Triplet (st, v)) ++ all_tiles new_tiles).
Proof.
  unfold Lebron.remove_triplet. intros H.
  apply bind_Ok in H as [l1 [H1 H]]. apply bind_Ok in H as [l2 [H2 H]].
  apply bind_Ok in H as [l3 [H3 [= <-]]].
  apply (remove_Permutation Z.eqb Z_eqb_eq) in H1, H2, H3.
  apply (all_tiles_without h st [v; v; v] l3).
  cbn [app]. now rewrite H1, H2, H3.
Qed.

Lemma lebron_remove_sequence_Permutation (h new_tiles : hand) (st : suit) (v : Z) :
  Lebron.remove_sequence h st v = Ok new_tiles ->
  Permutation (all_tiles h) (group_tiles (Run st v) ++ all_tiles new_tiles).
Proof.
  unfold Lebron.remove_sequence. intros H.
  apply bind_Ok in H as [l1 [H1 H]]. apply bind_Ok in H as [l2 [H2 H]].
  apply bind_Ok in H as [l3 [H3 [= <-]]].
  apply (remove_Permutation Z.eqb Z_eqb_eq) in H1, H2, H3.
  apply (all_tiles_without h st [v; v + 1; v + 2] l3).
  cbn [app]. now rewrite H1, H2, H3.
Qed.

Lemma with_suit_sorted (h : hand) (st : suit) (l : list Z) :
  (forall st', StronglySorted Z.le (get h st')) ->
  StronglySorted Z.le l ->
  forall st', StronglySorted Z.le (get (with_suit h st l) st').
Proof.
  intros Hh Hl st'. destruct (suit_eqb st' st) eqn:E.
  - apply suit_eqb_eq in E as ->. now rewrite get_with_suit_same.
  - rewrite get_with_suit_other; [apply Hh |].
    intros ->. now destruct st.
Qed.

Lemma lebron_remove_triplet_sorted (h new_tiles : hand) (st : suit) (v : Z) :
  Lebron.remove_triplet h st v = Ok new_tiles ->
  (forall st', StronglySorted Z.le (get h st')) ->
  forall st', StronglySorted Z.le (get new_tiles st').
Proof.
  unfold Lebron.remove_triplet. intros H Hh.
  apply bind_Ok in H as [l1 [H1 H]]. apply bind_Ok in H as [l2 [H2 H]].
  apply bind_Ok in H as [l3 [H3 [= <-]]].
  apply with_suit_sorted; [assumption |]. specialize (Hh st).
  eauto using remove_ordered.
Qed.

Lemma lebron_remove_sequence_sorted (h new_tiles : hand) (st : suit) (v : Z) :
  Lebron.remove_sequence h st v = Ok new_tiles ->
  (forall st', StronglySorted Z.le (get h st')) ->
  forall st', StronglySorted Z.le (get new_tiles st').
Proof.
  unfold Lebron.remove_sequence. intros H Hh.
  apply bind_Ok in H as [l1 [H1 H]]. apply bind_Ok in H as [l2 [H2 H]].
  apply bind_Ok in H as [l3 [H3 [= <-]]].
  apply with_suit_sorted; [assumption |]. specialize (Hh st).
  eauto using remove_ordered.
Qed.

Lemma no_tiles (h : hand) : total_tiles h = 0 -> all_tiles h = [].
Proof.
  rewrite <- len_all_tiles. unfold len.
  destruct (all_tiles h); [reflexivity | cbn [length]; lia].
Qed.

(** Every list of melds the search returns uses the tiles it was given,
    each once. *)
Lemma get_melds_recursive_sound (fuel : nat) :
  forall h found,
    Lebron.get_melds_recursive_fuel fuel h = Ok found ->
    forall melds, In melds found -> splits (all_tiles h) (map meld_group melds).
Proof.
  induction fuel as [| fuel IH]; intros h found H melds Hin; [discriminate |].
  cbn [Lebron.get_melds_recursive_fuel] in H.
  destruct (Z.eqb_spec (total_tiles h) 0) as [H0 | _].
  { injection H as <-. destruct Hin as [<- | []].
    rewrite (no_tiles _ H0). split; constructor. }
  destruct (Lebron.first_tile h) as [[st v] |]; [| discriminate].
  apply bind_Ok in H as [wt [Hwt H]]. apply bind_Ok in H as [ws [Hws [= <-]]].
  apply in_app_iff in Hin as [Hin | Hin].
  - destruct (3 <=? count Z.eqb v (get h st));
      [| injection Hwt as <-; destruct Hin].
    apply bind_Ok in Hwt as [new [Hr Hwt]].
    apply bind_Ok in Hwt as [sub [Hsub [= <-]]].
    apply in_map_iff in Hin as [res [<- Hres]].
    destruct (IH _ _ Hsub _ Hres) as [Hlegal Hperm].
    split; [constructor; [exact I | assumption] |].
    cbn [map flat_map]. change (meld_group (Lebron.triplet, st, v)) with (Triplet (st, v)).
    rewrite (lebron_remove_triplet_Permutation _ _ _ _ Hr).
    now apply Permutation_app_head.
  - destruct (suit_eqb st Sz) eqn:Ez; cbn [negb andb] in Hws;
      [injection Hws as <-; destruct Hin |].
    destruct (Z.leb_spec v 7) as [H7 |]; [| injection Hws as <-; destruct Hin].
    destruct (mem Z.eqb (v + 1) (get h st) && mem Z.eqb (v + 2) (get h st));
      [| injection Hws as <-; destruct Hin].
    apply bind_Ok in Hws as [new [Hr Hws]].
    apply bind_Ok in Hws as [sub [Hsub [= <-]]].
    apply in_map_iff in Hin as [res [<- Hres]].
    destruct (IH _ _ Hsub _ Hres) as [Hlegal Hperm].
    split.
    + cbn [map]. constructor; [| assumption].
      change (meld_group (Lebron.sequence, st, v)) with (Run st v).
      split; [| assumption]. intros ->. discriminate.
    + cbn [map flat_map]. change (meld_group (Lebron.sequence, st, v)) with (Run st v).
      rewrite (lebron_remove_sequence_Permutation _ _ _ _ Hr).
      now apply Permutation_app_head.
Qed.

(** On a hand whose lists are in ascending order the search returns,
    up to the order of the groups, every way of splitting the tiles. *)
Lemma get_melds_recursive_complete (fuel : nat) :
  forall h gs,
    total_tiles h < Z.of_nat fuel ->
    (forall st, StronglySorted Z.le (get h st)) ->
    splits (all_tiles h) gs ->
    exists found melds,
      Lebron.get_melds_recursive_fuel fuel h = Ok found
      /\ In melds found /\ Permutation (map meld_group melds) gs.
Proof.
  induction fuel as [| fuel IH]; intros h gs Hfuel Hsorted Hsplit.
  { pose proof (total_tiles_nonneg h). lia. }
  pose proof (splits_length _ _ Hsplit) as Hlen.
  cbn [Lebron.get_melds_recursive_fuel].
  destruct (Z.eqb_spec (total_tiles h) 0) as [H0 | Hne].
  { exists [[]], []. repeat split; [now left |].
    rewrite (no_tiles _ H0) in Hlen. destruct gs; [constructor | cbn in Hlen; lia]. }
  destruct (first_tile_Some h Hne) as [st [v [Hft Hin]]]. rewrite Hft.
  destruct (first_tile_head _ _ _ Hft) as [rest Hhead].
  assert (forall n, In n (get h st) -> v <= n) as Hmin.
  { intros n Hn. specialize (Hsorted st). rewrite Hhead in Hsorted, Hn.
    apply StronglySorted_inv in Hsorted as [_ Hall]. rewrite Forall_forall in Hall.
    destruct Hn as [<- | Hn]; [lia | now apply Hall]. }
  destruct Hsplit as [Hlegal Hperm].
  assert (In (st, v) (flat_map group_tiles gs)) as Hfirst
      by (apply (Permutation_in _ Hperm); now apply In_all_tiles).
  destruct (In_flat_map_split _ _ Hfirst) as [g [gs' [Hg Hgs]]].
  pose proof (Forall_Permutation _ _ _ Hgs Hlegal) as Hlegal'.
  apply Forall_cons_iff in Hlegal' as [Hg_legal Hlegal'].
  assert (Permutation (all_tiles h) (group_tiles g ++ flat_map group_tiles gs'))
    as Hperm'.
  { rewrite Hperm. apply (flat_map_Permutation group_tiles) in Hgs. exact Hgs. }
  assert (forall n, In (st, n) (group_tiles g) -> In n (get h st)) as Hheld.
  { intros n Hn. apply In_all_tiles.
    apply (Permutation_in _ (Permutation_sym Hperm')), in_app_iff. now left. }
  (* the triplet branch *)
  assert (exists with_triplet,
             (if 3 <=? count Z.eqb v (get h st)
              then
                bind (Lebron.remove_triplet h st v)
                  (fun new_tiles =>
                     bind (Lebron.get_melds_recursive_fuel fuel new_tiles)
                       (fun sub_results =>
                          Ok (map (fun res => (Lebron.triplet, st, v) :: res) sub_results)))
              else Ok []) = Ok with_triplet
             /\ (g = Triplet (st, v) ->
                 exists melds, In melds with_triplet
                               /\ Permutation (map meld_group melds) gs))
    as [wt [-> Htri]].
  { destruct (Z.leb_spec 3 (count Z.eqb v (get h st))) as [Hc | Hc].
    - destruct (lebron_remove_triplet_ok _ _ _ Hc) as [new Hr]. rewrite Hr. cbn [bind].
      pose proof (lebron_remove_triplet_total _ _ _ _ Hr) as Htot.
      destruct (get_melds_recursive_fuel_total fuel new) as [sub Hsub]; [lia |].
      rewrite Hsub. cbn [bind]. eexists. split; [reflexivity |]. intros ->.
      destruct (IH new gs') as [found [melds [Hfound [Hmelds Hp]]]]; [lia | | |].
      + eapply lebron_remove_triplet_sorted; eassumption.
      + split; [assumption |].
        apply lebron_remove_triplet_Permutation in Hr. rewrite Hr in Hperm'.
        now apply Permutation_app_inv_l in Hperm'.
      + rewrite Hsub in Hfound. injection Hfound as <-.
        exists ((Lebron.triplet, st, v) :: melds). split.
        * apply in_map_iff. now exists melds.
        * cbn [map]. change (meld_group (Lebron.triplet, st, v)) with (Triplet (st, v)).
          rewrite Hgs. now constructor.
    - exists []. split; [reflexivity |]. intros ->. exfalso.
      rewrite <- count_all_tiles in Hc.
      rewrite (count_Permutation tile_eqb _ _ _ Hperm') in Hc.
      cbn [group_tiles app] in Hc. rewrite !count_cons in Hc.
      rewrite (eqb_refl' tile_eqb tile_eqb_eq) in Hc.
      pose proof (count_nonneg tile_eqb (st, v) (flat_map group_tiles gs')). lia. }
  cbn [bind].
  (* the sequence branch *)
  assert (exists with_sequence,
             (if negb (suit_eqb st Sz) && (v <=? 7)
              then
                if mem Z.eqb (v + 1) (get h st) && mem Z.eqb (v + 2) (get h st)
                then
                  bind (Lebron.remove_sequence h st v)
                    (fun new_tiles =>
                       bind (Lebron.get_melds_recursive_fuel fuel new_tiles)
                         (fun sub_results =>
                            Ok (map (fun res => (Lebron.sequence, st, v) :: res)
                                    sub_results)))
                else Ok []
              else Ok []) = Ok with_sequence
             /\ (g = Run st v ->
                 exists melds, In melds with_sequence
                               /\ Permutation (map meld_group melds) gs))
    as [ws [-> Hseq]].
  { destruct (negb (suit_eqb st Sz) && (v <=? 7)) eqn:Hc.
    2:{ exists []. split; [reflexivity |]. intros ->. exfalso.
        destruct Hg_legal as [Hz H7]. apply andb_false_iff in Hc as [Hc | Hc].
        - apply negb_false_iff, suit_eqb_eq in Hc. contradiction.
        - apply Z.leb_gt in Hc. lia. }
    destruct (mem Z.eqb (v + 1) (get h st)) eqn:M1.
    2:{ exists []. split; [reflexivity |]. intros ->. exfalso.
        assert (In (v + 1) (get h st)) as Hn by (apply Hheld; cbn; tauto).
        apply (mem_In Z.eqb Z_eqb_eq) in Hn. congruence. }
    destruct (mem Z.eqb (v + 2) (get h st)) eqn:M2.
    2:{ exists []. split; [reflexivity |]. intros ->. exfalso.
        assert (In (v + 2) (get h st)) as Hn by (apply Hheld; cbn; tauto).
        apply (mem_In Z.eqb Z_eqb_eq) in Hn. congruence. }
    cbn [andb].
    destruct (lebron_remove_sequence_ok h st v Hin M1 M2) as [new Hr].
    rewrite Hr. cbn [bind].
    pose proof (lebron_remove_sequence_total _ _ _ _ Hr) as Htot.
    destruct (get_melds_recursive_fuel_total fuel new) as [sub Hsub]; [lia |].
    rewrite Hsub. cbn [bind]. eexists. split; [reflexivity |]. intros ->.
    destruct (IH new gs') as [found [melds [Hfound [Hmelds Hp]]]]; [lia | | |].
    + eapply lebron_remove_sequence_sorted; eassumption.
    + split; [assumption |].
      apply lebron_remove_sequence_Permutation in Hr. rewrite Hr in Hperm'.
      now apply Permutation_app_inv_l in Hperm'.
    + rewrite Hsub in Hfound. injection Hfound as <-.
      exists ((Lebron.sequence, st, v) :: melds). split.
      * apply in_map_iff. now exists melds.
      * cbn [map]. change (meld_group (Lebron.sequence, st, v)) with (Run st v).
        rewrite Hgs. now constructor. }
  cbn [bind].
  (* the group that holds the first tile is one of the two *)
  destruct g as [t | st' n].
  - cbn [group_tiles In] in Hg.
    assert (t = (st, v)) as -> by intuition congruence.
    destruct (Htri eq_refl) as [melds [Hm Hp]].
    exists (wt ++ ws), melds. repeat split; [apply in_app_iff; now left | assumption].
  - assert (st' = st /\ n = v) as [-> ->].
    { cbn [group_tiles In] in Hg.
      assert (st' = st) as -> by (intuition congruence). split; [reflexivity |].
      assert (v <= n) as Hle by (apply Hmin, Hheld; cbn; tauto).
      destruct Hg as [[= <-] | [[= <-] | [[= <-] | []]]]; lia. }
    destruct (Hseq eq_refl) as [melds [Hm Hp]].
    exists (wt ++ ws), melds. repeat split; [apply in_app_iff; now right | assumption].
Qed.

Lemma all_tiles_sort_all (tiles : hand) :
  Permutation (all_tiles (Parse.sort_all tiles)) (all_tiles tiles).
Proof. exact (check_list_Permutation tiles). Qed.

Lemma sort_all_sorted (tiles : hand) :
  forall st, StronglySorted Z.le (get (Parse.sort_all tiles) st).
Proof. intros st. rewrite get_sort_all. apply sorted_sorted. Qed.

(** One turn of the loop of [_analyze_hand]: with the pair taken out, the
    structures found are the splits of the twelve tiles left. *)
Lemma analyze_pair_spec (tiles : hand) (c : tile) :
  enough_for_pair tiles c ->
  exists here,
    Lebron.analyze_pair tiles c = Ok here
    /\ (forall melds head,
           In (melds, head) here ->
           head = c /\ pair_and_groups tiles c (map meld_group melds))
    /\ (forall gs,
           pair_and_groups tiles c gs ->
           exists melds, In (melds, c) here /\ Permutation (map meld_group melds) gs).
Proof.
  destruct c as [st x]. unfold enough_for_pair. cbn [fst snd]. intros Hc.
  rewrite <- (count_Permutation Z.eqb _ _ _ (sorted_Permutation (get tiles st))),
    <- get_sort_all in Hc.
  destruct (remove_twice_ok _ _ Hc) as [l1 [l2 [H1 H2]]].
  pose proof (all_tiles_without_pair _ _ _ _ _ H1 H2) as Hall.
  rewrite all_tiles_sort_all in Hall.
  set (rem_tiles := with_suit (Parse.sort_all tiles) st l2) in *.
  assert (forall st', StronglySorted Z.le (get rem_tiles st')) as Hsorted.
  { apply with_suit_sorted; [apply sort_all_sorted |].
    pose proof (sort_all_sorted tiles st). eauto using remove_ordered. }
  assert (total_tiles rem_tiles < Z.of_nat (S (Z.to_nat (total_tiles rem_tiles))))
    as Hfuel by (pose proof (total_tiles_nonneg rem_tiles); lia).
  destruct (get_melds_recursive_fuel_total _ _ Hfuel) as [found Hfound].
  exists (map (fun melds => (melds, (st, x))) found). split; [| split].
  - unfold Lebron.analyze_pair. cbv zeta. rewrite H1. cbn [bind]. rewrite H2. cbn [bind].
    fold rem_tiles. unfold Lebron._get_melds_recursive. rewrite Hfound. reflexivity.
  - intros melds head Hin. apply in_map_iff in Hin as [melds' [[= -> <-] Hin]].
    split; [reflexivity |].
    destruct (get_melds_recursive_sound _ _ _ Hfound _ Hin) as [Hlegal Hperm].
    split; [assumption |]. rewrite Hall. now do 2 constructor.
  - intros gs [Hlegal Hperm].
    rewrite Hall in Hperm. do 2 apply Permutation_cons_inv in Hperm.
    destruct (get_melds_recursive_complete _ rem_tiles gs Hfuel Hsorted)
      as [found' [melds [Hfound' [Hin Hp]]]]; [now split |].
    rewrite Hfound in Hfound'. injection Hfound' as <-.
    exists melds. split; [| assumption]. apply in_map_iff. now exists melds.
Qed.

Lemma analyze_pairs_spec (tiles : hand) (candidates : list tile) :
  (forall c, In c candidates -> enough_for_pair tiles c) ->
  exists structures,
    Lebron.analyze_pairs tiles candidates = Ok structures
    /\ (forall melds head,
           In (melds, head) structures ->
           In head candidates /\ pair_and_groups tiles head (map meld_group melds))
    /\ (forall head gs,
           In head candidates -> pair_and_groups tiles head gs ->
           exists melds,
             In (melds, head) structures /\ Permutation (map meld_group melds) gs).
Proof.
  induction candidates as [| c rest IH]; intros Hall; cbn [Lebron.analyze_pairs].
  { exists []. split; [reflexivity |]. split; [intros ? ? [] | intros ? ? []]. }
  destruct (analyze_pair_spec tiles c (Hall c (or_introl eq_refl)))
    as [here [-> [Hsound Hcomplete]]].
  destruct IH as [there [-> [Hsound' Hcomplete']]];
    [intros c' Hc'; apply Hall; now right |].
  cbn [bind]. exists (here ++ there). split; [reflexivity |]. split.
  - intros melds head Hin. apply in_app_iff in Hin as [Hin | Hin].
    + destruct (Hsound _ _ Hin) as [-> Hp]. split; [now left | assumption].
    + destruct (Hsound' _ _ Hin) as [Hc Hp]. split; [now right | assumption].
  - intros head gs [<- | Hin] Hp.
    + destruct (Hcomplete _ Hp) as [melds [Hm Hperm]].
      exists melds. split; [apply in_app_iff; now left | assumption].
    + destruct (Hcomplete' _ _ Hin Hp) as [melds [Hm Hperm]].
      exists melds. split; [apply in_app_iff; now right | assumption].
Qed.

Lemma pair_and_groups_enough (tiles : hand) (head : tile) (gs : list group) :
  pair_and_groups tiles head gs -> enough_for_pair tiles head.
Proof.
  intros [_ Hperm]. destruct head as [st n]. unfold enough_for_pair. cbn [fst snd].
  rewrite <- count_all_tiles, (count_Permutation tile_eqb _ _ _ Hperm).
  rewrite !count_cons, (eqb_refl' tile_eqb tile_eqb_eq).
  pose proof (count_nonneg tile_eqb (st, n) (flat_map group_tiles gs)). lia.
Qed.

Lemma analyze_hand_enumerates (tiles : hand) :
  exists structures,
    Lebron._analyze_hand tiles = Ok structures
    /\ (forall melds head,
           In (melds, head) structures ->
           pair_and_groups tiles head (map meld_group melds))
    /\ (forall head gs,
           pair_and_groups tiles head gs ->
           exists melds,
             In (melds, head) structures /\ Permutation (map meld_group melds) gs).
Proof.
  unfold Lebron._analyze_hand.
  destruct (analyze_pairs_spec tiles (Lebron.pair_candidates tiles))
    as [structures [Hrun [Hsound Hcomplete]]];
    [apply lebron_pair_candidates_enough |].
  exists structures. split; [assumption |]. split.
  - intros melds head Hin. now apply Hsound.
  - intros head gs Hp. apply Hcomplete; [| assumption].
    apply (filtered_candidates_In tiles head). eapply pair_and_groups_enough, Hp.
Qed.

(** X2: [_analyze_hand] of lebron.py returns for every dict of tiles, and
    what it returns are the splits of the hand into a pair and groups: each
    structure uses the tiles of the hand, each once, and every split of the
    hand is returned with its pair, up to the order of its groups. *)
Theorem X2_analyze_hand_enumerates (tiles : hand) :
  exists structures,
    Lebron._analyze_hand tiles = Ok structures
    /\ (forall melds head,
           In (melds, head) structures ->
           pair_and_groups tiles head (map meld_group melds))
    /\ (forall head gs,
           pair_and_groups tiles head gs ->
           exists melds,
             In (melds, head) structures /\ Permutation (map meld_group melds) gs).
Proof. exact (analyze_hand_enumerates tiles). Qed.

(** X3: on a hand of 14 tiles the structures [_analyze_hand] of lebron.py
    finds all have four melds, and there is one exactly when
    [_is_valid_winning_pattern] of jjjj.py answers [True]. *)
Theorem X3_structures_iff_valid (tiles : hand) :
  total_tiles tiles = 14 ->
  exists structures b,
    Lebron._analyze_hand tiles = Ok structures
    /\ Jjjj._is_valid_winning_pattern tiles = Ok b
    /\ (b = true <-> structures <> [])
    /\ (forall melds head, In (melds, head) structures -> length melds = 4%nat).
Proof.
  intros Htotal.
  destruct (analyze_hand_enumerates tiles) as [structures [Hrun [Hsound Hcomplete]]].
  destruct (valid_winning_pattern_decides tiles) as [b [Hb [_ Hiff]]].
  assert (forall head gs, pair_and_groups tiles head gs -> length gs = 4%nat) as Hfour.
  { intros head gs [_ Hperm]. apply Permutation_length in Hperm.
    pose proof (len_all_tiles tiles) as Hlen. unfold len in Hlen.
    cbn [length] in Hperm.
    assert (length (flat_map group_tiles gs) = (3 * length gs)%nat) as H3.
    { clear. induction gs as [| g gs IH]; [reflexivity |].
      cbn [flat_map]. rewrite length_app, IH.
      destruct g; cbn [group_tiles length]; lia. }
    lia. }
  exists structures, b. repeat split; try assumption.
  - intros ->.
    destruct (proj1 Hiff eq_refl) as [_ [head [gs [_ Hp]]]].
    destruct (Hcomplete _ _ Hp) as [melds [Hin _]].
    intros ->. destruct Hin.
  - intros Hne. apply (proj2 Hiff). split; [assumption |].
    destruct structures as [| [melds head] rest]; [congruence |].
    exists head, (map meld_group melds).
    pose proof (Hsound melds head (or_introl eq_refl)) as Hp.
    split; [now apply (Hfour head) | assumption].
  - intros melds head Hin. rewrite <- (length_map meld_group).
    apply (Hfour head). now apply Hsound.
Qed.

Lemma X3_structures_iff_valid_witness :
  exists structures b,
    Lebron._analyze_hand Hands.plain_win = Ok structures
    /\ Jjjj._is_valid_winning_pattern Hands.plain_win = Ok b
    /\ (b = true <-> structures <> [])
    /\ (forall melds head, In (melds, head) structures -> length melds = 4%nat).
Proof. apply (X3_structures_iff_valid Hands.plain_win). reflexivity. Defined.

(** ** The parsers on text in the input format *)

Lemma with_suit_get (tiles : hand) (st : suit) : with_suit tiles st (get tiles st) = tiles.
Proof. destruct tiles, st; reflexivity. Qed.

Lemma with_suit_with_suit (tiles : hand) (st : suit) (l l' : list Z) :
  with_suit (with_suit tiles st l) st l' = with_suit tiles st l'.
Proof. destruct st; reflexivity. Qed.

Lemma append_checked_ok (ns : list Z) :
  forall tiles st,
    Grouped.ranks_from 1 ns ->
    Parse.append_checked tiles st ns = Ok (Grouped.add_group tiles (ns, st)).
Proof.
  unfold Grouped.add_group. cbn [fst snd].
  induction ns as [| n ns IH]; intros tiles st Hr; cbn [Parse.append_checked].
  - now rewrite app_nil_r, with_suit_get.
  - assert (1 <= n <= 9) as Hn by (apply Hr; now left).
    destruct (Z.leb_spec 1 n); [| lia]. destruct (Z.leb_spec n 9); [| lia].
    cbn [andb negb]. rewrite IH by (intros n' Hn'; apply Hr; now right).
    rewrite get_with_suit_same, with_suit_with_suit, <- app_assoc. reflexivity.
Qed.

Lemma collect_numbers_digits (ns : list Z) (rest : list ascii) :
  Grouped.ranks_from 0 ns ->
  match rest with c :: _ => Parse.isdigit c = false | [] => True end ->
  Parse.collect_numbers (map Flat.digit ns ++ rest) = (ns, rest).
Proof.
  intros Hr Hrest. induction ns as [| n ns IH]; cbn [map app].
  - destruct rest as [| c rest]; [reflexivity |].
    cbn [Parse.collect_numbers]. now rewrite Hrest.
  - destruct (digit_isdigit n (Hr n (or_introl eq_refl))) as [Hd [Hi _]].
    cbn [Parse.collect_numbers]. rewrite Hd, Hi, IH; [reflexivity |].
    intros n' Hn'. apply Hr. now right.
Qed.

Lemma collect_numbers_group (g : list Z * suit) (rest : list ascii) :
  Grouped.ranks_from 0 (fst g) ->
  Parse.collect_numbers (Grouped.group_chars g ++ rest)
  = (fst g, Flat.letter (snd g) :: rest).
Proof.
  intros Hr. unfold Grouped.group_chars. rewrite <- app_assoc. cbn [app].
  apply collect_numbers_digits; [assumption |].
  now destruct (letter_suit (snd g)) as [-> _].
Qed.

Lemma group_chars_cons (g : list Z * suit) (rest : list ascii) :
  exists c l, Grouped.group_chars g ++ rest = c :: l.
Proof.
  unfold Grouped.group_chars. destruct (fst g) as [| n ns]; cbn; now eexists _, _.
Qed.

Lemma ranks_from_weaken (ns : list Z) : Grouped.ranks_from 1 ns -> Grouped.ranks_from 0 ns.
Proof. intros H n Hn. specialize (H n Hn). lia. Qed.

(** One turn of the loop reads one group. *)
Lemma jjjj_parse_loop_group (fuel : nat) (tiles : hand) (g : list Z * suit)
      (rest : list ascii) :
  Grouped.ranks_from 1 (fst g) ->
  Parse.parse_loop (S fuel) tiles (Grouped.group_chars g ++ rest)
  = Parse.parse_loop fuel (Grouped.add_group tiles g) rest.
Proof.
  intros Hr. cbn [Parse.parse_loop].
  destruct (group_chars_cons g rest) as [c [l E]].
  destruct (Grouped.group_chars g ++ rest) as [| c' l'] eqn:E'; [discriminate |].
  rewrite <- E', collect_numbers_group by now apply ranks_from_weaken.
  destruct (letter_suit (snd g)) as [_ [-> _]].
  rewrite append_checked_ok by assumption. cbn [bind]. now destruct g.
Qed.

Lemma lebron_parse_loop_group (fuel : nat) (tiles : hand) (g : list Z * suit)
      (rest : list ascii) :
  Grouped.ranks_from 0 (fst g) ->
  Lebron.parse_loop (S fuel) tiles (Grouped.group_chars g ++ rest)
  = Lebron.parse_loop fuel (Grouped.add_group tiles g) rest.
Proof.
  intros Hr. cbn [Lebron.parse_loop].
  destruct (group_chars_cons g rest) as [c [l E]].
  destruct (Grouped.group_chars g ++ rest) as [| c' l'] eqn:E'; [discriminate |].
  rewrite <- E', collect_numbers_group by assumption.
  destruct (letter_suit (snd g)) as [_ [-> _]]. reflexivity.
Qed.

(** The groups in front of the text are read one per turn. *)
Lemma jjjj_parse_loop_groups (gs : list (list Z * suit)) :
  forall fuel tiles rest,
    (forall g, In g gs -> Grouped.ranks_from 1 (fst g)) ->
    Parse.parse_loop (length gs + fuel) tiles (Grouped.chars gs ++ rest)
    = Parse.parse_loop fuel (Grouped.collect tiles gs) rest.
Proof.
  induction gs as [| g gs IH]; intros fuel tiles rest Hr; [reflexivity |].
  cbn [length Nat.add Grouped.chars flat_map Grouped.collect fold_left].
  fold (Grouped.chars gs). rewrite <- app_assoc.
  rewrite jjjj_parse_loop_group by (apply Hr; now left).
  apply IH. intros g' Hg'. apply Hr. now right.
Qed.

Lemma lebron_parse_loop_groups (gs : list (list Z * suit)) :
  forall fuel tiles rest,
    (forall g, In g gs -> Grouped.ranks_from 0 (fst g)) ->
    Lebron.parse_loop (length gs + fuel) tiles (Grouped.chars gs ++ rest)
    = Lebron.parse_loop fuel (Grouped.collect tiles gs) rest.
Proof.
  induction gs as [| g gs IH]; intros fuel tiles rest Hr; [reflexivity |].
  cbn [length Nat.add Grouped.chars flat_map Grouped.collect fold_left].
  fold (Grouped.chars gs). rewrite <- app_assoc.
  rewrite lebron_parse_loop_group by (apply Hr; now left).
  apply IH. intros g' Hg'. apply Hr. now right.
Qed.

Lemma grouped_chars_plain (gs : list (list Z * suit)) :
  (forall g, In g gs -> Grouped.ranks_from 0 (fst g)) ->
  forall c, In c (Grouped.chars gs) ->
            Parse.isspace c = false /\ Ascii.eqb c " "%char = false.
Proof.
  intros Hr c Hc. unfold Grouped.chars in Hc. apply in_flat_map in Hc as [g [Hg Hc]].
  unfold Grouped.group_chars in Hc. apply in_app_iff in Hc as [Hc | [<- | []]].
  - apply in_map_iff in Hc as [n [<- Hn]].
    destruct (digit_isdigit n (Hr g Hg n Hn)) as [_ [_ [? ?]]]. now split.
  - destruct (letter_suit (snd g)) as [_ [_ [? ?]]]. now split.
Qed.

Lemma grouped_chars_length (gs : list (list Z * suit)) :
  (length gs <= length (Grouped.chars gs))%nat.
Proof.
  induction gs as [| g gs IH]; [reflexivity |].
  cbn [Grouped.chars flat_map]. fold (Grouped.chars gs).
  unfold Grouped.group_chars. rewrite !length_app. cbn [length]. lia.
Qed.

Lemma grouped_chars_truthy (gs : list (list Z * suit)) :
  gs <> [] -> truthy (Grouped.chars gs) = true.
Proof.
  destruct gs as [| g gs]; [congruence |]. intros _.
  cbn [Grouped.chars flat_map].
  destruct (group_chars_cons g (flat_map Grouped.group_chars gs)) as [c [l ->]].
  reflexivity.
Qed.

(** The text of groups of ranks from 1 to 9 is read as written. *)
Lemma parse_hand_grouped (gs : list (list Z * suit)) :
  gs <> [] ->
  (forall g, In g gs -> Grouped.ranks_from 1 (fst g)) ->
  Parse.parse_hand (Grouped.render gs)
  = Ok (Parse.sort_all (Grouped.collect Parse.empty_hand gs))
  /\ Lebron.parse_hand (Grouped.render gs)
     = Ok (Parse.sort_all (Grouped.collect Parse.empty_hand gs)).
Proof.
  intros Hne Hr.
  assert (forall g, In g gs -> Grouped.ranks_from 0 (fst g)) as Hr0
      by (intros g Hg; now apply ranks_from_weaken, Hr).
  pose proof (grouped_chars_length gs) as Hlen.
  assert (Parse.normalize (list_ascii_of_string (Grouped.render gs)) = Grouped.chars gs)
    as Hnorm.
  { unfold Grouped.render. rewrite list_ascii_of_string_of_list_ascii.
    apply normalize_id, grouped_chars_plain, Hr0. }
  assert (exists extra, S (String.length (Grouped.render gs)) = (length gs + S extra)%nat)
    as [extra Hfuel].
  { unfold Grouped.render. rewrite string_length_of_list.
    exists (length (Grouped.chars gs) - length gs)%nat. lia. }
  split.
  - unfold Parse.parse_hand, Parse.parse_hand_fuel. rewrite Hnorm.
    rewrite grouped_chars_truthy by assumption. cbn [negb].
    rewrite Hfuel, <- (app_nil_r (Grouped.chars gs)).
    rewrite jjjj_parse_loop_groups by assumption. reflexivity.
  - unfold Lebron.parse_hand. rewrite Hnorm.
    rewrite Hfuel, <- (app_nil_r (Grouped.chars gs)).
    rewrite lebron_parse_loop_groups by assumption. reflexivity.
Qed.

Lemma insert_sorted_last (x : Z) (l : list Z) :
  Forall (fun y => y <= x) l -> insert_sorted x l = l ++ [x].
Proof.
  induction 1 as [| y l Hy _ IH]; [reflexivity |].
  cbn [insert_sorted app]. destruct (Z.ltb_spec x y); [lia |]. now rewrite IH.
Qed.

Lemma sorted_id (l : list Z) : StronglySorted Z.le l -> sorted l = l.
Proof.
  unfold sorted. change l with ([] ++ l) at 1 3.
  generalize (@nil Z) as acc. induction l as [| x l IH]; intros acc Hs.
  - now rewrite app_nil_r.
  - cbn [fold_left]. rewrite insert_sorted_last.
    + replace (acc ++ x :: l) with ((acc ++ [x]) ++ l) in *
        by now rewrite <- app_assoc.
      now apply IH.
    + clear IH. induction acc as [| a acc IHacc]; [constructor |].
      cbn [app] in Hs. apply StronglySorted_inv in Hs as [Hs Ha].
      constructor; [| now apply IHacc].
      rewrite Forall_forall in Ha. apply Ha, in_app_iff. right. now left.
Qed.

Lemma sort_all_id (tiles : hand) :
  (forall st, StronglySorted Z.le (get tiles st)) -> Parse.sort_all tiles = tiles.
Proof.
  intros H. unfold Parse.sort_all.
  pose proof (sorted_id _ (H Sm)) as Hm. pose proof (sorted_id _ (H Sp)) as Hp.
  pose proof (sorted_id _ (H Ss)) as Hs. pose proof (sorted_id _ (H Sz)) as Hz.
  cbn [get] in Hm, Hp, Hs, Hz. rewrite Hm, Hp, Hs, Hz. now destruct tiles.
Qed.

Lemma collect_of_hand (tiles : hand) :
  Grouped.collect Parse.empty_hand (Grouped.of_hand tiles) = tiles.
Proof.
  destruct tiles as [[| a lm] [| b lp] [| c ls] [| d lz]]; reflexivity.
Qed.

Lemma of_hand_nonempty (tiles : hand) :
  total_tiles tiles <> 0 -> Grouped.of_hand tiles <> [].
Proof.
  rewrite total_tiles_unfold.
  destruct tiles as [[| a lm] [| b lp] [| c ls] [| d lz]];
    cbn [tiles_m tiles_p tiles_s tiles_z]; unfold Grouped.of_hand; cbn;
      intros H; try discriminate; now contradiction H.
Qed.

Lemma of_hand_ranks (tiles : hand) (lo : Z) :
  (forall st, Grouped.ranks_from lo (get tiles st)) ->
  forall g, In g (Grouped.of_hand tiles) -> Grouped.ranks_from lo (fst g).
Proof.
  intros H g Hg. unfold Grouped.of_hand in Hg.
  apply filter_In in Hg as [Hg _]. apply in_map_iff in Hg as [st [<- _]]. apply H.
Qed.

(** X4: text made of groups, each the digits of ranks from 1 to 9
    followed by the letter of a suit, is read by [parse_hand] of jjjj.py,
    smalljj.py and lebron.py as written: the ranks of each group are added
    to the list of its suit, whatever the order of the groups and however
    often a suit comes back, and the lists are returned sorted. *)
Theorem X4_parse_hand_reads_groups (gs : list (list Z * suit)) :
  gs <> [] ->
  (forall g, In g gs -> Grouped.ranks_from 1 (fst g)) ->
  Jjjj.parse_hand (Grouped.render gs)
  = Ok (Parse.sort_all (Grouped.collect Parse.empty_hand gs))
  /\ Smalljj.parse_hand (Grouped.render gs)
     = Ok (Parse.sort_all (Grouped.collect Parse.empty_hand gs))
  /\ Lebron.parse_hand (Grouped.render gs)
     = Ok (Parse.sort_all (Grouped.collect Parse.empty_hand gs)).
Proof.
  intros Hne Hr. destruct (parse_hand_grouped gs Hne Hr) as [H1 H2].
  repeat split; assumption.
Qed.

Lemma X4_parse_hand_reads_groups_witness :
  Jjjj.parse_hand "31m9p2m"
  = Ok (mkHand [1; 2; 3] [9] [] [])
  /\ Smalljj.parse_hand "31m9p2m" = Ok (mkHand [1; 2; 3] [9] [] [])
  /\ Lebron.parse_hand "31m9p2m" = Ok (mkHand [1; 2; 3] [9] [] []).
Proof.
  apply (X4_parse_hand_reads_groups [([3; 1], Sm); ([9], Sp); ([2], Sm)]).
  - discriminate.
  - intros g [<- | [<- | [<- | []]]] n Hn; cbn in Hn; lia.
Defined.

(** X5: a hand with at least one tile, ranks from 1 to 9 and each list in
    ascending order, written suit by suit in the input format, is read back
    unchanged by [parse_hand] of jjjj.py, smalljj.py and lebron.py. *)
Theorem X5_parse_hand_round_trip (tiles : hand) :
  total_tiles tiles <> 0 ->
  (forall st, Grouped.ranks_from 1 (get tiles st)) ->
  (forall st, StronglySorted Z.le (get tiles st)) ->
  Jjjj.parse_hand (Grouped.show tiles) = Ok tiles
  /\ Smalljj.parse_hand (Grouped.show tiles) = Ok tiles
  /\ Lebron.parse_hand (Grouped.show tiles) = Ok tiles.
Proof.
  intros Hne Hr Hs.
  destruct (parse_hand_grouped (Grouped.of_hand tiles)) as [H1 H2];
    [now apply of_hand_nonempty | now apply of_hand_ranks |].
  rewrite collect_of_hand, sort_all_id in H1, H2 by assumption.
  repeat split; assumption.
Qed.

Lemma X5_parse_hand_round_trip_witness :
  Jjjj.parse_hand (Grouped.show Hands.plain_win) = Ok Hands.plain_win
  /\ Smalljj.parse_hand (Grouped.show Hands.plain_win) = Ok Hands.plain_win
  /\ Lebron.parse_hand (Grouped.show Hands.plain_win) = Ok Hands.plain_win.
Proof.
  apply (X5_parse_hand_round_trip Hands.plain_win).
  - discriminate.
  - intros st n. destruct st; cbn; lia.
  - intros st. destruct st; cbn; repeat constructor; lia.
Defined.










Lemma lstrip_length (l : list ascii) : (length (Parse.lstrip l) <= length l)%nat.
Proof.
  induction l as [| c l IH]; [reflexivity |].
  cbn [Parse.lstrip]. destruct (Parse.isspace c); cbn [length]; lia.
Qed.

Lemma normalize_length (l : list ascii) : (length (Parse.normalize l) <= length l)%nat.
Proof.
  unfold Parse.normalize, Parse.strip. rewrite length_rev.
  etransitivity; [apply lstrip_length |]. rewrite length_rev.
  etransitivity; [apply lstrip_length |]. apply filter_length_le.
Qed.

Lemma list_of_string_length (s : string) :
  length (list_ascii_of_string s) = String.length s.
Proof. induction s as [| c s IH]; [reflexivity |]. cbn. now rewrite IH. Qed.

(** X7: when the text, blanks removed, is groups of ranks from 1 to 9 and
    then digits with no letter of a suit behind them, [parse_hand] of
    jjjj.py and smalljj.py raises the error that asks for the letter, and
    [parse_hand] of lebron.py returns the tiles of the groups without
    those of the last digits. *)
Theorem X7_digits_without_suit (input_str : string) (gs : list (list Z * suit))
        (ns : list Z) :
  Parse.normalize (list_ascii_of_string input_str)
  = Grouped.chars gs ++ map Flat.digit ns ->
  (forall g, In g gs -> Grouped.ranks_from 1 (fst g)) ->
  ns <> [] -> Grouped.ranks_from 0 ns ->
  Jjjj.parse_hand input_str = Raise MissingSuitMark
  /\ Smalljj.parse_hand input_str = Raise MissingSuitMark
  /\ Lebron.parse_hand input_str
     = Ok (Parse.sort_all (Grouped.collect Parse.empty_hand gs)).
Proof.
  intros Hnorm Hr Hne Hns.
  assert (exists extra, S (String.length input_str) = (length gs + S extra)%nat)
    as [extra Hfuel].
  { pose proof (normalize_length (list_ascii_of_string input_str)) as Hlen.
    rewrite Hnorm, list_of_string_length, length_app in Hlen.
    pose proof (grouped_chars_length gs).
    exists (String.length input_str - length gs)%nat. lia. }
  destruct ns as [| n ns]; [congruence |].
  assert (Parse.collect_numbers (map Flat.digit (n :: ns)) = (n :: ns, [])) as Hcol.
  { rewrite <- (app_nil_r (map Flat.digit (n :: ns))).
    now apply collect_numbers_digits. }
  assert (Parse.parse_hand input_str = Raise MissingSuitMark) as Hjj.
  { unfold Parse.parse_hand, Parse.parse_hand_fuel. rewrite Hnorm.
    assert (truthy (Grouped.chars gs ++ map Flat.digit (n :: ns)) = true) as ->
        by (destruct (Grouped.chars gs); reflexivity).
    cbn [negb]. rewrite Hfuel, jjjj_parse_loop_groups by assumption.
    cbn [Parse.parse_loop]. change (map Flat.digit (n :: ns))
      with (Flat.digit n :: map Flat.digit ns) at 1. cbv match.
    rewrite Hcol. reflexivity. }
  repeat split; try exact Hjj.
  unfold Lebron.parse_hand. rewrite Hnorm, Hfuel.
  rewrite lebron_parse_loop_groups
    by (intros g Hg; now apply ranks_from_weaken, Hr).
  cbn [Lebron.parse_loop]. change (map Flat.digit (n :: ns))
    with (Flat.digit n :: map Flat.digit ns) at 1. cbv match.
  rewrite Hcol. reflexivity.
Qed.

Lemma X7_digits_without_suit_witness :
  Jjjj.parse_hand "12m 34" = Raise MissingSuitMark
  /\ Smalljj.parse_hand "12m 34" = Raise MissingSuitMark
  /\ Lebron.parse_hand "12m 34" = Ok (mkHand [1; 2] [] [] []).
Proof.
  apply (X7_digits_without_suit "12m 34" [([1; 2], Sm)] [3; 4]).
  - reflexivity.
  - intros g [<- | []] n Hn; cbn in Hn; lia.
  - discriminate.
  - intros n Hn; cbn in Hn; lia.
Defined.

(** What the loops keep: ranks within bounds. *)
Lemma append_checked_ranks (numbers : list Z) :
  forall tiles st tiles',
    (forall st', Grouped.ranks_from 1 (get tiles st')) ->
    Parse.append_checked tiles st numbers = Ok tiles' ->
    forall st', Grouped.ranks_from 1 (get tiles' st').
Proof.
  induction numbers as [| num rest IH]; intros tiles st tiles' Hr H;
    cbn [Parse.append_checked] in H.
  - now injection H as <-.
  - destruct (Z.leb_spec 1 num); [| discriminate].
    destruct (Z.leb_spec num 9); [| discriminate]. cbn [andb negb] in H.
    eapply IH; [| exact H]. intros st'.
    destruct (suit_eqb st' st) eqn:E.
    + apply suit_eqb_eq in E as ->. rewrite get_with_suit_same.
      intros n Hn. apply in_app_iff in Hn as [Hn | [<- | []]]; [now apply (Hr st) | lia].
    + rewrite get_with_suit_other; [apply Hr |]. intros ->. now destruct st.
Qed.

Lemma jjjj_parse_loop_ranks (fuel : nat) :
  forall tiles input tiles',
    (forall st, Grouped.ranks_from 1 (get tiles st)) ->
    Parse.parse_loop fuel tiles input = Ok tiles' ->
    forall st, Grouped.ranks_from 1 (get tiles' st).
Proof.
  induction fuel as [| fuel IH]; intros tiles input tiles' Hr H; [discriminate |].
  cbn [Parse.parse_loop] in H. destruct input as [| c0 l0]; [now injection H as <- |].
  destruct (Parse.collect_numbers (c0 :: l0)) as [numbers rest].
  destruct rest as [| c rest'].
  - destruct (truthy numbers); [discriminate | now injection H as <-].
  - destruct (Parse.suit_of c) as [st |].
    + apply bind_Ok in H as [tiles1 [Happ H]].
      eapply IH; [| exact H]. eapply append_checked_ranks; eassumption.
    + destruct (truthy numbers); [discriminate |]. eapply IH; eassumption.
Qed.

Lemma collect_numbers_ranks (l : list ascii) :
  Grouped.ranks_from 0 (fst (Parse.collect_numbers l)).
Proof.
  induction l as [| c l IH]; cbn [Parse.collect_numbers]; [intros ? [] |].
  destruct (Parse.isdigit c) eqn:E; [| intros ? []].
  destruct (Parse.collect_numbers l) as [numbers rest]. cbn [fst] in *.
  intros n [<- | Hn]; [| now apply IH].
  unfold Parse.isdigit in E. apply andb_true_iff in E as [E1 E2].
  apply Nat.leb_le in E1, E2. unfold Parse.int_of. lia.
Qed.

Lemma lebron_parse_loop_ranks (fuel : nat) :
  forall tiles input tiles',
    (forall st, Grouped.ranks_from 0 (get tiles st)) ->
    Lebron.parse_loop fuel tiles input = Ok tiles' ->
    forall st, Grouped.ranks_from 0 (get tiles' st).
Proof.
  induction fuel as [| fuel IH]; intros tiles input tiles' Hr H; [discriminate |].
  cbn [Lebron.parse_loop] in H. destruct input as [| c0 l0]; [now injection H as <- |].
  pose proof (collect_numbers_ranks (c0 :: l0)) as Hnum.
  destruct (Parse.collect_numbers (c0 :: l0)) as [numbers rest]. cbn [fst] in Hnum.
  destruct rest as [| c rest']; [now injection H as <- |].
  destruct (Parse.suit_of c) as [st |]; [| eapply IH; eassumption].
  eapply IH; [| exact H]. intros st'.
  destruct (suit_eqb st' st) eqn:E.
  - apply suit_eqb_eq in E as ->. rewrite get_with_suit_same.
    intros n Hn. apply in_app_iff in Hn as [Hn | Hn]; [now apply (Hr st) | now apply Hnum].
  - rewrite get_with_suit_other; [apply Hr |]. intros ->. now destruct st.
Qed.

Lemma sort_all_ranks (tiles : hand) (lo : Z) :
  (forall st, Grouped.ranks_from lo (get tiles st)) ->
  forall st, Grouped.ranks_from lo (get (Parse.sort_all tiles) st).
Proof.
  intros H st n Hn. rewrite get_sort_all in Hn. apply (H st).
  now apply (Permutation_in _ (sorted_Permutation _)).
Qed.

(** X8: whatever the text, a dict that [parse_hand] returns has each of
    its four lists in ascending order; its ranks lie between 1 and 9 when
    it comes from jjjj.py or smalljj.py, and between 0 and 9 when it comes
    from lebron.py. *)
Theorem X8_parse_hand_result (input_str : string) (tiles : hand) :
  (Jjjj.parse_hand input_str = Ok tiles \/ Smalljj.parse_hand input_str = Ok tiles ->
   forall st, StronglySorted Z.le (get tiles st) /\ Grouped.ranks_from 1 (get tiles st))
  /\ (Lebron.parse_hand input_str = Ok tiles ->
      forall st, StronglySorted Z.le (get tiles st)
                 /\ Grouped.ranks_from 0 (get tiles st)).
Proof.
  assert (forall st, Grouped.ranks_from 1 (get Parse.empty_hand st)) as H1
      by (intros st n Hn; destruct st; destruct Hn).
  assert (forall st, Grouped.ranks_from 0 (get Parse.empty_hand st)) as H0
      by (intros st n Hn; destruct st; destruct Hn).
  split.
  - intros H st.
    assert (Parse.parse_hand input_str = Ok tiles) as H' by (destruct H; assumption).
    unfold Parse.parse_hand, Parse.parse_hand_fuel in H'.
    destruct (negb (truthy (Parse.normalize (list_ascii_of_string input_str))));
      [discriminate |].
    apply bind_Ok in H' as [tiles0 [Hloop [= <-]]]. split.
    + apply sort_all_sorted.
    + apply sort_all_ranks. eapply jjjj_parse_loop_ranks; eassumption.
  - intros H st. unfold Lebron.parse_hand in H.
    apply bind_Ok in H as [tiles0 [Hloop [= <-]]]. split.
    + apply sort_all_sorted.
    + apply sort_all_ranks. eapply lebron_parse_loop_ranks; eassumption.
Qed.

Lemma X8_parse_hand_result_witness :
  StronglySorted Z.le (get (mkHand [1; 2; 3] [7] [] []) Sm)
  /\ Grouped.ranks_from 1 (get (mkHand [1; 2; 3] [7] [] []) Sm).
Proof.
  apply (proj1 (X8_parse_hand_result "3m7p21m" (mkHand [1; 2; 3] [7] [] []))).
  left. reflexivity.
Defined.

(** ** Checks that cannot succeed *)

Lemma dict_set_set {A V : Type} (eqb : A -> A -> bool)
      (eqb_eq : forall x y, eqb x y = true <-> x = y) (d : dict A V) (k : A) (v v' : V) :
  dict_set eqb (dict_set eqb d k v) k v' = dict_set eqb d k v'.
Proof.
  induction d as [| [k0 v0] d IH]; cbn [dict_set].
  - now rewrite (eqb_refl' eqb eqb_eq).
  - destruct (eqb k0 k) eqn:E; cbn [dict_set]; rewrite E; [reflexivity |].
    now rewrite IH.
Qed.

Lemma dict_values_set_new {A V : Type} (eqb : A -> A -> bool) (d : dict A V)
      (k : A) (v : V) :
  dict_find eqb d k = None -> dict_values (dict_set eqb d k v) = dict_values d ++ [v].
Proof.
  induction d as [| [k0 v0] d IH]; cbn [dict_set dict_find dict_values map snd app];
    [reflexivity |].
  destruct (eqb k0 k); [discriminate |]. intros H. cbn [map snd].
  unfold dict_values in IH. now rewrite IH.
Qed.

(** A key entered for the first time counts 1. *)
Lemma first_entry (sequences : dict tile Z) (seq_key : tile) (allowed : tile -> Prop) :
  ~ allowed seq_key ->
  (forall k, In k (dict_keys sequences) -> allowed k) ->
  Forall (fun c => c = 1) (dict_values sequences) ->
  let entered :=
    dict_set tile_eqb
      (if negb (dict_mem tile_eqb sequences seq_key)
       then dict_set tile_eqb sequences seq_key 0 else sequences)
      seq_key
      (dict_get tile_eqb
         (if negb (dict_mem tile_eqb sequences seq_key)
          then dict_set tile_eqb sequences seq_key 0 else sequences)
         seq_key 0 + 1) in
  (forall k, In k (dict_keys entered) -> allowed k \/ k = seq_key)
  /\ Forall (fun c => c = 1) (dict_values entered).
Proof.
  intros Hnew Hkeys Hones entered.
  assert (dict_find tile_eqb sequences seq_key = None) as Hfind.
  { destruct (dict_find tile_eqb sequences seq_key) eqn:F; [| reflexivity].
    exfalso. apply Hnew, Hkeys, (dict_find_In_keys tile_eqb tile_eqb_eq). congruence. }
  assert (entered = dict_set tile_eqb sequences seq_key 1) as ->.
  { subst entered. unfold dict_mem. rewrite Hfind. cbn [negb].
    unfold dict_get. rewrite (dict_find_set tile_eqb tile_eqb_eq).
    rewrite (eqb_refl' tile_eqb tile_eqb_eq).
    apply (dict_set_set tile_eqb tile_eqb_eq). }
  split.
  - intros k Hk. apply (dict_keys_set_In tile_eqb) in Hk as [-> | Hk]; auto.
  - rewrite dict_values_set_new by assumption. now apply Forall_snoc.
Qed.

Local Abbreviation ippekou_step tile_counts st :=
  (fun (sequences : dict tile Z) (start_num : Z) =>
     if (1 <=? dict_get Z.eqb tile_counts start_num 0)
        && (1 <=? dict_get Z.eqb tile_counts (start_num + 1) 0)
        && (1 <=? dict_get Z.eqb tile_counts (start_num + 2) 0)
     then
       let seq_key := (st, start_num) in
       let sequences :=
         if negb (dict_mem tile_eqb sequences seq_key)
         then dict_set tile_eqb sequences seq_key 0 else sequences in
       dict_set tile_eqb sequences seq_key
                (dict_get tile_eqb sequences seq_key 0 + 1)
     else sequences).

Local Abbreviation ippekou_counts tiles st :=
  (fold_left
     (fun tc num => dict_set Z.eqb tc num (dict_get Z.eqb tc num 0 + 1))
     (get tiles st) []).

Lemma ippekou_suit_loop (tile_counts : dict Z Z) (st : suit) (starts : list Z) :
  forall (sequences : dict tile Z) (allowed : tile -> Prop),
    NoDup starts ->
    (forall n, In n starts -> ~ allowed (st, n)) ->
    (forall k, In k (dict_keys sequences) -> allowed k) ->
    Forall (fun c => c = 1) (dict_values sequences) ->
    (forall k,
        In k (dict_keys (fold_left (ippekou_step tile_counts st) starts sequences)) ->
        allowed k \/ fst k = st)
    /\ Forall (fun c => c = 1)
              (dict_values (fold_left (ippekou_step tile_counts st) starts sequences)).
Proof.
  induction starts as [| n starts IH]; intros sequences allowed Hnd Hnew Hkeys Hones;
    cbn [fold_left].
  - split; [intros k Hk; left; now apply Hkeys | assumption].
  - inversion Hnd as [| ? ? Hn Hnd']; subst.
    assert ((forall k, In k (dict_keys (ippekou_step tile_counts st sequences n)) ->
                       allowed k \/ k = (st, n))
            /\ Forall (fun c => c = 1)
                      (dict_values (ippekou_step tile_counts st sequences n)))
      as [Hkeys1 Hones1].
    { cbv beta.
      destruct ((1 <=? dict_get Z.eqb tile_counts n 0)
                && (1 <=? dict_get Z.eqb tile_counts (n + 1) 0)
                && (1 <=? dict_get Z.eqb tile_counts (n + 2) 0)).
      - apply first_entry; [apply Hnew; now left | assumption | assumption].
      - split; [intros k Hk; left; now apply Hkeys | assumption]. }
    destruct (IH (ippekou_step tile_counts st sequences n)
                (fun k => allowed k \/ k = (st, n)) Hnd') as [Hkeys2 Hones2];
      [| exact Hkeys1 | exact Hones1 |].
    + intros n' Hn' [Ha | [= <-]]; [| contradiction].
      apply (Hnew n'); [now right | assumption].
    + split; [| assumption].
      intros k Hk. destruct (Hkeys2 k Hk) as [[Ha | ->] | Hst]; auto.
Qed.

Lemma ippekou_loops (tiles : hand) (sts : list suit) :
  forall (sequences : dict tile Z) (allowed : tile -> Prop),
    NoDup sts ->
    (forall st n, In st sts -> ~ allowed (st, n)) ->
    (forall k, In k (dict_keys sequences) -> allowed k) ->
    Forall (fun c => c = 1) (dict_values sequences) ->
    Forall (fun c => c = 1)
           (dict_values
              (fold_left
                 (fun sequences st =>
                    fold_left (ippekou_step (ippekou_counts tiles st) st)
                              [1; 2; 3; 4; 5; 6; 7] sequences)
                 sts sequences)).
Proof.
  induction sts as [| st sts IH]; intros sequences allowed Hnd Hnew Hkeys Hones;
    [assumption |].
  inversion Hnd as [| ? ? Hst Hnd']; subst.
  assert (NoDup [1; 2; 3; 4; 5; 6; 7]) as Hstarts.
  { repeat (constructor; [cbn [In]; lia |]). constructor. }
  destruct (ippekou_suit_loop (ippekou_counts tiles st) st [1; 2; 3; 4; 5; 6; 7]
              sequences allowed Hstarts) as [Hkeys1 Hones1]; try assumption.
  { intros n _. apply Hnew. now left. }
  change (Forall (fun c => c = 1)
            (dict_values
               (fold_left
                  (fun sequences st =>
                     fold_left (ippekou_step (ippekou_counts tiles st) st)
                               [1; 2; 3; 4; 5; 6; 7] sequences)
                  sts
                  (fold_left (ippekou_step (ippekou_counts tiles st) st)
                             [1; 2; 3; 4; 5; 6; 7] sequences)))).
  apply (IH (fold_left (ippekou_step (ippekou_counts tiles st) st)
                       [1; 2; 3; 4; 5; 6; 7] sequences)
            (fun k => allowed k \/ fst k = st) Hnd'); [| exact Hkeys1 | exact Hones1].
  intros st' n Hst' [Ha | Heq].
  - apply (Hnew st' n); [now right | assumption].
  - cbn [fst] in Heq. subst st'. contradiction.
Qed.

(** X9: [_check_ippekou] of smalljj.py answers [False] for every dict of
    tiles: each key of [sequences] is entered once, so no count reaches 2,
    and [check_yaku] never gets the pattern of two equal sequences from
    it. *)
Theorem X9_ippekou_never_found (tiles : hand) : Smalljj._check_ippekou tiles = false.
Proof.
  assert (Forall (fun c => c = 1)
            (dict_values
               (fold_left
                  (fun sequences st =>
                     fold_left (ippekou_step (ippekou_counts tiles st) st)
                               [1; 2; 3; 4; 5; 6; 7] sequences)
                  numeric_suits []))) as H.
  { apply (ippekou_loops tiles numeric_suits [] (fun _ => False)).
    - unfold numeric_suits. repeat (constructor; [cbn [In]; intuition discriminate |]).
      constructor.
    - tauto.
    - intros k [].
    - constructor. }
  unfold Smalljj._check_ippekou.
  change (existsb (fun c => 2 <=? c)
            (dict_values
               (fold_left
                  (fun sequences st =>
                     fold_left (ippekou_step (ippekou_counts tiles st) st)
                               [1; 2; 3; 4; 5; 6; 7] sequences)
                  numeric_suits [])) = false).
  induction H as [| c cs -> _ IH]; [reflexivity | exact IH].
Qed.

Lemma list_eqb_eq (l l' : list Z) : list_eqb l l' = true <-> l = l'.
Proof.
  revert l'. induction l as [| x l IH]; intros [| y l']; cbn [list_eqb];
    try (split; [discriminate | congruence]); [tauto |].
  rewrite andb_true_iff, Z.eqb_eq, IH. split; [intros [-> ->] | intros [= -> ->]]; auto.
Qed.

Lemma sorted_length (l : list Z) : length (sorted l) = length l.
Proof. apply Permutation_length, sorted_Permutation. Qed.

(** The list compared with has 13 ranks, the list tested 14. *)
Lemma lebron_nine_gates_never (tiles : hand) : Lebron.nine_gates tiles = false.
Proof.
  unfold Lebron.nine_gates. apply not_true_is_false. intros H.
  apply existsb_exists in H as [st [_ H]]. apply andb_true_iff in H as [H14 Href].
  apply Z.eqb_eq in H14. apply list_eqb_eq in Href.
  apply (f_equal (@length Z)) in Href. rewrite sorted_length in Href.
  unfold len in H14. cbn [length] in Href. lia.
Qed.

Lemma append_if_Forall (P : yaku -> Prop) (b : bool) (yaku_list : list yaku) (y : yaku) :
  Forall P yaku_list -> P y -> Forall P (append_if b yaku_list y).
Proof.
  intros Hl Hy. unfold append_if. destruct b; [now apply Forall_snoc | assumption].
Qed.

Lemma fold_left_Forall {X : Type} (P : yaku -> Prop)
      (f : list yaku -> X -> list yaku) (xs : list X) :
  (forall l x, Forall P l -> Forall P (f l x)) ->
  forall l, Forall P l -> Forall P (fold_left f xs l).
Proof.
  intros Hf. induction xs as [| x xs IH]; intros l Hl; cbn [fold_left]; auto.
Qed.

Ltac keep_let :=
  lazymatch goal with
  | |- Forall ?P (let x := ?e in @?b x) =>
      let s := fresh "kept" in
      change (let x := e in Forall P (b x)); intro s; cbv beta
  end.

Ltac other_names :=
  repeat first
    [ assumption
    | apply Forall_nil
    | apply append_if_Forall
    | apply Forall_snoc
    | match goal with
      | |- Forall _ (let _ := _ in _) => cbv zeta
      | |- fst (_, _) <> _ => cbn [fst]; discriminate
      | |- Forall _ (if ?b then _ else _) => destruct b
      | |- Forall _ (match dict_find ?eqb ?d ?k with _ => _ end) =>
          let E := fresh "E" in
          destruct (dict_find eqb d k) eqn:E;
          [ unfold d in E; cbn [dict_find] in E;
            repeat match type of E with
                   | (if ?c then _ else _) = _ => destruct c
                   end;
            try discriminate E; injection E as <- | ]
      | |- Forall _ (match ?e with _ => _ end) => destruct e
      end ].

Lemma lebron_evaluate_structure_names
      (tiles : hand) (is_tsumo is_menzen is_riichi : bool)
      (structure : list Lebron.meld * tile) :
  Forall (fun y => fst y <> "九蓮寶燈")
         (Lebron.evaluate_structure tiles is_tsumo is_menzen is_riichi structure).
Proof.
  cbv delta [Lebron.evaluate_structure]. cbv beta.
  destruct structure as [melds head].
  stage other_names. stage other_names.
  forget_let. forget_let.
  stage other_names.
  keep_let.
  stage ltac:(apply fold_left_Forall; [intros; other_names | assumption]).
  forget_let.
  stage other_names.
  stage other_names.
  stage other_names.
  forget_let.
  stage other_names.
  stage other_names.
  stage ltac:(apply fold_left_Forall; [intros; other_names | assumption]).
  stage other_names.
  forget_let.
  stage other_names.
  forget_let. forget_let.
  other_names.
Qed.

Lemma lebron_check_yakuman_names (tiles : hand) :
  Forall (fun y => fst y <> "九蓮寶燈") (Lebron._check_yakuman tiles).
Proof.
  unfold Lebron._check_yakuman. rewrite lebron_nine_gates_never.
  repeat match goal with
         | |- Forall _ (if ?b then _ else _) => destruct b
         end; try (repeat constructor; cbn [fst]; discriminate).
  match goal with
  | |- context [fold_left ?f ?l ?a] => destruct (fold_left f l a) as [[triplets dragons] winds]
  end.
  other_names.
Qed.

Lemma lebron_keep_best_names
      (tiles : hand) (is_tsumo is_menzen is_riichi : bool)
      (structures : list (list Lebron.meld * tile)) :
  forall best,
    Forall (fun y => fst y <> "九蓮寶燈") (fst best) ->
    Forall (fun y => fst y <> "九蓮寶燈")
           (fst (fold_left (Lebron.keep_best tiles is_tsumo is_menzen is_riichi)
                           structures best)).
Proof.
  induction structures as [| structure rest IH]; intros best Hbest; cbn [fold_left];
    [assumption |].
  apply IH. unfold Lebron.keep_best. cbv zeta.
  match goal with
  | |- context [if ?b then _ else _] => destruct b
  end; cbn [fst]; auto using lebron_evaluate_structure_names.
Qed.

(** X10: [calculate_fan] of lebron.py never reports the pattern of the
    nine gates: its test compares a list of 14 ranks with a list of 13,
    and no other place adds the name. *)
Theorem X10_lebron_never_nine_gates (tiles : hand) (is_tsumo is_menzen is_riichi : bool) :
  Lebron.nine_gates tiles = false
  /\ match Lebron.calculate_fan tiles is_tsumo is_menzen is_riichi with
     | Ok (yaku_list, _) => Forall (fun y => fst y <> "九蓮寶燈") yaku_list
     | Raise _ | OutOfFuel => True
     end.
Proof.
  split; [apply lebron_nine_gates_never |].
  unfold Lebron.calculate_fan. cbv zeta.
  destruct (negb (total_tiles tiles =? 14)); [exact I |].
  destruct (truthy (Lebron._check_yakuman tiles));
    [apply lebron_check_yakuman_names |].
  destruct (lebron_analyze_hand_total tiles) as [structures ->]. cbn [bind].
  match goal with
  | |- match (if ?b then _ else _) with _ => _ end => destruct b
  end; [repeat constructor; cbn [fst]; discriminate |].
  match goal with
  | |- context [fold_left ?f structures ?best] =>
      pose proof (lebron_keep_best_names tiles is_tsumo is_menzen is_riichi
                    structures best) as Hbest;
      destruct (fold_left f structures best) as [best_yaku_list best_fan]
  end.
  cbn [fst] in Hbest.
  match goal with
  | |- match (if ?b then _ else _) with _ => _ end => destruct b
  end; [repeat constructor; cbn [fst]; discriminate |].
  apply Hbest. other_names.
Qed.

Lemma StronglySorted_unique (l : list Z) :
  forall l', StronglySorted Z.le l -> StronglySorted Z.le l' -> Permutation l l' -> l = l'.
Proof.
  induction l as [| x l IH]; intros l' Hs Hs' Hp.
  - apply Permutation_nil in Hp. now subst.
  - destruct l' as [| y l']; [apply Permutation_sym, Permutation_nil in Hp; discriminate |].
    apply StronglySorted_inv in Hs as [Hs Hx]. apply StronglySorted_inv in Hs' as [Hs' Hy].
    rewrite Forall_forall in Hx, Hy.
    assert (x = y) as ->.
    { assert (In x (y :: l')) as Hxin by (apply (Permutation_in _ Hp); now left).
      assert (In y (x :: l)) as Hyin
          by (apply (Permutation_in _ (Permutation_sym Hp)); now left).
      destruct Hxin as [-> | Hxin]; [reflexivity |].
      destruct Hyin as [-> | Hyin]; [reflexivity |].
      specialize (Hx _ Hyin). specialize (Hy _ Hxin). lia. }
    f_equal. apply IH; try assumption. now apply Permutation_cons_inv in Hp.
Qed.

Lemma sorted_of_Permutation (l l' : list Z) : Permutation l l' -> sorted l = sorted l'.
Proof.
  intros Hp. apply StronglySorted_unique; try apply sorted_sorted.
  now rewrite !sorted_Permutation.
Qed.

Lemma one_suit_held (tiles : hand) (st : suit) :
  filter (fun st' => truthy (get tiles st')) numeric_suits = [st]
  /\ tiles_z tiles = []
  <-> only_suit tiles st /\ get tiles st <> [].
Proof.
  unfold only_suit, numeric_suits.
  destruct tiles as [lm lp ls lz]. cbn [filter get tiles_m tiles_p tiles_s tiles_z].
  split.
  - intros [Hf ->].
    destruct lm as [| a lm], lp as [| b lp], ls as [| c ls]; cbn [truthy] in Hf;
      try discriminate; injection Hf as <-; cbn [get tiles_m tiles_p tiles_s];
        (split; [split; [cbn; tauto |] | discriminate]);
        intros st' Hne; destruct st'; try reflexivity; congruence.
  - intros [[Hin Hothers] Hne].
    destruct st; cbn [In] in Hin; cbn [get tiles_m tiles_p tiles_s tiles_z] in Hne;
      try (exfalso; intuition discriminate).
    + pose proof (Hothers Sp ltac:(discriminate)) as Hp.
      pose proof (Hothers Ss ltac:(discriminate)) as Hs.
      pose proof (Hothers Sz ltac:(discriminate)) as Hz.
      cbn [get tiles_p tiles_s tiles_z] in Hp, Hs, Hz. subst.
      destruct lm; [congruence | now split].
    + pose proof (Hothers Sm ltac:(discriminate)) as Hm.
      pose proof (Hothers Ss ltac:(discriminate)) as Hs.
      pose proof (Hothers Sz ltac:(discriminate)) as Hz.
      cbn [get tiles_m tiles_s tiles_z] in Hm, Hs, Hz. subst.
      destruct lp; [congruence | now split].
    + pose proof (Hothers Sm ltac:(discriminate)) as Hm.
      pose proof (Hothers Sp ltac:(discriminate)) as Hp.
      pose proof (Hothers Sz ltac:(discriminate)) as Hz.
      cbn [get tiles_m tiles_p tiles_z] in Hm, Hp, Hz. subst.
      destruct ls; [congruence | now split].
Qed.

Lemma only_suit_total (tiles : hand) (st : suit) :
  only_suit tiles st -> total_tiles tiles = len (get tiles st).
Proof.
  intros [Hin Hothers]. rewrite total_tiles_unfold.
  change (tiles_m tiles) with (get tiles Sm). change (tiles_p tiles) with (get tiles Sp).
  change (tiles_s tiles) with (get tiles Ss). change (tiles_z tiles) with (get tiles Sz).
  destruct st; cbn [In numeric_suits] in Hin; try (exfalso; intuition discriminate).
  - rewrite (Hothers Sp), (Hothers Ss), (Hothers Sz) by discriminate.
    unfold len. cbn [length]. lia.
  - rewrite (Hothers Sm), (Hothers Ss), (Hothers Sz) by discriminate.
    unfold len. cbn [length]. lia.
  - rewrite (Hothers Sm), (Hothers Sp), (Hothers Sz) by discriminate.
    unfold len. cbn [length]. lia.
Qed.

Lemma smalljj_nine_gates_iff (tiles : hand) :
  Smalljj._check_nine_gates tiles = true
  <-> exists st,
      only_suit tiles st
      /\ Permutation (get tiles st) [1; 1; 1; 2; 3; 4; 5; 6; 7; 8; 9; 9; 9].
Proof.
  unfold Smalljj._check_nine_gates. cbv zeta. split.
  - intros H.
    destruct (filter (fun st => truthy (get tiles st)) numeric_suits)
      as [| st [| st' sts]] eqn:Hf.
    + destruct (negb (len (@nil suit) =? 1) || truthy (tiles_z tiles)); discriminate.
    + change (len [st] =? 1) with true in H. cbn [negb orb] in H.
      destruct (tiles_z tiles) eqn:Hz; [| discriminate]. cbn [truthy] in H.
      apply list_eqb_eq in H. exists st. split.
      * apply one_suit_held. now split.
      * rewrite <- H. symmetry. apply sorted_Permutation.
    + exfalso.
      assert ((len (st :: st' :: sts) =? 1) = false) as E
          by (apply Z.eqb_neq; unfold len; cbn [length]; lia).
      rewrite E in H. discriminate.
  - intros [st [Honly Hp]].
    assert (get tiles st <> []) as Hne.
    { intros E. rewrite E in Hp. apply Permutation_nil in Hp. discriminate. }
    destruct (proj2 (one_suit_held tiles st) (conj Honly Hne)) as [-> ->].
    change (len [st] =? 1) with true. cbn [negb orb truthy].
    rewrite (sorted_of_Permutation _ _ Hp). reflexivity.
Qed.

Lemma smalljj_nine_gates_size (tiles : hand) :
  total_tiles tiles <> 13 -> Smalljj._check_nine_gates tiles = false.
Proof.
  intros Hne. apply not_true_is_false. intros H.
  apply smalljj_nine_gates_iff in H as [st [Honly Hp]].
  rewrite (only_suit_total _ _ Honly) in Hne. unfold len in Hne.
  rewrite (Permutation_length Hp) in Hne. cbn [length] in Hne. lia.
Qed.

(** X11: [_check_nine_gates] of smalljj.py answers [True] exactly for a
    dict whose tiles are the 13 tiles 1112345678999 of one numeric suit;
    such a dict has 13 tiles, so the answer is [False] for every dict of
    14 tiles. *)
Theorem X11_smalljj_nine_gates (tiles : hand) :
  (Smalljj._check_nine_gates tiles = true
   <-> exists st,
       only_suit tiles st
       /\ Permutation (get tiles st) [1; 1; 1; 2; 3; 4; 5; 6; 7; 8; 9; 9; 9])
  /\ (if total_tiles tiles =? 13 then True else Smalljj._check_nine_gates tiles = false).
Proof.
  split; [apply smalljj_nine_gates_iff |].
  destruct (Z.eqb_spec (total_tiles tiles) 13) as [| Hne]; [exact I |].
  now apply smalljj_nine_gates_size.
Qed.

(** ** Hands of one suit in smalljj.py *)

Lemma smalljj_counts_keys (tiles : hand) :
  NoDup (dict_keys (Smalljj._count_tiles tiles))
  /\ forall t, In t (dict_keys (Smalljj._count_tiles tiles)) <-> In t (all_tiles tiles).
Proof.
  rewrite smalljj_count_tiles_tiles. split.
  - apply (tally_keys_NoDup tile_eqb tile_eqb_eq). constructor.
  - intros t. rewrite (tally_keys_In tile_eqb tile_eqb_eq).
    split; [intros [[] | H]; exact H | intros H; now right].
Qed.

Lemma smalljj_counts_mem (tiles : hand) (t : tile) :
  dict_mem tile_eqb (Smalljj._count_tiles tiles) t = true <-> In t (all_tiles tiles).
Proof.
  destruct (smalljj_counts_keys tiles) as [_ Hkeys]. rewrite <- Hkeys.
  rewrite (dict_find_In_keys tile_eqb tile_eqb_eq). unfold dict_mem.
  destruct (dict_find tile_eqb (Smalljj._count_tiles tiles) t); split; congruence.
Qed.

Lemma smalljj_kokushi_needs_honors (tiles : hand) :
  tiles_z tiles = [] -> Smalljj._check_kokushi tiles = false.
Proof.
  intros Hz. unfold Smalljj._check_kokushi. cbv zeta.
  assert (dict_mem tile_eqb (Smalljj._count_tiles tiles) (Sz, 1) = false) as Hmem.
  { apply not_true_is_false. intros H. apply smalljj_counts_mem, In_all_tiles in H.
    cbn [get] in H. rewrite Hz in H. destruct H. }
  unfold Smalljj.yaochuuhai. cbn [forallb]. rewrite Hmem.
  now rewrite !andb_false_r.
Qed.

Lemma smalljj_winds_need_honors (tiles : hand) :
  tiles_z tiles = [] ->
  Smalljj._check_big_four_winds (Smalljj._count_tiles tiles) = false.
Proof.
  intros Hz. unfold Smalljj._check_big_four_winds. cbv zeta. cbn [filter].
  rewrite !smalljj_counts_get. cbn [get]. rewrite Hz. reflexivity.
Qed.

(** With 14 tiles of one numeric suit [check_yaku] stops at the flush, if
    the hand splits, and at no pattern, if it does not. *)
Lemma smalljj_one_suit (tiles : hand) (st : suit) (is_riichi is_tsumo has_pung : bool) :
  total_tiles tiles = 14 -> only_suit tiles st ->
  Smalljj.check_yaku tiles is_riichi is_tsumo has_pung
  = bind (Smalljj._is_valid_winning_pattern tiles)
         (fun valid => Ok (if valid then [("清一色", 6)] else [("無役", 0)])).
Proof.
  intros Htotal Honly.
  destruct (only_suit_non_empty tiles st Htotal Honly) as [Hone Hz].
  unfold Smalljj.check_yaku.
  rewrite (smalljj_kokushi_needs_honors tiles Hz).
  assert (Smalljj._check_nine_gates tiles = false) as ->.
  { apply smalljj_nine_gates_size. lia. }
  rewrite (smalljj_winds_need_honors tiles Hz). cbv zeta. rewrite Hone, Hz.
  destruct (Smalljj._is_valid_winning_pattern tiles) as [[|] | |]; reflexivity.
Qed.

Lemma only_suit_all_tiles (tiles : hand) (st : suit) :
  only_suit tiles st -> all_tiles tiles = map (fun n => (st, n)) (get tiles st).
Proof.
  intros [Hin Hothers]. unfold all_tiles, Melds.tile_list_of, suits. cbn [flat_map].
  destruct st; cbn [In numeric_suits] in Hin; try (exfalso; intuition discriminate).
  - rewrite (Hothers Sp), (Hothers Ss), (Hothers Sz) by discriminate.
    cbn [map app]. now rewrite app_nil_r.
  - rewrite (Hothers Sm), (Hothers Ss), (Hothers Sz) by discriminate.
    cbn [map app]. now rewrite app_nil_r.
  - rewrite (Hothers Sm), (Hothers Sp), (Hothers Sz) by discriminate.
    cbn [map app]. now rewrite app_nil_r.
Qed.

(** X12: for a dict of 14 tiles of one numeric suit, without honor tiles,
    [calculate_fan] of smalljj.py returns the full flush alone, of value
    6, when the tiles split into a pair and groups, and no pattern, of
    value 0, when they do not; [calculate_fan] of jjjj.py returns the full
    flush in both cases. *)
Theorem X12_one_suit_flush (tiles : hand) (st : suit)
        (is_riichi is_tsumo has_pung : bool) :
  total_tiles tiles = 14 -> only_suit tiles st ->
  exists valid,
    Smalljj._is_valid_winning_pattern tiles = Ok valid
    /\ (valid = true <-> exists head gs, pair_and_groups tiles head gs)
    /\ Smalljj.calculate_fan tiles is_riichi is_tsumo has_pung
       = Ok (if valid then ([("清一色", 6)], 6) else ([("無役", 0)], 0))
    /\ Jjjj.calculate_fan tiles = Ok ([("清一色", 6)], 6).
Proof.
  intros Htotal Honly.
  destruct (valid_winning_pattern_decides tiles) as [valid [_ [Hvalid Hiff]]].
  exists valid. split; [assumption |]. split; [| split].
  - rewrite Hiff. split.
    + intros [_ [head [gs [_ Hp]]]]. now exists head, gs.
    + intros [head [gs Hp]]. split; [assumption |]. exists head, gs.
      split; [| assumption].
      destruct Hp as [_ Hperm]. apply Permutation_length in Hperm.
      pose proof (len_all_tiles tiles) as Hlen. unfold len in Hlen.
      cbn [length] in Hperm.
      assert (length (flat_map group_tiles gs) = (3 * length gs)%nat) as H3.
      { clear. induction gs as [| g gs IH]; [reflexivity |].
        cbn [flat_map]. rewrite length_app, IH.
        destruct g; cbn [group_tiles length]; lia. }
      lia.
  - unfold Smalljj.calculate_fan.
    rewrite (smalljj_one_suit tiles st _ _ _ Htotal Honly), Hvalid. cbn [bind].
    now destruct valid.
  - destruct (only_suit_non_empty tiles st Htotal Honly) as [Hone Hz].
    unfold Jjjj.calculate_fan. rewrite (jjjj_flush_first tiles st Hone), Hz.
    reflexivity.
Qed.

Lemma X12_one_suit_flush_witness :
  exists valid,
    Smalljj._is_valid_winning_pattern Hands.seven_pairs_one_suit = Ok valid
    /\ (valid = true <-> exists head gs, pair_and_groups Hands.seven_pairs_one_suit head gs)
    /\ Smalljj.calculate_fan Hands.seven_pairs_one_suit false true false
       = Ok (if valid then ([("清一色", 6)], 6) else ([("無役", 0)], 0))
    /\ Jjjj.calculate_fan Hands.seven_pairs_one_suit = Ok ([("清一色", 6)], 6).
Proof.
  apply (X12_one_suit_flush Hands.seven_pairs_one_suit Sm).
  - reflexivity.
  - split; [cbn; tauto |].
    intros st' Hne. destruct st'; [congruence | reflexivity ..].
Defined.

(** The 13 tiles of the nine gates with any 14th tile of the suit split
    into a pair and four groups. *)
Lemma nine_gates_splits (st : suit) (extra : Z) :
  In st numeric_suits -> 1 <= extra <= 9 ->
  exists head gs,
    Forall legal gs
    /\ Permutation
         (map (fun n => (st, n)) (extra :: [1; 1; 1; 2; 3; 4; 5; 6; 7; 8; 9; 9; 9]))
         (head :: head :: flat_map group_tiles gs).
Proof.
  intros Hst Hextra.
  assert (st <> Sz) as Hz by (intros ->; cbn in Hst; intuition discriminate).
  assert (extra = 1 \/ extra = 2 \/ extra = 3 \/ extra = 4 \/ extra = 5
          \/ extra = 6 \/ extra = 7 \/ extra = 8 \/ extra = 9) as Hcases by lia.
  assert (forall gs, Forall (fun g => match g with Triplet _ => True
                                              | Run st' num => st' = st /\ num <= 7 end) gs ->
                     Forall legal gs) as Hlegal.
  { intros gs H. eapply Forall_impl; [| exact H].
    intros [t | st' num]; cbn; [tauto |]. intros [-> ?]. now split. }
  destruct Hcases as [-> | [-> | [-> | [-> | [-> | [-> | [-> | [-> | ->]]]]]]]].
  - exists (st, 9), [Triplet (st, 1); Run st 1; Run st 4; Run st 7].
    split; [apply Hlegal; repeat constructor; lia |].
    destruct st; try (exfalso; now apply Hz);
      apply (is_perm_sound tile_eqb tile_eqb_eq); reflexivity.
  - exists (st, 2), [Triplet (st, 1); Run st 3; Run st 6; Triplet (st, 9)].
    split; [apply Hlegal; repeat constructor; lia |].
    destruct st; try (exfalso; now apply Hz);
      apply (is_perm_sound tile_eqb tile_eqb_eq); reflexivity.
  - exists (st, 1), [Run st 1; Run st 3; Run st 6; Triplet (st, 9)].
    split; [apply Hlegal; repeat constructor; lia |].
    destruct st; try (exfalso; now apply Hz);
      apply (is_perm_sound tile_eqb tile_eqb_eq); reflexivity.
  - exists (st, 9), [Triplet (st, 1); Run st 2; Run st 4; Run st 7].
    split; [apply Hlegal; repeat constructor; lia |].
    destruct st; try (exfalso; now apply Hz);
      apply (is_perm_sound tile_eqb tile_eqb_eq); reflexivity.
  - exists (st, 5), [Triplet (st, 1); Run st 2; Run st 6; Triplet (st, 9)].
    split; [apply Hlegal; repeat constructor; lia |].
    destruct st; try (exfalso; now apply Hz);
      apply (is_perm_sound tile_eqb tile_eqb_eq); reflexivity.
  - exists (st, 1), [Run st 1; Run st 4; Run st 6; Triplet (st, 9)].
    split; [apply Hlegal; repeat constructor; lia |].
    destruct st; try (exfalso; now apply Hz);
      apply (is_perm_sound tile_eqb tile_eqb_eq); reflexivity.
  - exists (st, 9), [Triplet (st, 1); Run st 2; Run st 5; Run st 7].
    split; [apply Hlegal; repeat constructor; lia |].
    destruct st; try (exfalso; now apply Hz);
      apply (is_perm_sound tile_eqb tile_eqb_eq); reflexivity.
  - exists (st, 8), [Triplet (st, 1); Run st 2; Run st 5; Triplet (st, 9)].
    split; [apply Hlegal; repeat constructor; lia |].
    destruct st; try (exfalso; now apply Hz);
      apply (is_perm_sound tile_eqb tile_eqb_eq); reflexivity.
  - exists (st, 1), [Run st 1; Run st 4; Run st 7; Triplet (st, 9)].
    split; [apply Hlegal; repeat constructor; lia |].
    destruct st; try (exfalso; now apply Hz);
      apply (is_perm_sound tile_eqb tile_eqb_eq); reflexivity.
Qed.

(** X13: a real hand of the nine gates, the tiles 1112345678999 of one
    numeric suit and a 14th tile of that suit, is a winning hand for
    smalljj.py, and [calculate_fan] of smalljj.py and of jjjj.py return for
    it the full flush alone, of value 6: neither reports the nine gates,
    and [_check_nine_gates] of smalljj.py answers [False] for it. *)
Theorem X13_nine_gates_paid_as_flush (tiles : hand) (st : suit) (extra : Z)
        (is_riichi is_tsumo has_pung : bool) :
  only_suit tiles st -> 1 <= extra <= 9 ->
  Permutation (get tiles st) (extra :: [1; 1; 1; 2; 3; 4; 5; 6; 7; 8; 9; 9; 9]) ->
  Smalljj._check_nine_gates tiles = false
  /\ Smalljj._is_valid_winning_pattern tiles = Ok true
  /\ Smalljj.calculate_fan tiles is_riichi is_tsumo has_pung
     = Ok ([("清一色", 6)], 6)
  /\ Jjjj.calculate_fan tiles = Ok ([("清一色", 6)], 6).
Proof.
  intros Honly Hextra Hperm.
  assert (total_tiles tiles = 14) as Htotal.
  { rewrite (only_suit_total _ _ Honly). unfold len.
    now rewrite (Permutation_length Hperm). }
  assert (Smalljj._is_valid_winning_pattern tiles = Ok true) as Hvalid.
  { destruct (valid_winning_pattern_decides tiles) as [valid [_ [Hrun Hiff]]].
    rewrite Hrun. f_equal. apply (proj2 Hiff). split; [assumption |].
    destruct (nine_gates_splits st extra (proj1 Honly) Hextra) as [head [gs [Hl Hp]]].
    assert (pair_and_groups tiles head gs) as Hpg.
    { split; [assumption |]. rewrite (only_suit_all_tiles _ _ Honly), <- Hp.
      now apply Permutation_map. }
    exists head, gs. split; [| assumption].
    destruct Hpg as [_ Hpg]. apply Permutation_length in Hpg.
    pose proof (len_all_tiles tiles) as Hlen. unfold len in Hlen.
    cbn [length] in Hpg.
    assert (length (flat_map group_tiles gs) = (3 * length gs)%nat) as H3.
    { clear. induction gs as [| g gs IH]; [reflexivity |].
      cbn [flat_map]. rewrite length_app, IH.
      destruct g; cbn [group_tiles length]; lia. }
    lia. }
  split; [apply smalljj_nine_gates_size; lia |]. split; [assumption |]. split.
  - unfold Smalljj.calculate_fan.
    rewrite (smalljj_one_suit tiles st _ _ _ Htotal Honly), Hvalid. reflexivity.
  - destruct (only_suit_non_empty tiles st Htotal Honly) as [Hone Hz].
    unfold Jjjj.calculate_fan. rewrite (jjjj_flush_first tiles st Hone), Hz.
    reflexivity.
Qed.

Lemma X13_nine_gates_paid_as_flush_witness :
  Smalljj._check_nine_gates (mkHand [] [1; 1; 1; 2; 3; 4; 5; 5; 6; 7; 8; 9; 9; 9] [] [])
  = false
  /\ Smalljj._is_valid_winning_pattern
       (mkHand [] [1; 1; 1; 2; 3; 4; 5; 5; 6; 7; 8; 9; 9; 9] [] []) = Ok true
  /\ Smalljj.calculate_fan
       (mkHand [] [1; 1; 1; 2; 3; 4; 5; 5; 6; 7; 8; 9; 9; 9] [] []) true true false
     = Ok ([("清一色", 6)], 6)
  /\ Jjjj.calculate_fan (mkHand [] [1; 1; 1; 2; 3; 4; 5; 5; 6; 7; 8; 9; 9; 9] [] [])
     = Ok ([("清一色", 6)], 6).
Proof.
  apply (X13_nine_gates_paid_as_flush
           (mkHand [] [1; 1; 1; 2; 3; 4; 5; 5; 6; 7; 8; 9; 9; 9] [] []) Sp 5).
  - split; [cbn; tauto |].
    intros st' Hne. destruct st'; [reflexivity | congruence | reflexivity ..].
  - lia.
  - apply (is_perm_sound Z.eqb Z_eqb_eq). reflexivity.
Defined.

(** ** The thirteen orphans in smalljj.py *)

Lemma tile_eq_dec (a b : tile) : {a = b} + {a <> b}.
Proof.
  destruct (tile_eqb a b) eqn:E.
  - left. now apply tile_eqb_eq.
  - right. intros H. apply tile_eqb_eq in H. congruence.
Qed.

Lemma Permutation_of_counts (l l' : list tile) :
  (forall t, count tile_eqb t l = count tile_eqb t l') -> Permutation l l'.
Proof.
  intros H. apply (Permutation_count_occ tile_eq_dec). intros t.
  specialize (H t).
  rewrite !(count_count_occ tile_eqb tile_eqb_eq tile_eq_dec) in H. lia.
Qed.

Lemma In_count_pos (t : tile) (l : list tile) : In t l -> 1 <= count tile_eqb t l.
Proof.
  intros H. apply in_split in H as [l1 [l2 ->]].
  rewrite (count_app tile_eqb), count_cons, (eqb_refl' tile_eqb tile_eqb_eq).
  pose proof (count_nonneg tile_eqb t l1). pose proof (count_nonneg tile_eqb t l2). lia.
Qed.

Lemma count_not_In (t : tile) (l : list tile) : ~ In t l -> count tile_eqb t l = 0.
Proof.
  intros H. pose proof (count_nonneg tile_eqb t l).
  destruct (Z.eq_dec (count tile_eqb t l) 0) as [| Hne]; [assumption |].
  exfalso. apply H, (count_pos_In tile_eqb tile_eqb_eq). lia.
Qed.

Lemma smalljj_counts_get_tile (tiles : hand) (t : tile) :
  dict_get tile_eqb (Smalljj._count_tiles tiles) t 0 = count tile_eqb t (all_tiles tiles).
Proof. destruct t as [st d]. now rewrite smalljj_counts_get, count_all_tiles. Qed.

Lemma yaochuuhai_NoDup : NoDup Smalljj.yaochuuhai.
Proof.
  unfold Smalljj.yaochuuhai.
  repeat (constructor;
          [intros H; cbn [In] in H;
           repeat (destruct H as [H | H]; [discriminate H |]); exact H |]).
  constructor.
Qed.

Lemma forallb_eq {A : Type} (f g : A -> bool) (l : list A) :
  (forall x, f x = g x) -> forallb f l = forallb g l.
Proof.
  intros H. induction l as [| x l IH]; [reflexivity |].
  cbn [forallb]. now rewrite H, IH.
Qed.

(** The test of smalljj.py in terms of the tiles. *)
Lemma smalljj_kokushi_unfold (tiles : hand) :
  Smalljj._check_kokushi tiles
  = forallb (fun t => mem tile_eqb t (all_tiles tiles)) Smalljj.yaochuuhai
    && (sum (map (fun t => count tile_eqb t (all_tiles tiles)) Smalljj.yaochuuhai) =? 14)
    && (len (dict_keys (Smalljj._count_tiles tiles)) =? 13).
Proof.
  unfold Smalljj._check_kokushi. cbv zeta.
  assert (forallb (fun t => dict_mem tile_eqb (Smalljj._count_tiles tiles) t)
                  Smalljj.yaochuuhai
          = forallb (fun t => mem tile_eqb t (all_tiles tiles)) Smalljj.yaochuuhai) as ->.
  { apply forallb_eq. intros t.
    destruct (mem tile_eqb t (all_tiles tiles)) eqn:M.
    - apply smalljj_counts_mem. now apply (mem_In tile_eqb tile_eqb_eq).
    - apply not_true_is_false. intros H. apply smalljj_counts_mem in H.
      apply (mem_In tile_eqb tile_eqb_eq) in H. congruence. }
  assert (map (fun t => dict_get tile_eqb (Smalljj._count_tiles tiles) t 0)
              Smalljj.yaochuuhai
          = map (fun t => count tile_eqb t (all_tiles tiles)) Smalljj.yaochuuhai) as ->.
  { apply map_ext. intros t. apply smalljj_counts_get_tile. }
  assert (len (Smalljj._count_tiles tiles)
          = len (dict_keys (Smalljj._count_tiles tiles))) as ->.
  { unfold len, dict_keys. now rewrite length_map. }
  generalize (forallb (fun t => mem tile_eqb t (all_tiles tiles)) Smalljj.yaochuuhai).
  intros [|]; reflexivity.
Qed.
